(** * Blog topic monitor: clustering, heat scoring and ranking

    A shallow embedding of [scripts/analyze_topics.py],
    [scripts/calculate_heat.py], the orchestration of
    [scripts/scheduler.py] and three functions of
    [scripts/generate_report.py], with the properties the design document
    states about them.  The fetch stage of [scripts/fetch_blogs.py] and
    the report renderer are collaborators with effects.

    Conventions of the embedding:
    - a Python [float] is an IEEE 754 binary64 value, computed with the
      Standard Library's executable specification [SpecFloat] (precision 53,
      [emax] 1024, round to nearest, ties to even);
    - a Python [str] is a [string] holding its UTF-8 encoding, one [ascii]
      per byte; [len] and the slices count characters, not bytes
      ([py_len], [take_string]);
    - a [dict] read with [.get(k, default)] at a typed position is a record
      field; the reply of the language model to the clustering prompt,
      which the code walks without checking its shape, is an untyped [json]
      value; the annotation of an article is read at the types of the data
      model ([RawAnalysis]), and what the code does on an annotation of
      another shape is stated apart ([avg_depth_decoded]);
    - logging, the calls to the language-model service and the files written
      are effects of a small state-and-exception monad [M] over a [World]. *)

From Stdlib Require Import ZArith String Ascii.
From Stdlib Require Import Floats.SpecFloat.
From stdpp Require Import gmap strings list sorting.

#[local] Set Warnings "-register-all".
#[local] Open Scope Z_scope.

(* ===================================================================== *)
(** ** Python floats *)
(* ===================================================================== *)

Module PyFloat.

Definition prec : Z := 53.
Definition emax : Z := 1024.

Definition float : Type := spec_float.

Definition add : float -> float -> float := SFadd prec emax.
Definition mul : float -> float -> float := SFmul prec emax.
Definition div : float -> float -> float := SFdiv prec emax.
Definition ltb : float -> float -> bool := SFltb.
Definition leb : float -> float -> bool := SFleb.
Definition eqb : float -> float -> bool := SFeqb.

(** [float(n)] for a Python [int]: the nearest binary64 value.  CPython
    raises [OverflowError] from [2^1024 - 2^970] on; the embedding uses the
    conversion only on list lengths and small literals, all below [2^63],
    where it is exact. *)
Definition of_Z (n : Z) : float := binary_normalize prec emax n 0 false.

Definition of_nat (n : nat) : float := of_Z (Z.of_nat n).

(** The binary64 value nearest to the fraction [n / d] of two positive
    integers, with sign [s]: how a decimal literal such as [0.5] or a JSON
    number such as [0.8] is read. *)
Definition ratio (s : bool) (n d : Z) : float :=
  let '(mz, ez, lz) := SFdiv_core_binary prec emax n 0 d 0 in
  binary_round_aux prec emax s mz ez lz.

(** The literal [m / 10^k], e.g. [decimal 5 1] for [0.5]. *)
Definition decimal (m : Z) (k : nat) : float :=
  match m with
  | Z0 => S754_zero false
  | Zpos _ => ratio false m (10 ^ Z.of_nat k)
  | Zneg p => ratio true (Zpos p) (10 ^ Z.of_nat k)
  end.

(** Integer nearest to [n / d] ([d > 0]), ties to the even integer. *)
Definition div_half_even (n d : Z) : Z :=
  let q := n / d in
  let r := n mod d in
  match 2 * r ?= d with
  | Lt => q
  | Gt => q + 1
  | Eq => if Z.even q then q else q + 1
  end.

(** The number of tenths nearest to the exact value [m * 2^e]. *)
Definition tenths (m : positive) (e : Z) : Z :=
  match e with
  | Zneg p => div_half_even (10 * Zpos m) (2 ^ Zpos p)
  | _ => 10 * Zpos m * 2 ^ e
  end.

(** [round(x, 1)]: CPython prints [x] correctly rounded to one decimal
    (ties to even, on the exact binary value) and reads the decimal back
    as the nearest float; NaN and the infinities round to themselves. *)
Definition round1 (x : float) : float :=
  match x with
  | S754_finite s m e =>
      match tenths m e with
      | Zpos t => ratio s (Zpos t) 10
      | _ => S754_zero s
      end
  | _ => x
  end.

(** [min(x, k)] for a float [x] and an [int] literal [k]: the builtin keeps
    its first argument unless the second is strictly smaller. *)
Definition min_int (x : float) (k : Z) : float :=
  if ltb (of_Z k) x then of_Z k else x.

(** [sum(xs)]: the builtin starts from the [int] 0 and adds from the left. *)
Definition sum (xs : list float) : float := fold_left add xs (of_Z 0).

Definition is_nan (x : float) : bool :=
  match x with S754_nan => true | _ => false end.

End PyFloat.

Abbreviation float := PyFloat.float.

(* ===================================================================== *)
(** ** JSON values and the Python operations the code applies to them *)
(* ===================================================================== *)

Inductive json : Type :=
  | JNull
  | JBool (b : bool)
  | JInt (z : Z)
  | JFloat (f : float)
  | JStr (s : string)
  | JArr (items : list json)
  | JObj (fields : list (string * json)).

(** The exceptions that occur; every one is an instance of Python's
    [Exception], which is what the handlers of this program catch. *)
Inductive exn : Type :=
  | ValueError (msg : string)
  | KeyError (key : string)
  | TypeError
  | JSONDecodeError
  | ServiceError (code : nat)
  | IOError (path : string).

(** Pure computations that may raise. *)
Definition result (A : Type) : Type := exn + A.

Definition ok {A} (a : A) : result A := inr a.
Definition raise {A} (e : exn) : result A := inl e.

Definition rbind {A B} (r : result A) (k : A -> result B) : result B :=
  match r with
  | inl e => inl e
  | inr a => k a
  end.

#[global] Instance result_ret : MRet result := @ok.
#[global] Instance result_bind : MBind result := fun A B k r => rbind r k.

(** Lookup in the items of an object: the first binding of the key. *)
Fixpoint assoc {A} (k : string) (kvs : list (string * A)) : option A :=
  match kvs with
  | [] => None
  | (k', v) :: rest => if String.eqb k k' then Some v else assoc k rest
  end.

(** [v[key]] for a [str] key. *)
Definition py_getitem (v : json) (key : string) : result json :=
  match v with
  | JObj fields =>
      match assoc key fields with
      | Some x => ok x
      | None => raise (KeyError key)
      end
  | _ => raise TypeError
  end.

(** [v.get(key, dflt)] on a [dict]. *)
Definition py_get (v : json) (key : string) (dflt : json) : json :=
  match v with
  | JObj fields => default dflt (assoc key fields)
  | _ => dflt
  end.

(** A byte [10xxxxxx] continues the character begun before it. *)
Definition continuation (c : ascii) : bool :=
  match c with
  | Ascii _ _ _ _ _ _ b6 b7 => b7 && negb b6
  end.

(** [len(s)]: the number of characters. *)
Fixpoint py_len (s : string) : nat :=
  match s with
  | EmptyString => 0
  | String c rest => if continuation c then py_len rest else S (py_len rest)
  end.

(** The one-character strings of a [str]: a byte is put before the
    character that follows when that one starts with a continuation
    byte. *)
Definition starts_continued (s : string) : bool :=
  match s with
  | String c _ => continuation c
  | EmptyString => false
  end.

Fixpoint chars (s : string) : list string :=
  match s with
  | EmptyString => []
  | String c rest =>
      match starts_continued rest, chars rest with
      | true, first :: others => String c first :: others
      | _, others => String c EmptyString :: others
      end
  end.

(** [for x in v]: the elements of a list, the keys of a dict, the
    characters of a string; anything else is not iterable. *)
Definition py_iter (v : json) : result (list json) :=
  match v with
  | JArr items => ok items
  | JObj fields => ok ((fun kv => JStr (fst kv)) <$> fields)
  | JStr s => ok (JStr <$> chars s)
  | _ => raise TypeError
  end.

Fixpoint is_substring (needle hay : string) : bool :=
  String.prefix needle hay
  || match hay with
     | EmptyString => false
     | String _ rest => is_substring needle rest
     end.

Definition json_is_str (t : string) (v : json) : bool :=
  match v with
  | JStr s => String.eqb t s
  | _ => false
  end.

(** [t in v] for a [str] [t]: equality with an element of a list, key of a
    dict, substring of a string; [TypeError] on the other values. *)
Definition py_contains (t : string) (v : json) : result bool :=
  match v with
  | JArr items => ok (existsb (json_is_str t) items)
  | JObj fields => ok (existsb (fun kv => String.eqb t (fst kv)) fields)
  | JStr s => ok (is_substring t s)
  | _ => raise TypeError
  end.

(* ===================================================================== *)
(** ** Data model *)
(* ===================================================================== *)

(** An article after topic analysis.  The fields the code reads with
    [.get(key, default)] and one default only are plain fields holding the
    default when the key is absent; [category] is read with two different
    defaults, so its absence is kept. *)
Module Article.
Record t : Type := mk {
  title : string;
  link : string;
  source : string;
  summary : string;
  content : string;
  published : string;
  category : option string;
  main_topics : list string;
  keywords : list string;
  discussion_depth : gmap string float;
}.
End Article.

(** One entry of [all_topics]. *)
Module TopicInstance.
Record t : Type := mk {
  topic : string;
  article : Article.t;
  depth : float;
}.
End TopicInstance.

(** One entry of a cluster's [articles] list. *)
Module Snapshot.
Record t : Type := mk {
  title : string;
  link : string;
  source : string;
  summary : string;
  content : string;
  depth : float;
  published : string;
  category : string;
}.
End Snapshot.

Module TopicCluster.
Record t : Type := mk {
  canonical_name : json;
  category : json;
  articles : list Snapshot.t;
  total_mentions : nat;
  avg_depth : float;
}.
End TopicCluster.

(** A cluster with its [heat_score], and its [rank] once assigned. *)
Module ScoredTopic.
Record t : Type := mk {
  cluster : TopicCluster.t;
  heat_score : float;
  rank : option nat;
}.
End ScoredTopic.

Module Category.
Record t : Type := mk {
  name : string;
  priority_weight : float;
}.
End Category.

(** [config/categories.json]. *)
Record CategoriesConfig : Type := {
  categories : list Category.t;
  default_category : string;
}.

(** [config/config.json]: the settings this part of the program reads.
    [zhipu_api_key] is read with [config.get], so it may be absent. *)
Record Config : Type := {
  zhipu_api_key : option string;
  min_articles_threshold : Z;
  topics_per_report : Z;
}.

(** The category name used when a cluster or an article has none. *)
Definition industry_news : string := "行业动态".

(* ===================================================================== *)
(** ** Effects: log, service calls, files *)
(* ===================================================================== *)

Inductive level : Type := INFO | WARNING | ERROR.

(** What is sent to the language model. *)
Inductive prompt : Type :=
  | ExtractPrompt (title source summary content : string)
                  (category_names : list string)
  | ClusterPrompt (unique_topics : list string)
  | ReportPrompt.

(** The logging calls, one constructor per call site; the lines of
    [fetch_blogs.py] are kept as text. *)
Inductive message : Type :=
  | CallFailed (e : exn)
  | Analyzing (title : string)
  | Extracted (n : nat)
  | ExtractFailed (e : exn)
  | AnalyzeStart (n : nat)
  | Progress (i n : nat)
  | ArticleFailed (title : string) (e : exn)
  | AnalyzeDone (n : nat)
  | ClusterStart
  | NoTopicsFound
  | Collected (n : nat)
  | Deduplicated (n : nat)
  | ClusterDone (n : nat)
  | ClusterFailed (e : exn)
  | UsingFallback
  | Saved (path : string)
  | HeatStart (n : nat)
  | HeatOf (name : json) (score : float)
  | HeatDone
  | Banner
  | TaskStart (slot : string)
  | Stage (k : nat)
  | NoArticles (slot : string)
  | Fetched (n : nat)
  | BelowThreshold (slot : string)
  | NoTopicsRun (slot : string)
  | Identified (n : nat)
  | TaskDone (slot : string) (n : nat)
  | TaskFailed (slot : string) (e : exn)
  | FetchLine (line : string).

(** The files written: [raw/<date>/articles_<HHMM>.json] by the fetch
    stage, [processed/<date>/topics.json] and
    [processed/<date>/heat_scores_<slot>.json] by the analysis, the report
    by the renderer. *)
Inductive artifact : Type :=
  | ArticlesFile (date hhmm : string) (articles : list Article.t)
  | TopicsFile (date : string) (clusters : list TopicCluster.t)
  | HeatFile (date slot : string) (topics : list ScoredTopic.t)
  | ReportFile (date slot : string) (topics : list ScoredTopic.t).

Record World : Type := {
  requests : list prompt;
  log : list (level * message);
  written : list artifact;
}.

Definition M (A : Type) : Type := World -> result A * World.

#[global] Instance M_ret : MRet M := fun A a w => (ok a, w).
#[global] Instance M_bind : MBind M := fun A B k m w =>
  match m w with
  | (inl e, w') => (inl e, w')
  | (inr a, w') => k a w'
  end.

Definition throw {A} (e : exn) : M A := fun w => (raise e, w).

Definition lift {A} (r : result A) : M A := fun w => (r, w).

(** [try: body except Exception as e: handler e]. *)
Definition try_except {A} (body : M A) (handler : exn -> M A) : M A :=
  fun w =>
    match body w with
    | (inl e, w') => handler e w'
    | (inr a, w') => (inr a, w')
    end.

Definition logger (l : level) (m : message) : M unit :=
  fun w => (ok tt, {| requests := requests w;
                      log := log w ++ [(l, m)];
                      written := written w |}).

Definition write (a : artifact) : M unit :=
  fun w => (ok tt, {| requests := requests w;
                      log := log w;
                      written := written w ++ [a] |}).

(* ===================================================================== *)
(** ** [analyze_topics.py]: topic instances and clustering *)
(* ===================================================================== *)

Definition half : float := PyFloat.decimal 5 1.

(** [sum(depths) / len(depths) if depths else 0.5]. *)
Definition mean (depths : list float) : float :=
  match depths with
  | [] => half
  | _ :: _ => PyFloat.div (PyFloat.sum depths) (PyFloat.of_nat (length depths))
  end.

(** The instances one article contributes: the inner loop that fills
    [all_topics], skipping the empty labels. *)
Definition instances_of (a : Article.t) : list TopicInstance.t :=
  Article.main_topics a ≫= fun topic =>
    match topic with
    | EmptyString => []
    | String _ _ =>
        [ TopicInstance.mk topic a
            (default half (Article.discussion_depth a !! topic)) ]
    end.

Definition collect_topics (articles_with_topics : list Article.t)
  : list TopicInstance.t :=
  articles_with_topics ≫= instances_of.

(** The dictionary appended to a cluster's [articles]. *)
Definition snapshot_of (ti : TopicInstance.t) : Snapshot.t :=
  let a := TopicInstance.article ti in
  {| Snapshot.title := Article.title a;
     Snapshot.link := Article.link a;
     Snapshot.source := Article.source a;
     Snapshot.summary := Article.summary a;
     Snapshot.content := Article.content a;
     Snapshot.depth := TopicInstance.depth ti;
     Snapshot.published := Article.published a;
     Snapshot.category := default EmptyString (Article.category a) |}.

Definition link_of (ti : TopicInstance.t) : string :=
  Article.link (TopicInstance.article ti).

(** *** The grouped path *)

(** The state of the scan of [all_topics] for one proposed group. *)
Record scan : Type := {
  cluster_articles : list Snapshot.t;
  depths : list float;
  assigned_articles : gset string;
}.

Definition scan_start (assigned : gset string) : scan :=
  {| cluster_articles := []; depths := []; assigned_articles := assigned |}.

Definition scan_add (ti : TopicInstance.t) (st : scan) : scan :=
  {| cluster_articles := cluster_articles st ++ [snapshot_of ti];
     depths := depths st ++ [TopicInstance.depth ti];
     assigned_articles := {[ link_of ti ]} ∪ assigned_articles st |}.

(** [for topic_instance in all_topics: ...] for one group. *)
Fixpoint assign_group (merged_topics : json)
    (all_topics : list TopicInstance.t) (st : scan) : result scan :=
  match all_topics with
  | [] => ok st
  | ti :: rest =>
      if bool_decide (link_of ti ∈ assigned_articles st)
      then assign_group merged_topics rest st
      else
        hit ← py_contains (TopicInstance.topic ti) merged_topics;
        if hit : bool
        then assign_group merged_topics rest (scan_add ti st)
        else assign_group merged_topics rest st
  end.

Definition cluster_of (canonical_name : json) (cluster : json) (st : scan)
  : TopicCluster.t :=
  {| TopicCluster.canonical_name := canonical_name;
     TopicCluster.category := py_get cluster "category" (JStr industry_news);
     TopicCluster.articles := cluster_articles st;
     TopicCluster.total_mentions := length (cluster_articles st);
     TopicCluster.avg_depth := mean (depths st) |}.

(** [for cluster in clusters_raw: ...], with the clusters built so far and
    the global set of assigned links. *)
Fixpoint build_clusters (all_topics : list TopicInstance.t)
    (clusters_raw : list json) (clusters : list TopicCluster.t)
    (assigned : gset string) : result (list TopicCluster.t) :=
  match clusters_raw with
  | [] => ok clusters
  | cluster :: rest =>
      canonical_name ← py_getitem cluster "canonical_name";
      merged_topics ← py_getitem cluster "merged_topics";
      st ← assign_group merged_topics all_topics (scan_start assigned);
      let clusters' :=
        match cluster_articles st with
        | [] => clusters
        | _ :: _ => clusters ++ [cluster_of canonical_name cluster st]
        end in
      build_clusters all_topics rest clusters' (assigned_articles st)
  end.

(** The body of the [try] after [json.loads]. *)
Definition grouped_clusters (all_topics : list TopicInstance.t)
    (clusters_raw : json) : result (list TopicCluster.t) :=
  groups ← py_iter clusters_raw;
  build_clusters all_topics groups [] ∅.

(** *** The degraded path *)

(** A value of the [clusters] dictionary of the fallback. *)
Record entry : Type := {
  e_canonical_name : string;
  e_category : string;
  e_articles : list Snapshot.t;
  e_depths : list float;
}.

Definition entry_new (ti : TopicInstance.t) : entry :=
  {| e_canonical_name := TopicInstance.topic ti;
     e_category :=
       default industry_news (Article.category (TopicInstance.article ti));
     e_articles := [];
     e_depths := [] |}.

Definition entry_add (ti : TopicInstance.t) (c : entry) : entry :=
  {| e_canonical_name := e_canonical_name c;
     e_category := e_category c;
     e_articles := e_articles c ++ [snapshot_of ti];
     e_depths := e_depths c ++ [TopicInstance.depth ti] |}.

(** A [dict] with [str] keys in insertion order. *)
Definition odict (A : Type) : Type := list (string * A).

(** [d[k] = v] for a key that is not in [d]. *)
Definition odict_new {A} (k : string) (v : A) (d : odict A) : odict A :=
  d ++ [(k, v)].

(** In-place change of [d[k]]. *)
Fixpoint odict_alter {A} (f : A -> A) (k : string) (d : odict A) : odict A :=
  match d with
  | [] => []
  | (k', v) :: rest =>
      if String.eqb k k' then (k', f v) :: rest
      else (k', v) :: odict_alter f k rest
  end.

(** [for topic_instance in all_topics: ...] of the fallback, with the
    [clusters] dictionary and the map from link to first topic. *)
Fixpoint fallback_scan (all_topics : list TopicInstance.t)
    (clusters : odict entry) (assigned : gmap string string) : odict entry :=
  match all_topics with
  | [] => clusters
  | ti :: rest =>
      let topic_name := TopicInstance.topic ti in
      let article_link := link_of ti in
      match assigned !! article_link with
      | Some _ => fallback_scan rest clusters assigned
      | None =>
          let assigned' := <[article_link := topic_name]> assigned in
          let clusters1 :=
            match assoc topic_name clusters with
            | None => odict_new topic_name (entry_new ti) clusters
            | Some _ => clusters
            end in
          fallback_scan rest (odict_alter (entry_add ti) topic_name clusters1)
            assigned'
      end
  end.

Definition cluster_of_entry (c : entry) : TopicCluster.t :=
  {| TopicCluster.canonical_name := JStr (e_canonical_name c);
     TopicCluster.category := JStr (e_category c);
     TopicCluster.articles := e_articles c;
     TopicCluster.total_mentions := length (e_articles c);
     TopicCluster.avg_depth := mean (e_depths c) |}.

Definition fallback_clusters (all_topics : list TopicInstance.t)
  : list TopicCluster.t :=
  (fun kv => cluster_of_entry (snd kv)) <$> fallback_scan all_topics [] ∅.

(** *** The program over its environment *)

Section Program.

(** The two configuration files, the language-model endpoint (its reply to
    the request numbered by how many were sent before), [json.loads] and
    [str.strip]. *)
Variable config : Config.
Variable categories_config : CategoriesConfig.
Variable service : nat -> prompt -> result string.
Variable json_loads : string -> option json.
Variable str_strip : string -> string.

Definition key_missing : exn :=
  ValueError "智谱AI API Key未配置，请在config/config.json中设置".

(** [client.chat.completions.create(...)]. *)
Definition request (p : prompt) : M string :=
  fun w => (service (length (requests w)) p,
            {| requests := requests w ++ [p];
               log := log w;
               written := written w |}).

Definition call_zhipu_ai (p : prompt) : M string :=
  match zhipu_api_key config with
  | Some (String _ _) =>
      try_except (request p)
        (fun e => logger ERROR (CallFailed e);; throw e)
  | _ => throw key_missing
  end.

Definition drop_string (n : nat) (s : string) : string :=
  String.substring n (String.length s - n) s.

Definition ends_with (suffix s : string) : bool :=
  let n := String.length suffix in
  let k := String.length s in
  (n <=? k)%nat && String.eqb (String.substring (k - n) n s) suffix.

(** The removal of a Markdown code fence around the reply. *)
Definition clean_response (response : string) : string :=
  let r := str_strip response in
  let r := if String.prefix "```json" r then drop_string 7 r else r in
  let r := if String.prefix "```" r then drop_string 3 r else r in
  let r := if ends_with "```" r
           then String.substring 0 (String.length r - 3) r else r in
  str_strip r.

Definition loads (s : string) : result json :=
  match json_loads s with
  | Some v => ok v
  | None => raise JSONDecodeError
  end.

(** [list(set(t['topic'] for t in all_topics))]; the order of a Python set
    is unspecified and only the prompt depends on it. *)
Definition unique_topics (all_topics : list TopicInstance.t) : list string :=
  elements (list_to_set (TopicInstance.topic <$> all_topics) : gset string).

Definition cluster_topics (articles_with_topics : list Article.t)
  : M (list TopicCluster.t) :=
  logger INFO ClusterStart;;
  let all_topics := collect_topics articles_with_topics in
  match all_topics with
  | [] => logger WARNING NoTopicsFound;; mret []
  | _ :: _ =>
      logger INFO (Collected (length all_topics));;
      let unique := unique_topics all_topics in
      logger INFO (Deduplicated (length unique));;
      try_except
        (response ← call_zhipu_ai (ClusterPrompt unique);
         clusters_raw ← lift (loads (clean_response response));
         clusters ← lift (grouped_clusters all_topics clusters_raw);
         logger INFO (ClusterDone (length clusters));;
         mret clusters)
        (fun e =>
           logger ERROR (ClusterFailed e);;
           logger WARNING UsingFallback;;
           mret (fallback_clusters all_topics))
  end.

(** *** Topic extraction *)

(** What [json.loads] yields for the reply to an extraction prompt: the
    annotation of the data model, each key possibly absent. *)
Record RawAnalysis : Type := {
  r_main_topics : option (list string);
  r_category : option string;
  r_keywords : option (list string);
  r_discussion_depth : option (gmap string float);
}.

(** [json.loads] on the reply to an extraction prompt; [None] when the
    text is not JSON. *)
Variable loads_analysis : string -> option RawAnalysis.

Record Analysis : Type := {
  an_main_topics : list string;
  an_category : string;
  an_keywords : list string;
  an_discussion_depth : gmap string float;
}.

(** The result returned when the extraction fails. *)
Definition empty_analysis : Analysis :=
  {| an_main_topics := [];
     an_category := default_category categories_config;
     an_keywords := [];
     an_discussion_depth := ∅ |}.

(** The defaults filled in after [json.loads], and the reads with
    [analysis.get] of the caller. *)
Definition validate (r : RawAnalysis) : Analysis :=
  {| an_main_topics := default [] (r_main_topics r);
     an_category := default (default_category categories_config) (r_category r);
     an_keywords := default [] (r_keywords r);
     an_discussion_depth := default ∅ (r_discussion_depth r) |}.

Fixpoint take_string (n : nat) (s : string) : string :=
  match s with
  | EmptyString => EmptyString
  | String c rest =>
      if continuation c then String c (take_string n rest)
      else match n with
           | O => EmptyString
           | S k => String c (take_string k rest)
           end
  end.

Definition extract_prompt (article : Article.t) : prompt :=
  ExtractPrompt (Article.title article) (Article.source article)
    (take_string 500 (Article.summary article))
    (take_string 1000 (Article.content article))
    (Category.name <$> categories categories_config).

Definition extract_topics_from_article (article : Article.t) : M Analysis :=
  logger INFO (Analyzing (take_string 50 (Article.title article)));;
  try_except
    (response ← call_zhipu_ai (extract_prompt article);
     result ← lift (match loads_analysis (clean_response response) with
                    | Some r => ok (validate r)
                    | None => raise JSONDecodeError
                    end);
     logger INFO (Extracted (length (an_main_topics result)));;
     mret result)
    (fun e =>
       logger ERROR (ExtractFailed e);;
       mret empty_analysis).

(** [{**article, 'main_topics': ..., 'category': ..., ...}]. *)
Definition with_topics (article : Article.t) (analysis : Analysis)
  : Article.t :=
  {| Article.title := Article.title article;
     Article.link := Article.link article;
     Article.source := Article.source article;
     Article.summary := Article.summary article;
     Article.content := Article.content article;
     Article.published := Article.published article;
     Article.category := Some (an_category analysis);
     Article.main_topics := an_main_topics analysis;
     Article.keywords := an_keywords analysis;
     Article.discussion_depth := an_discussion_depth analysis |}.

(** [article['main_topics'] = []]. *)
Definition without_topics (article : Article.t) : Article.t :=
  {| Article.title := Article.title article;
     Article.link := Article.link article;
     Article.source := Article.source article;
     Article.summary := Article.summary article;
     Article.content := Article.content article;
     Article.published := Article.published article;
     Article.category := Article.category article;
     Article.main_topics := [];
     Article.keywords := Article.keywords article;
     Article.discussion_depth := Article.discussion_depth article |}.

(** The loop of [analyze_all_articles], from the article numbered [i] of
    [n]. *)
Fixpoint analyze_loop (i n : nat) (articles : list Article.t)
    (analyzed_articles : list Article.t) : M (list Article.t) :=
  match articles with
  | [] => mret analyzed_articles
  | article :: rest =>
      logger INFO (Progress i n);;
      article' ← try_except
        (analysis ← extract_topics_from_article article;
         mret (with_topics article analysis))
        (fun e =>
           logger ERROR
             (ArticleFailed (take_string 50 (Article.title article)) e);;
           mret (without_topics article));
      analyze_loop (S i) n rest (analyzed_articles ++ [article'])
  end.

Definition analyze_all_articles (articles : list Article.t)
  : M (list Article.t) :=
  logger INFO (AnalyzeStart (length articles));;
  analyzed_articles ← analyze_loop 1 (length articles) articles [];
  logger INFO (AnalyzeDone (length analyzed_articles));;
  mret analyzed_articles.

Definition topics_path (date_str : string) : string :=
  "processed/" +:+ date_str +:+ "/topics.json".

Definition save_topics (topics : list TopicCluster.t) (date_str : string)
  : M unit :=
  write (TopicsFile date_str topics);;
  logger INFO (Saved (topics_path date_str)).

(* ===================================================================== *)
(** ** [calculate_heat.py]: heat score, order and rank *)
(* ===================================================================== *)

(** The loop over [categories_config['categories']] with its [break]:
    the weight of the first category of that name, [0.5] without one. *)
Fixpoint category_weight (cats : list Category.t) (category : json) : float :=
  match cats with
  | [] => half
  | cat :: rest =>
      if json_is_str (Category.name cat) category
      then Category.priority_weight cat
      else category_weight rest category
  end.

Definition calculate_heat_score (topic_cluster : TopicCluster.t) : float :=
  let mention_count := TopicCluster.total_mentions topic_cluster in
  let mention_score :=
    PyFloat.min_int
      (PyFloat.mul (PyFloat.div (PyFloat.of_nat mention_count) (PyFloat.of_Z 10))
         (PyFloat.of_Z 60))
      60 in
  let avg_depth := TopicCluster.avg_depth topic_cluster in
  let depth_score := PyFloat.mul avg_depth (PyFloat.of_Z 30) in
  let category := TopicCluster.category topic_cluster in
  let category_weight :=
    category_weight (categories categories_config) category in
  let category_bonus := PyFloat.mul category_weight (PyFloat.of_Z 10) in
  let heat_score :=
    PyFloat.add (PyFloat.add mention_score depth_score) category_bonus in
  PyFloat.round1 heat_score.

(** [{**cluster, 'heat_score': heat_score}]. *)
Definition scored_topic (cluster : TopicCluster.t) : ScoredTopic.t :=
  {| ScoredTopic.cluster := cluster;
     ScoredTopic.heat_score := calculate_heat_score cluster;
     ScoredTopic.rank := None |}.

(** [list.sort(key=heat_score, reverse=True)].  The sort is stable, also
    under [reverse=True], and compares keys with [<] only; on keys that
    [<] orders totally (no NaN) its result is determined by that, and is
    the one of this insertion from the right.  With a NaN among the keys
    the result of [list.sort] depends on the comparisons it happens to
    make and only stays a permutation: what is stated of the order below
    is stated of scores that are numbers. *)
Fixpoint insert_desc (x : ScoredTopic.t) (sorted : list ScoredTopic.t)
  : list ScoredTopic.t :=
  match sorted with
  | [] => [x]
  | y :: rest =>
      if PyFloat.ltb (ScoredTopic.heat_score x) (ScoredTopic.heat_score y)
      then y :: insert_desc x rest
      else x :: y :: rest
  end.

Definition sort_desc (topics : list ScoredTopic.t) : list ScoredTopic.t :=
  foldr insert_desc [] topics.

(** The scoring loop, with its log line per cluster. *)
Fixpoint score_loop (topic_clusters : list TopicCluster.t)
    (scored_topics : list ScoredTopic.t) : M (list ScoredTopic.t) :=
  match topic_clusters with
  | [] => mret scored_topics
  | cluster :: rest =>
      let scored := scored_topic cluster in
      logger INFO (HeatOf (TopicCluster.canonical_name cluster)
                     (ScoredTopic.heat_score scored));;
      score_loop rest (scored_topics ++ [scored])
  end.

Definition calculate_all_heat_scores (topic_clusters : list TopicCluster.t)
  : M (list ScoredTopic.t) :=
  logger INFO (HeatStart (length topic_clusters));;
  scored_topics ← score_loop topic_clusters [];
  let scored_topics := sort_desc scored_topics in
  logger INFO HeatDone;;
  mret scored_topics.

(** [xs[:n]] for a Python [int] [n]: a negative bound counts from the
    end. *)
Definition slice_to {A} (n : Z) (xs : list A) : list A :=
  if (0 <=? n)%Z then take (Z.to_nat n) xs
  else take (length xs - Z.to_nat (- n)) xs.

Definition get_top_topics (scored_topics : list ScoredTopic.t) (top_n : Z)
  : list ScoredTopic.t :=
  slice_to top_n scored_topics.

Definition set_rank (i : nat) (topic : ScoredTopic.t) : ScoredTopic.t :=
  {| ScoredTopic.cluster := ScoredTopic.cluster topic;
     ScoredTopic.heat_score := ScoredTopic.heat_score topic;
     ScoredTopic.rank := Some i |}.

(** [for i, topic in enumerate(scored_topics, 1): topic['rank'] = i]. *)
Definition assign_ranks (scored_topics : list ScoredTopic.t)
  : list ScoredTopic.t :=
  imap (fun i topic => set_rank (S i) topic) scored_topics.

Definition heat_path (date_str time_slot : string) : string :=
  "processed/" +:+ date_str +:+ "/heat_scores_" +:+ time_slot +:+ ".json".

(** The ranks are written into the dictionaries of the list passed in;
    the list with the ranks is returned for the caller, who holds the same
    dictionaries. *)
Definition save_heat_scores (scored_topics : list ScoredTopic.t)
    (date_str time_slot : string) : M (list ScoredTopic.t) :=
  let ranked := assign_ranks scored_topics in
  write (HeatFile date_str time_slot ranked);;
  logger INFO (Saved (heat_path date_str time_slot));;
  mret ranked.

(* ===================================================================== *)
(** ** [scheduler.py]: one run of the pipeline *)
(* ===================================================================== *)

(** The fetch stage of [fetch_blogs.py], the date of the run and the
    report renderer.  [fetch_all_articles] reads the feeds, logs its
    progress and, whenever a feed is configured, saves what it fetched with
    [save_articles] before it returns: it is a computation with effects,
    which may raise. *)
Variable fetch_all_articles : M (list Article.t).
Variable today : string.
Variable generate_report :
  list ScoredTopic.t -> string -> string -> nat -> M unit.

Definition pipeline_body (time_slot : string) : M unit :=
  logger INFO (Stage 1);;
  articles ← fetch_all_articles;
  match articles with
  | [] => logger WARNING (NoArticles time_slot)
  | _ :: _ =>
      logger INFO (Fetched (length articles));;
      (if (Z.of_nat (length articles) <? min_articles_threshold config)%Z
       then logger WARNING (BelowThreshold time_slot) else mret tt);;
      logger INFO (Stage 2);;
      analyzed_articles ← analyze_all_articles articles;
      logger INFO (Stage 3);;
      topics ← cluster_topics analyzed_articles;
      match topics with
      | [] => logger WARNING (NoTopicsRun time_slot)
      | _ :: _ =>
          logger INFO (Identified (length topics));;
          save_topics topics today;;
          logger INFO (Stage 4);;
          scored_topics ← calculate_all_heat_scores topics;
          scored_topics ← save_heat_scores scored_topics today time_slot;
          logger INFO (Stage 5);;
          let topics_per_report :=
            Z.min (topics_per_report config)
                  (Z.of_nat (length scored_topics)) in
          let top_topics := slice_to topics_per_report scored_topics in
          generate_report top_topics time_slot today (length articles);;
          logger INFO Banner;;
          logger INFO (TaskDone time_slot (length top_topics));;
          logger INFO Banner
      end
  end.

Definition run_analysis_pipeline (time_slot : string) : M unit :=
  logger INFO Banner;;
  logger INFO (TaskStart time_slot);;
  logger INFO Banner;;
  try_except (pipeline_body time_slot)
    (fun e => logger ERROR (TaskFailed time_slot e)).

End Program.

(* ===================================================================== *)
(** ** Vocabulary of the properties *)
(* ===================================================================== *)

(** The links of all the articles of a list of clusters, cluster by
    cluster. *)
Definition links_of (clusters : list TopicCluster.t) : list string :=
  clusters ≫= fun c => Snapshot.link <$> TopicCluster.articles c.

(** The instances that are the first of their article link in extraction
    order, given the links already seen. *)
Fixpoint first_encountered (seen : gset string)
    (all_topics : list TopicInstance.t) : list TopicInstance.t :=
  match all_topics with
  | [] => []
  | ti :: rest =>
      if bool_decide (link_of ti ∈ seen) then first_encountered seen rest
      else ti :: first_encountered ({[ link_of ti ]} ∪ seen) rest
  end.

(** The state of the fallback loop against the first-encountered
    instances [F] processed so far: one entry per label of [F], holding the
    instances of [F] with that label, in order. *)
Definition with_label (k : string) (F : list TopicInstance.t)
  : list TopicInstance.t :=
  filter (fun ti => TopicInstance.topic ti = k) F.

Definition fallback_inv (F : list TopicInstance.t) (clusters : odict entry)
  : Prop :=
  NoDup (fst <$> clusters)
  /\ (forall k c, (k, c) ∈ clusters ->
        with_label k F <> []
        /\ e_canonical_name c = k
        /\ e_articles c = snapshot_of <$> with_label k F
        /\ e_depths c = TopicInstance.depth <$> with_label k F)
  /\ (forall ti, ti ∈ F -> TopicInstance.topic ti ∈ fst <$> clusters).

(** The world after more log records. *)
Definition logged (w : World) (records : list (level * message)) : World :=
  {| requests := requests w; log := log w ++ records; written := written w |}.

(** The groups emitted for a list of proposed groups, in the words of the
    design: the groups are taken in the order given, each scans the
    instances against the links assigned so far, and a group is emitted
    only when its scan took an article. *)
Inductive emits (all_topics : list TopicInstance.t)
  : gset string -> list json -> list TopicCluster.t -> Prop :=
  | emits_done assigned : emits all_topics assigned [] []
  | emits_dropped assigned group groups canonical_name merged_topics st clusters :
      py_getitem group "canonical_name" = inr canonical_name ->
      py_getitem group "merged_topics" = inr merged_topics ->
      assign_group merged_topics all_topics (scan_start assigned) = inr st ->
      cluster_articles st = [] ->
      emits all_topics (assigned_articles st) groups clusters ->
      emits all_topics assigned (group :: groups) clusters
  | emits_kept assigned group groups canonical_name merged_topics st clusters :
      py_getitem group "canonical_name" = inr canonical_name ->
      py_getitem group "merged_topics" = inr merged_topics ->
      assign_group merged_topics all_topics (scan_start assigned) = inr st ->
      cluster_articles st <> [] ->
      emits all_topics (assigned_articles st) groups clusters ->
      emits all_topics assigned (group :: groups)
        (cluster_of canonical_name group st :: clusters).

(** The instance an article contributes for one of its labels. *)
Definition instance_for (a : Article.t) (t : string) : TopicInstance.t :=
  TopicInstance.mk t a (default half (Article.discussion_depth a !! t)).

Section Outcome.

Variable config : Config.
Variable service : nat -> prompt -> result string.
Variable json_loads : string -> option json.
Variable str_strip : string -> string.

(** The three ways [cluster_topics] ends once there are instances. *)
Definition grouped_outcome (all_topics : list TopicInstance.t) (w : World)
  : result (list TopicCluster.t) :=
  match call_zhipu_ai config service
          (ClusterPrompt (unique_topics all_topics)) w with
  | (inl e, _) => inl e
  | (inr response, _) =>
      clusters_raw ← loads json_loads (clean_response str_strip response);
      grouped_clusters all_topics clusters_raw
  end.

Definition after_call (all_topics : list TopicInstance.t) (w : World) : World :=
  snd (call_zhipu_ai config service
         (ClusterPrompt (unique_topics all_topics)) w).

Definition started (all_topics : list TopicInstance.t) (w : World) : World :=
  logged w [(INFO, ClusterStart);
            (INFO, Collected (length all_topics));
            (INFO, Deduplicated (length (unique_topics all_topics)))].


End Outcome.

(** [a] may stand before [b] in the ranking. *)
Definition outranks (a b : ScoredTopic.t) : Prop :=
  PyFloat.leb (ScoredTopic.heat_score b) (ScoredTopic.heat_score a) = true.

(** The topics of a list whose score equals [v]. *)
Definition scoring (v : float) (topics : list ScoredTopic.t)
  : list ScoredTopic.t :=
  filter (fun t => PyFloat.eqb (ScoredTopic.heat_score t) v = true) topics.

(** The score of [t] is a number. *)
Definition scored (t : ScoredTopic.t) : Prop :=
  PyFloat.is_nan (ScoredTopic.heat_score t) = false.

(** The log lines of the scoring loop. *)
Definition heat_lines (categories_config : CategoriesConfig)
    (clusters : list TopicCluster.t)
  : list (level * message) :=
  (fun c => (INFO, HeatOf (TopicCluster.canonical_name c)
                     (calculate_heat_score categories_config c)))
  <$> clusters.

(** The API key is absent or empty: what [if not api_key] tests. *)
Definition key_unset (config : Config) : Prop :=
  match zhipu_api_key config with
  | Some (String _ _) => False
  | _ => True
  end.

(** What [call_zhipu_ai] sends for a prompt: the prompt when the API key
    is set, nothing otherwise. *)
Definition sent (config : Config) (p : prompt) : list prompt :=
  match zhipu_api_key config with
  | Some (String _ _) => [p]
  | _ => []
  end.

(** [w'] is [w] after the requests [ps], more log records and no file. *)
Definition after_requests (w : World) (ps : list prompt) (w' : World) : Prop :=
  requests w' = requests w ++ ps
  /\ written w' = written w
  /\ exists records, log w' = log w ++ records.

(** The fields of an article that the analysis leaves alone. *)
Definition same_article (a b : Article.t) : Prop :=
  Article.title b = Article.title a
  /\ Article.link b = Article.link a
  /\ Article.source b = Article.source a
  /\ Article.summary b = Article.summary a
  /\ Article.content b = Article.content a
  /\ Article.published b = Article.published a.

(** The annotation [extract_topics_from_article] makes of the outcome of
    its call: the decoded reply with the defaults filled in, the empty
    annotation when the call raised or the reply is not JSON. *)
Definition annotation_of (categories_config : CategoriesConfig)
    (str_strip : string -> string)
    (loads_analysis : string -> option RawAnalysis)
    (reply : result string) : Analysis :=
  match reply with
  | inl _ => empty_analysis categories_config
  | inr response =>
      match loads_analysis (clean_response str_strip response) with
      | Some r => validate categories_config r
      | None => empty_analysis categories_config
      end
  end.

(** A report renderer that may write files and may fail, but leaves the
    files written before in place. *)
Definition keeps_files
    (generate_report : list ScoredTopic.t -> string -> string -> nat -> M unit)
  : Prop :=
  forall top_topics time_slot date_str total w,
    exists files,
      written (generate_report top_topics time_slot date_str total w).2
      = written w ++ files.

(** The worlds in which a run starts its fetch stage, the analysis of the
    articles fetched, and the clustering. *)
Definition at_fetch (time_slot : string) (w : World) : World :=
  logged w [(INFO, Banner); (INFO, TaskStart time_slot); (INFO, Banner);
            (INFO, Stage 1)].

Definition at_analysis (config : Config) (time_slot : string)
    (articles : list Article.t) (w : World) : World :=
  logged w ([(INFO, Fetched (length articles))]
            ++ (if (Z.of_nat (length articles) <? min_articles_threshold config)%Z
                then [(WARNING, BelowThreshold time_slot)] else [])
            ++ [(INFO, Stage 2)]).

Definition at_clustering (w : World) : World := logged w [(INFO, Stage 3)].

(** *** The depths as decoded *)

(** The annotation of an article is what [json.loads] made of the reply:
    nothing checks that a depth is a number.  [avg_depth_decoded] is the
    expression [sum(depths) / len(depths) if depths else 0.5] of the two
    assignments on such depths.  [sum] starts from the [int] 0 and adds
    from the left; [+] is defined between numbers, a [bool] being an
    [int], and raises [TypeError] between a number and anything else. *)
Inductive number : Type :=
  | Int (z : Z)
  | Float (f : float).

Definition py_add (acc : number) (v : json) : result number :=
  match acc, v with
  | Int a, JInt z => ok (Int (a + z))
  | Int a, JBool b => ok (Int (a + Z.b2z b))
  | Int a, JFloat f => ok (Float (PyFloat.add (PyFloat.of_Z a) f))
  | Float x, JInt z => ok (Float (PyFloat.add x (PyFloat.of_Z z)))
  | Float x, JBool b => ok (Float (PyFloat.add x (PyFloat.of_Z (Z.b2z b))))
  | Float x, JFloat f => ok (Float (PyFloat.add x f))
  | _, _ => raise TypeError
  end.

Fixpoint py_sum (values : list json) (acc : number) : result number :=
  match values with
  | [] => ok acc
  | v :: rest => acc ← py_add acc v; py_sum rest acc
  end.

(** [total / n] for a positive [int] [n]: the quotient of two [int]s is
    the float nearest to the fraction. *)
Definition py_truediv (total : number) (n : nat) : float :=
  match total with
  | Int Z0 => S754_zero false
  | Int (Zpos p) => PyFloat.ratio false (Zpos p) (Z.of_nat n)
  | Int (Zneg p) => PyFloat.ratio true (Zpos p) (Z.of_nat n)
  | Float x => PyFloat.div x (PyFloat.of_nat n)
  end.

Definition avg_depth_decoded (depths : list json) : result float :=
  match depths with
  | [] => ok half
  | _ :: _ =>
      total ← py_sum depths (Int 0);
      ok (py_truediv total (length depths))
  end.

(** The empty world: nothing requested, logged or written. *)
Definition fresh : World := {| requests := []; log := []; written := [] |}.

(** An article whose extraction failed. *)
Definition degraded (categories_config : CategoriesConfig)
    (article : Article.t) : Article.t :=
  with_topics article (empty_analysis categories_config).

(** ** A run on three articles *)

Module Scenario.

Definition fetched (title link : string) : Article.t :=
  {| Article.title := title;
     Article.link := link;
     Article.source := "feed";
     Article.summary := "";
     Article.content := "";
     Article.published := "2026-02-05";
     Article.category := None;
     Article.main_topics := [];
     Article.keywords := [];
     Article.discussion_depth := ∅ |}.

Definition article_A : Article.t := fetched "A" "https://example.org/a".
Definition article_B : Article.t := fetched "B" "https://example.org/b".
Definition article_C : Article.t := fetched "C" "https://example.org/c".

(** An analysed article with two labels. *)
Definition two_topics : Article.t :=
  {| Article.title := "T";
     Article.link := "https://example.org/t";
     Article.source := "feed";
     Article.summary := "";
     Article.content := "";
     Article.published := "2026-02-05";
     Article.category := None;
     Article.main_topics := ["X"; "Y"];
     Article.keywords := [];
     Article.discussion_depth := {[ "X" := PyFloat.decimal 8 1 ]} |}.

(** A service that is down. *)
Definition unavailable (n : nat) (p : prompt) : result string :=
  raise (ServiceError 503).

Definition annotation (topic : string) (depth : float) : RawAnalysis :=
  {| r_main_topics := Some [topic];
     r_category := Some industry_news;
     r_keywords := Some [];
     r_discussion_depth := Some {[ topic := depth ]} |}.

(** The service answers an extraction prompt with the title of the
    article and a clustering prompt with the text ["groups"]. *)
Definition service (n : nat) (p : prompt) : result string :=
  match p with
  | ExtractPrompt title _ _ _ _ => ok title
  | ClusterPrompt _ => ok "groups"
  | ReportPrompt => raise (ServiceError 500)
  end.


Definition loads_analysis (s : string) : option RawAnalysis :=
  if String.eqb s "A" then Some (annotation "X" (PyFloat.decimal 8 1))
  else if String.eqb s "B" then Some (annotation "X" (PyFloat.decimal 6 1))
  else if String.eqb s "C" then Some (annotation "Y" (PyFloat.decimal 2 1))
  else None.

Definition group (name : string) : json :=
  JObj [("canonical_name", JStr name);
        ("merged_topics", JArr [JStr name]);
        ("category", JStr industry_news)].

Definition json_loads (s : string) : option json :=
  if String.eqb s "groups" then Some (JArr [group "X"; group "Y"]) else None.

Definition categories_config : CategoriesConfig :=
  {| categories := [Category.mk industry_news (PyFloat.decimal 5 1)];
     default_category := industry_news |}.

Definition config : Config :=
  {| zhipu_api_key := Some "key";
     min_articles_threshold := 1;
     topics_per_report := 3 |}.

Definition config_without_key : Config :=
  {| zhipu_api_key := None;
     min_articles_threshold := 1;
     topics_per_report := 3 |}.

Definition generate_report (top_topics : list ScoredTopic.t)
    (time_slot date_str : string) (total_articles : nat) : M unit :=
  write (ReportFile date_str time_slot top_topics).

(** The fetch stage finds the three articles and saves them. *)
Definition fetch_all_articles : M (list Article.t) :=
  let all_articles := [article_A; article_B; article_C] in
  logger INFO (FetchLine "抓取完成！");;
  write (ArticlesFile "2026-02-05" "0800" all_articles);;
  logger INFO (FetchLine "文章已保存到: raw/2026-02-05/articles_0800.json");;
  mret all_articles.

Definition run (config : Config) : result unit * World :=
  run_analysis_pipeline config categories_config service json_loads id
    loads_analysis fetch_all_articles "2026-02-05"
    generate_report "早间" fresh.

(** What the scenario reads off a ranked topic. *)
Definition summary (t : ScoredTopic.t)
  : json * list string * nat * float * float * option nat :=
  (TopicCluster.canonical_name (ScoredTopic.cluster t),
   Snapshot.title <$> TopicCluster.articles (ScoredTopic.cluster t),
   TopicCluster.total_mentions (ScoredTopic.cluster t),
   TopicCluster.avg_depth (ScoredTopic.cluster t),
   ScoredTopic.heat_score t,
   ScoredTopic.rank t).

Definition heat_files (w : World) : list (list ScoredTopic.t) :=
  omap (fun a => match a with HeatFile _ _ topics => Some topics | _ => None end)
    (written w).

(** The three articles as the extraction annotates them, the decoded
    reply of the clustering service and the clusters built from both. *)
Definition analysed : list Article.t :=
  [ with_topics article_A
      (validate categories_config (annotation "X" (PyFloat.decimal 8 1)));
    with_topics article_B
      (validate categories_config (annotation "X" (PyFloat.decimal 6 1)));
    with_topics article_C
      (validate categories_config (annotation "Y" (PyFloat.decimal 2 1))) ].

Definition reply : json := JArr [group "X"; group "Y"].

Definition grouped : list TopicCluster.t :=
  match grouped_clusters (collect_topics analysed) reply with
  | inr clusters => clusters
  | inl _ => []
  end.

(** A cluster of the article C with the given average depth. *)
Definition lone (name : string) (avg_depth : float) : TopicCluster.t :=
  {| TopicCluster.canonical_name := JStr name;
     TopicCluster.category := JStr industry_news;
     TopicCluster.articles :=
       [snapshot_of (TopicInstance.mk name article_C avg_depth)];
     TopicCluster.total_mentions := 1;
     TopicCluster.avg_depth := avg_depth |}.

(** The rankings written by a run. *)
Definition rankings (w : World)
  : list (list (json * list string * nat * float * float * option nat)) :=
  (fun topics : list ScoredTopic.t => summary <$> topics) <$> heat_files w.

End Scenario.

(** The number of binary digits of a mantissa. *)
Definition dig (m : positive) : Z := Zpos (digits2_pos m).

(** [x] is a canonical positive float, or [+inf], not below the canonical
    positive float of mantissa [M] and exponent [E]. *)
Definition at_least (M : positive) (E : Z) (x : float) : Prop :=
  match x with
  | S754_infinity false => True
  | S754_finite false m e =>
      canonical_mantissa PyFloat.prec PyFloat.emax m e = true
      /\ (E < e \/ (E = e /\ Zpos M <= Zpos m))
  | _ => False
  end.

(** The mantissas of [10.0], [1.0] and [60.0]. *)
Definition m_ten : positive := 5629499534213120.
Definition m_one : positive := 4503599627370496.
Definition m_sixty : positive := 8444249301319680.

(** The mention component of the heat score. *)
Definition mention_score (mention_count : nat) : float :=
  PyFloat.min_int
    (PyFloat.mul (PyFloat.div (PyFloat.of_nat mention_count) (PyFloat.of_Z 10))
       (PyFloat.of_Z 60))
    60.

(** The heat score as the design states it, from the three numbers it
    depends on. *)
Definition heat_formula (total_mentions : nat)
    (avg_depth category_weight : float) : float :=
  PyFloat.round1
    (PyFloat.add
       (PyFloat.add (mention_score total_mentions)
          (PyFloat.mul avg_depth (PyFloat.of_Z 30)))
       (PyFloat.mul category_weight (PyFloat.of_Z 10))).

(* ===================================================================== *)
(** ** Vocabulary of the further properties *)
(* ===================================================================== *)

(** A label of the instance is listed by [merged_topics]. *)
Definition listed (merged_topics : json) (ti : TopicInstance.t) : Prop :=
  py_contains (TopicInstance.topic ti) merged_topics = inr true.

(** Some proposed group lists a label of an article with link [l]. *)
Definition covered (all_topics : list TopicInstance.t) (groups : list json)
    (l : string) : Prop :=
  exists ti group merged_topics,
    ti ∈ all_topics /\ group ∈ groups /\ link_of ti = l
    /\ py_getitem group "merged_topics" = inr merged_topics
    /\ listed merged_topics ti.

(** The exception the reads [cluster['canonical_name']] and
    [cluster['merged_topics']] raise for a proposed group, if any. *)
Definition group_error (cluster : json) : option exn :=
  match py_getitem cluster "canonical_name" with
  | inl e => Some e
  | inr _ =>
      match py_getitem cluster "merged_topics" with
      | inl e => Some e
      | inr _ => None
      end
  end.

(** A proposed group with both keys whose [merged_topics] supports [in]:
    a list, a dict or a string. *)
Definition well_formed_group (cluster : json) : bool :=
  match py_getitem cluster "canonical_name",
        py_getitem cluster "merged_topics" with
  | inr _, inr (JArr _ | JObj _ | JStr _) => true
  | _, _ => false
  end.

(* ===================================================================== *)
(** ** [generate_report.py]: recommendation and translations *)
(* ===================================================================== *)

(** The two functions are taken as functions of the outcome [reply] of
    their one call to the service (the text of the reply, or the exception
    of the call); their log lines are left out. *)

(** [generate_recommendation]: a reply of more than 300 characters is cut
    to its first 297 and an ellipsis; [fallback] is the sentence returned
    when the call raised. *)
Definition generate_recommendation (str_strip : string -> string)
    (fallback : string) (reply : result string) : string :=
  match reply with
  | inr recommendation =>
      let recommendation :=
        if (300 <? py_len recommendation)%nat
        then take_string 297 recommendation +:+ "..."
        else recommendation in
      str_strip recommendation
  | inl _ => fallback
  end.

(** [s * n]. *)
Fixpoint py_times (s : string) (n : nat) : string :=
  match n with
  | O => EmptyString
  | S k => s +:+ py_times s k
  end.

(** An article of a topic with the two keys the translation adds. *)
Module Translated.
Record t : Type := mk {
  article : Snapshot.t;
  title_cn : json;
  summary_cn : json;
}.
End Translated.

(** [{**art, 'title_cn': art['title'], 'summary_cn': art.get('summary', '')}]. *)
Definition untranslated (art : Snapshot.t) : Translated.t :=
  {| Translated.article := art;
     Translated.title_cn := JStr (Snapshot.title art);
     Translated.summary_cn := JStr (Snapshot.summary art) |}.

(** [for art, trans in zip(articles, translations): ...]: the pairs end
    with the shorter list; [trans.get] exists on a [dict] only, [None] is
    the [AttributeError] of another value. *)
Fixpoint merge_translations (articles : list Snapshot.t)
    (translations : list json) : option (list Translated.t) :=
  match articles, translations with
  | art :: articles, trans :: translations =>
      match trans with
      | JObj fields =>
          translated_articles ← merge_translations articles translations;
          Some ({| Translated.article := art;
                   Translated.title_cn :=
                     default (JStr (Snapshot.title art)) (assoc "title" fields);
                   Translated.summary_cn :=
                     default (JStr (Snapshot.summary art))
                       (assoc "summary" fields) |}
                :: translated_articles)
      | _ => None
      end
  | _, _ => Some []
  end.

(** [translate_articles_batch]: every exception of the [try] block, from
    the call to the merge, gives the articles with their own title and
    summary. *)
Definition translate_articles_batch (json_loads : string -> option json)
    (str_strip : string -> string) (reply : result string)
    (articles : list Snapshot.t) : list Translated.t :=
  let original := untranslated <$> articles in
  match reply with
  | inl _ => original
  | inr response =>
      match json_loads (clean_response str_strip response) with
      | None => original
      | Some translations =>
          match py_iter translations with
          | inl _ => original
          | inr items => default original (merge_translations articles items)
          end
      end
  end.


Definition is_object (v : json) : Prop :=
  match v with
  | JObj _ => True
  | _ => False
  end.

#[global] Instance is_object_dec (v : json) : Decision (is_object v) :=
  match v with
  | JObj _ => left I
  | _ => right (fun H : False => H)
  end.


(** A value of CPython's [float]: every finite one is in the canonical
    form of binary64. *)
Definition well_formed (x : float) : Prop :=
  valid_binary PyFloat.prec PyFloat.emax x = true.

(** [0 <= x <= 1] for a float. *)
Definition in_unit_interval (x : float) : Prop :=
  well_formed x
  /\ PyFloat.leb (PyFloat.of_Z 0) x = true
  /\ PyFloat.leb x (PyFloat.of_Z 1) = true.

(** [x] is a zero or a canonical positive float not above the canonical
    positive float of mantissa [M] and exponent [E]. *)
Definition at_most (M : positive) (E : Z) (x : float) : Prop :=
  match x with
  | S754_zero _ => True
  | S754_finite false m e =>
      canonical_mantissa PyFloat.prec PyFloat.emax m e = true
      /\ (e < E \/ (e = E /\ Zpos m <= Zpos M))
  | _ => False
  end.

(** The mantissas of [90.0] and [100.0]; [30.0] has the one of [60.0]. *)
Definition m_ninety : positive := 6333186975989760.
Definition m_hundred : positive := 7036874417766400.





(** The canonical positive float of mantissa [M] and exponent [E] is the
    integer [n], [1 <= n < 2^53]. *)
Definition represents (n : Z) (M : positive) (E : Z) : Prop :=
  canonical_mantissa PyFloat.prec PyFloat.emax M E = true
  /\ -52 <= E <= 0
  /\ Zpos M = n * 2 ^ (- E).

(** Every depth of the annotations of the articles is in [[0, 1]]. *)
Definition depths_in_unit_interval (articles : list Article.t) : Prop :=
  forall a t d,
    a ∈ articles -> Article.discussion_depth a !! t = Some d ->
    in_unit_interval d.

(** A score in [[0, 100]]. *)
Definition in_range (t : ScoredTopic.t) : Prop :=
  PyFloat.leb (PyFloat.of_Z 0) (ScoredTopic.heat_score t) = true
  /\ PyFloat.leb (ScoredTopic.heat_score t) (PyFloat.of_Z 100) = true.

#[local] Set Warnings "-clear-no-such-hyp".

(* ===================================================================== *)
(** * Properties *)
(* ===================================================================== *)


Lemma snapshot_link ti : Snapshot.link (snapshot_of ti) = link_of ti.
Proof. reflexivity. Qed.

Lemma links_of_app cs1 cs2 : links_of (cs1 ++ cs2) = links_of cs1 ++ links_of cs2.
Proof. apply bind_app. Qed.

(** ** One scan of the grouped path *)

(** What one scan adds: instances of [all_topics] whose label the group
    lists, with pairwise different links, none of them assigned before. *)
Lemma assign_group_spec merged all_topics : forall st st',
  assign_group merged all_topics st = inr st' ->
  exists taken,
    cluster_articles st' = cluster_articles st ++ (snapshot_of <$> taken)
    /\ depths st' = depths st ++ (TopicInstance.depth <$> taken)
    /\ (forall l, l ∈ assigned_articles st'
                  <-> l ∈ link_of <$> taken \/ l ∈ assigned_articles st)
    /\ NoDup (link_of <$> taken)
    /\ (forall l, l ∈ link_of <$> taken -> l ∉ assigned_articles st)
    /\ taken ⊆ all_topics
    /\ Forall (fun ti => py_contains (TopicInstance.topic ti) merged = inr true)
         taken.
Proof.
  induction all_topics as [|ti rest IH]; intros st st' H; simpl in H.
  - inversion H; subst. exists []. simpl. rewrite !app_nil_r.
    split_and!; auto; try constructor; set_solver.
  - case_bool_decide as Hin.
    + destruct (IH _ _ H) as (taken & ? & ? & ? & ? & ? & ? & ?).
      exists taken. split_and!; auto. set_solver.
    + destruct (py_contains (TopicInstance.topic ti) merged) as [e|[|]] eqn:Hc;
        simpl in H; try discriminate.
      * destruct (IH _ _ H) as (taken & Ha & Hd & Hs & Hn & Hf & Hi & Hc').
        exists (ti :: taken). simpl in *.
        rewrite <- !app_assoc in *. simpl in *.
        split_and!; auto.
        -- intros l. rewrite Hs. set_solver.
        -- constructor; auto. intros Hl. apply Hf in Hl. set_solver.
        -- intros l [->|Hl]%elem_of_cons; auto. apply Hf in Hl. set_solver.
        -- set_solver.
      * destruct (IH _ _ H) as (taken & ? & ? & ? & ? & ? & ? & ?).
        exists taken. split_and!; auto. set_solver.
Qed.

(** ** The ordered dictionary of the fallback *)

Lemma assoc_None {A} k (d : odict A) : assoc k d = None <-> k ∉ fst <$> d.
Proof.
  induction d as [|[k' v] d IH]; simpl.
  - split; [intros _; apply not_elem_of_nil | done].
  - destruct (String.eqb_spec k k') as [->|Hne].
    + split; [done | intros []; left].
    + rewrite IH, not_elem_of_cons. naive_solver.
Qed.

Lemma odict_alter_keys {A} (f : A -> A) k (d : odict A) :
  fst <$> odict_alter f k d = fst <$> d.
Proof.
  induction d as [|[k' v] d IH]; simpl; [done|].
  destruct (String.eqb k k'); csimpl; [done | by rewrite IH].
Qed.

Lemma odict_alter_elem {A} (f : A -> A) k0 (d : odict A) k c :
  NoDup (fst <$> d) ->
  (k, c) ∈ odict_alter f k0 d <->
  (k <> k0 /\ (k, c) ∈ d) \/ (k = k0 /\ exists c0, (k0, c0) ∈ d /\ c = f c0).
Proof.
  induction d as [|[k' v] d IH]; simpl; intros Hnd.
  - split.
    + by intros ?%elem_of_nil.
    + intros [[_ H]|[_ (c0 & H & _)]]; by apply elem_of_nil in H.
  - apply NoDup_cons in Hnd as [Hk' Hnd].
    destruct (String.eqb_spec k0 k') as [->|Hne].
    + rewrite !elem_of_cons. split.
      * intros [[= -> ->]|Hin].
        -- right. split; [done|]. exists v. split; [left|]; done.
        -- left. split; [|by right]. intros ->. apply Hk'.
           apply list_elem_of_fmap. by exists (k', c).
      * intros [[Hk [[= ]|Hin]]|[-> (c0 & Hin & ->)]]; [done|by right|].
        apply elem_of_cons in Hin as [[= ->]|Hin]; [by left|].
        exfalso. apply Hk'. apply list_elem_of_fmap. by exists (k', c0).
    + rewrite !elem_of_cons, IH by done. split.
      * intros [[= -> ->]|[[Hk Hin]|[-> (c0 & Hin & ->)]]].
        -- left. split; [congruence | by left].
        -- left. split; [done | by right].
        -- right. split; [done|]. exists c0. split; [by right | done].
      * intros [[Hk [[= -> ->]|Hin]]|[-> (c0 & Hin & ->)]].
        -- by left.
        -- right. left. done.
        -- apply elem_of_cons in Hin as [[= ]|Hin]; [congruence|].
           right. right. split; [done|]. by exists c0.
Qed.

(** ** First-encountered instances *)


Lemma first_encountered_spec all_topics : forall seen,
  NoDup (link_of <$> first_encountered seen all_topics)
  /\ (forall l, l ∈ link_of <$> first_encountered seen all_topics
                <-> l ∈ link_of <$> all_topics /\ l ∉ seen)
  /\ first_encountered seen all_topics ⊆ all_topics.
Proof.
  induction all_topics as [|ti rest IH]; intros seen; simpl.
  - split_and!; [constructor | | done].
    intros l. rewrite elem_of_nil. tauto.
  - case_bool_decide as Hin.
    + destruct (IH seen) as (Hn & Hl & Hs). split_and!; [done | |].
      * intros l. rewrite Hl, ?fmap_cons, elem_of_cons.
        split; [tauto|]. intros [[->|?] ?]; [done | tauto].
      * intros x Hx. right. by apply Hs.
    + destruct (IH ({[link_of ti]} ∪ seen)) as (Hn & Hl & Hs).
      split_and!.
      * rewrite ?fmap_cons. constructor; [|done]. rewrite Hl.
        intros [_ Hnot]. apply Hnot, elem_of_union_l, elem_of_singleton. done.
      * intros l. rewrite ?fmap_cons, !elem_of_cons, Hl.
        rewrite not_elem_of_union, not_elem_of_singleton.
        destruct (decide (l = link_of ti)) as [->|Hne]; [tauto|]. tauto.
      * intros x [->|Hx]%elem_of_cons; [left | right; by apply Hs].
Qed.


Lemma with_label_snoc k F ti :
  with_label k (F ++ [ti]) =
  with_label k F ++ (if decide (TopicInstance.topic ti = k) then [ti] else []).
Proof.
  unfold with_label. rewrite filter_app. f_equal.
Qed.

Lemma with_label_nil k F :
  with_label k F = [] <-> forall ti, ti ∈ F -> TopicInstance.topic ti <> k.
Proof.
  unfold with_label. split.
  - intros H ti Hin Heq.
    assert (ti ∈ filter (fun ti => TopicInstance.topic ti = k) F) as Hf
      by (apply list_elem_of_filter; done).
    rewrite H in Hf. by apply elem_of_nil in Hf.
  - intros H. apply elem_of_nil_inv. intros ti [Heq Hin]%list_elem_of_filter.
    by apply (H ti).
Qed.

Lemma fallback_step F clusters ti :
  fallback_inv F clusters ->
  fallback_inv (F ++ [ti])
    (odict_alter (entry_add ti) (TopicInstance.topic ti)
       match assoc (TopicInstance.topic ti) clusters with
       | None => odict_new (TopicInstance.topic ti) (entry_new ti) clusters
       | Some _ => clusters
       end).
Proof.
  intros (Hnd & Hent & Hcov).
  set (t := TopicInstance.topic ti).
  (* the dictionary before the in-place change, with its own invariant *)
  set (clusters1 := match assoc t clusters with
                    | None => odict_new t (entry_new ti) clusters
                    | Some _ => clusters
                    end).
  assert (NoDup (fst <$> clusters1)) as Hnd1.
  { subst clusters1. destruct (assoc t clusters) eqn:Ha; [done|].
    unfold odict_new. rewrite fmap_app. simpl.
    apply NoDup_app. split_and!; [done | | apply NoDup_singleton].
    intros x Hx ->%list_elem_of_singleton. by apply assoc_None in Ha. }
  assert (t ∈ fst <$> clusters1) as Ht1.
  { subst clusters1. destruct (assoc t clusters) eqn:Ha.
    - destruct (decide (t ∈ fst <$> clusters)) as [|Hn]; [done|].
      apply assoc_None in Hn. congruence.
    - unfold odict_new. rewrite fmap_app. set_solver. }
  assert (forall k c, (k, c) ∈ clusters1 ->
            (k, c) ∈ clusters \/
            (k = t /\ c = entry_new ti /\ with_label t F = [])) as Hc1.
  { subst clusters1. intros k c. destruct (assoc t clusters) eqn:Ha; [by left|].
    unfold odict_new. rewrite elem_of_app, list_elem_of_singleton.
    intros [?|[= -> ->]]; [by left|]. right. split_and!; [done..|].
    apply with_label_nil. intros ti' Hin Heq. apply assoc_None in Ha.
    apply Ha. rewrite <- Heq. by apply Hcov. }
  split_and!.
  - by rewrite odict_alter_keys.
  - intros k c Hin. apply odict_alter_elem in Hin; [|done].
    rewrite with_label_snoc. fold t.
    destruct Hin as [[Hk Hin]|[-> (c0 & Hin & ->)]].
    + rewrite decide_False by done. rewrite app_nil_r.
      destruct (Hc1 _ _ Hin) as [Hin'|[-> _]]; [by apply Hent | done].
    + rewrite decide_True by done.
      destruct (Hc1 _ _ Hin) as [Hin'|(_ & -> & Hnil)].
      * destruct (Hent _ _ Hin') as (_ & Hn & Ha & Hd). simpl.
        rewrite Ha, Hd, !fmap_app. split_and!; [|done..].
        intros H. by apply app_eq_nil in H as [_ ?].
      * rewrite Hnil. simpl. done.
  - intros ti' [Hin| ->%list_elem_of_singleton]%elem_of_app;
      rewrite odict_alter_keys; [|done].
    apply Hcov in Hin. subst clusters1.
    destruct (assoc t clusters); [done|]. unfold odict_new.
    rewrite fmap_app. set_solver.
Qed.

Lemma fallback_scan_spec all_topics : forall clusters assigned F,
  fallback_inv F clusters ->
  fallback_inv (F ++ first_encountered (dom assigned) all_topics)
    (fallback_scan all_topics clusters assigned).
Proof.
  induction all_topics as [|ti rest IH]; intros clusters assigned F Hinv; simpl.
  - by rewrite app_nil_r.
  - destruct (assigned !! link_of ti) eqn:Hl.
    + rewrite bool_decide_eq_true_2 by (apply elem_of_dom; eauto).
      by apply IH.
    + rewrite bool_decide_eq_false_2 by (by apply not_elem_of_dom).
      rewrite cons_middle, app_assoc.
      rewrite <- (dom_insert_L assigned (link_of ti) (TopicInstance.topic ti)).
      apply IH. by apply fallback_step.
Qed.

Lemma fallback_inv_nil : fallback_inv [] [].
Proof. split_and!; [constructor | |]; intros *; by intros ?%elem_of_nil. Qed.

(** The clusters of the fallback, against the first-encountered
    instances of the whole input. *)
Lemma fallback_scan_final all_topics :
  fallback_inv (first_encountered ∅ all_topics) (fallback_scan all_topics [] ∅).
Proof.
  pose proof (fallback_scan_spec all_topics [] ∅ [] fallback_inv_nil) as H.
  by rewrite dom_empty_L in H.
Qed.

Lemma build_clusters_emits all_topics groups : forall clusters assigned result,
  build_clusters all_topics groups clusters assigned = inr result ->
  exists emitted,
    result = clusters ++ emitted /\ emits all_topics assigned groups emitted.
Proof.
  induction groups as [|group groups IH]; intros clusters assigned result H;
    simpl in H.
  - inversion H; subst. exists []. rewrite app_nil_r. split; [done | constructor].
  - destruct (py_getitem group "canonical_name") as [e|name] eqn:Hn;
      simpl in H; [discriminate|].
    destruct (py_getitem group "merged_topics") as [e|merged] eqn:Hm;
      simpl in H; [discriminate|].
    destruct (assign_group merged all_topics (scan_start assigned))
      as [e|st] eqn:Hs; simpl in H; [discriminate|].
    destruct (cluster_articles st) as [|s ss] eqn:Ha.
    + destruct (IH _ _ _ H) as (emitted & -> & He).
      exists emitted. split; [done|]. by eapply emits_dropped.
    + destruct (IH _ _ _ H) as (emitted & -> & He).
      exists (cluster_of name group st :: emitted).
      rewrite <- app_assoc. split; [done|].
      eapply emits_kept; eauto. by rewrite Ha.
Qed.

(** Every emitted cluster holds snapshots of instances of [all_topics];
    the links are pairwise different and were not assigned before. *)
Lemma emits_links all_topics assigned groups clusters :
  emits all_topics assigned groups clusters ->
  NoDup (links_of clusters)
  /\ (forall l, l ∈ links_of clusters -> l ∉ assigned)
  /\ Forall (fun c => exists taken,
               taken ⊆ all_topics
               /\ TopicCluster.articles c = snapshot_of <$> taken)
       clusters.
Proof.
  induction 1 as [assigned
                 |assigned group groups name merged st clusters Hn Hm Hs Ha _ IH
                 |assigned group groups name merged st clusters Hn Hm Hs Ha _ IH].
  - split_and!; [constructor | by intros l ?%elem_of_nil | constructor].
  - destruct IH as (Hnd & Hnot & Hall).
    apply assign_group_spec in Hs as (taken & _ & _ & Hset & _).
    split_and!; [done | | done].
    intros l Hl Hin. apply (Hnot l Hl). apply Hset. by right.
  - destruct IH as (Hnd & Hnot & Hall).
    apply assign_group_spec in Hs
      as (taken & Hart & _ & Hset & Hnd' & Hfresh & Hsub & _).
    simpl in Hart.
    assert (links_of (cluster_of name group st :: clusters)
            = (link_of <$> taken) ++ links_of clusters) as ->.
    { unfold links_of. csimpl. rewrite Hart, <- list_fmap_compose. done. }
    split_and!.
    + apply NoDup_app. split_and!; [done | | done].
      intros l Hl Hl'. apply (Hnot l Hl'). apply Hset. by left.
    + intros l [Hl|Hl]%elem_of_app; [by apply Hfresh|].
      intros Hin. apply (Hnot l Hl). apply Hset. by right.
    + constructor; [|done]. exists taken. done.
Qed.

Section OutcomeFacts.

Variable config : Config.
Variable service : nat -> prompt -> result string.
Variable json_loads : string -> option json.
Variable str_strip : string -> string.

Lemma cluster_topics_empty articles w :
  collect_topics articles = [] ->
  cluster_topics config service json_loads str_strip articles w
  = (inr [], logged w [(INFO, ClusterStart); (WARNING, NoTopicsFound)]).
Proof.
  intros H. unfold cluster_topics. rewrite H.
  unfold mbind, M_bind, logger, logged, mret, M_ret; simpl.
  by rewrite <- app_assoc.
Qed.

Lemma cluster_topics_run articles w :
  let all_topics := collect_topics articles in
  let w1 := started all_topics w in
  all_topics <> [] ->
  cluster_topics config service json_loads str_strip articles w
  = match grouped_outcome config service json_loads str_strip all_topics w1 with
    | inr clusters =>
        (inr clusters,
         logged (after_call config service all_topics w1)
           [(INFO, ClusterDone (length clusters))])
    | inl e =>
        (inr (fallback_clusters all_topics),
         logged (after_call config service all_topics w1)
           [(ERROR, ClusterFailed e); (WARNING, UsingFallback)])
    end.
Proof.
  intros all_topics w1 Hne. subst w1. unfold cluster_topics.
  fold all_topics. destruct all_topics as [|ti tis] eqn:Hall; [done|].
  rewrite <- Hall. clear Hne.
  unfold grouped_outcome, after_call, started, logged.
  unfold mbind, M_bind, try_except, logger, mret, M_ret, lift. simpl.
  rewrite <- !app_assoc. simpl.
  destruct (call_zhipu_ai config service _ _) as [[e|response] w2]; simpl.
  - by rewrite <- app_assoc.
  - destruct (loads json_loads (clean_response str_strip response))
      as [e|raw]; simpl.
    + by rewrite <- app_assoc.
    + destruct (grouped_clusters all_topics raw) as [e|clusters]; simpl.
      * by rewrite <- app_assoc.
      * done.
Qed.

End OutcomeFacts.

(** ** Topic instances *)


Lemma instances_of_filter a :
  instances_of a
  = instance_for a <$> filter (fun t => t <> EmptyString) (Article.main_topics a).
Proof.
  unfold instances_of. induction (Article.main_topics a) as [|t ts IH]; [done|].
  csimpl. rewrite IH, filter_cons. case_decide as Hd; destruct t; done.
Qed.

Lemma collect_topics_elem articles ti :
  ti ∈ collect_topics articles <->
  exists a t, a ∈ articles /\ t ∈ Article.main_topics a /\ t <> EmptyString
              /\ ti = instance_for a t.
Proof.
  unfold collect_topics. rewrite list_elem_of_bind. split.
  - intros (a & Hti & Ha). rewrite instances_of_filter in Hti.
    apply list_elem_of_fmap in Hti as (t & -> & [Hne Ht]%list_elem_of_filter).
    by exists a, t.
  - intros (a & t & Ha & Ht & Hne & ->). exists a. split; [|done].
    rewrite instances_of_filter. apply list_elem_of_fmap. exists t.
    split; [done|]. by apply list_elem_of_filter.
Qed.

Lemma collect_topics_nil articles :
  collect_topics articles = [] <->
  forall a t, a ∈ articles -> t ∈ Article.main_topics a -> t = EmptyString.
Proof.
  split.
  - intros H a t Ha Ht. destruct (decide (t = EmptyString)) as [|Hne]; [done|].
    assert (instance_for a t ∈ collect_topics articles) as Hin
      by (apply collect_topics_elem; by exists a, t).
    rewrite H in Hin. by apply elem_of_nil in Hin.
  - intros H. apply elem_of_nil_inv. intros ti Hin.
    apply collect_topics_elem in Hin as (a & t & Ha & Ht & Hne & _).
    by apply Hne, (H a).
Qed.

(** ** The clusters of the two paths *)

Lemma grouped_clusters_emits all_topics clusters_raw clusters :
  grouped_clusters all_topics clusters_raw = inr clusters ->
  exists groups,
    py_iter clusters_raw = inr groups /\ emits all_topics ∅ groups clusters.
Proof.
  unfold grouped_clusters. destruct (py_iter clusters_raw) as [e|groups];
    simpl; [done|].
  intros (emitted & -> & He)%build_clusters_emits. by exists groups.
Qed.

Lemma links_of_fmap {A} (f : A -> TopicCluster.t) (l : list A) :
  links_of (f <$> l)
  = l ≫= fun x => Snapshot.link <$> TopicCluster.articles (f x).
Proof. unfold links_of. by rewrite list_fmap_bind. Qed.

Lemma with_label_links k F :
  Snapshot.link <$> (snapshot_of <$> with_label k F) = link_of <$> with_label k F.
Proof. by rewrite <- list_fmap_compose. Qed.

Lemma fmap_inj_on {A B} (f : A -> B) (l : list A) x y :
  NoDup (f <$> l) -> x ∈ l -> y ∈ l -> f x = f y -> x = y.
Proof.
  induction l as [|a l IH]; csimpl; [by intros _ ?%elem_of_nil|].
  intros [Ha Hnd]%NoDup_cons [->|Hx]%elem_of_cons [->|Hy]%elem_of_cons Heq.
  - done.
  - exfalso. apply Ha. rewrite Heq. by apply list_elem_of_fmap_2.
  - exfalso. apply Ha. rewrite <- Heq. by apply list_elem_of_fmap_2.
  - by apply IH.
Qed.

Lemma fallback_clusters_exclusive all_topics :
  NoDup (links_of (fallback_clusters all_topics)).
Proof.
  unfold fallback_clusters. rewrite links_of_fmap.
  destruct (fallback_scan_final all_topics) as (Hkeys & Hent & _).
  destruct (first_encountered_spec all_topics ∅) as (HndF & _ & _).
  set (F := first_encountered ∅ all_topics) in *.
  set (R := fallback_scan all_topics [] ∅) in *.
  apply NoDup_bind.
  - intros [k1 c1] [k2 c2] l H1 H2. simpl.
    destruct (Hent _ _ H1) as (_ & _ & -> & _).
    destruct (Hent _ _ H2) as (_ & _ & -> & _).
    rewrite !with_label_links.
    intros (t1 & -> & [Ht1 Hin1]%list_elem_of_filter)%list_elem_of_fmap.
    intros (t2 & Heq & [Ht2 Hin2]%list_elem_of_filter)%list_elem_of_fmap.
    assert (t1 = t2) as <- by (by eapply fmap_inj_on).
    assert (k1 = k2) as <- by congruence.
    f_equal. clear -Hkeys H1 H2.
    induction R as [|[k c] R IH]; [by apply elem_of_nil in H1|].
    csimpl in Hkeys. apply NoDup_cons in Hkeys as [Hk Hnd].
    apply elem_of_cons in H1 as [[= -> ->]|H1];
      apply elem_of_cons in H2 as [[= ->]|H2]; [done| | |by apply IH].
    + exfalso. apply Hk. apply list_elem_of_fmap. by exists (k, c2).
    + exfalso. apply Hk. apply list_elem_of_fmap. by exists (k, c1).
  - intros [k c] Hin. simpl. destruct (Hent _ _ Hin) as (_ & _ & -> & _).
    rewrite with_label_links.
    eapply sublist_NoDup; [exact HndF|].
    apply fmap_sublist. unfold with_label. apply sublist_filter.
  - by eapply NoDup_fmap_1.
Qed.

Lemma fallback_clusters_sources all_topics c :
  c ∈ fallback_clusters all_topics ->
  exists taken,
    taken ⊆ all_topics /\ TopicCluster.articles c = snapshot_of <$> taken.
Proof.
  unfold fallback_clusters.
  intros ([k e] & -> & Hin)%list_elem_of_fmap. simpl.
  destruct (fallback_scan_final all_topics) as (_ & Hent & _).
  destruct (Hent _ _ Hin) as (_ & _ & -> & _).
  exists (with_label k (first_encountered ∅ all_topics)). split; [|done].
  destruct (first_encountered_spec all_topics ∅) as (_ & _ & Hsub).
  intros ti [_ Hti]%list_elem_of_filter. by apply Hsub.
Qed.


Section Claims.

Variable config : Config.
Variable service : nat -> prompt -> result string.
Variable json_loads : string -> option json.
Variable str_strip : string -> string.

#[local] Abbreviation clustering :=
  (cluster_topics config service json_loads str_strip).
#[local] Abbreviation outcome :=
  (grouped_outcome config service json_loads str_strip).

Lemma cluster_topics_result articles w :
  let all_topics := collect_topics articles in
  (clustering articles w).1
  = inr match all_topics with
        | [] => []
        | _ :: _ =>
            match outcome all_topics (started all_topics w) with
            | inr clusters => clusters
            | inl _ => fallback_clusters all_topics
            end
        end.
Proof.
  intros all_topics.
  destruct all_topics as [|ti tis] eqn:Hall.
  - by rewrite cluster_topics_empty.
  - rewrite cluster_topics_run by (fold all_topics; by rewrite Hall).
    fold all_topics. rewrite Hall.
    by destruct (outcome _ _).
Qed.

Lemma grouped_outcome_emits all_topics w clusters :
  outcome all_topics w = inr clusters ->
  exists groups, emits all_topics ∅ groups clusters.
Proof.
  unfold grouped_outcome.
  destruct (call_zhipu_ai _ _ _ _) as [[e|response] w2]; [done|].
  destruct (loads _ _) as [e|raw]; simpl; [done|].
  intros (groups & _ & He)%grouped_clusters_emits. by exists groups.
Qed.

(** C1.  Exclusivity: whatever the service answers, [cluster_topics]
    returns clusters over whose [articles] lists every link occurs at most
    once; so do the grouped assignment for any decoded reply and the
    fallback for any instances. *)
Theorem clusters_exclusive :
  (forall articles w, exists clusters,
      (clustering articles w).1 = inr clusters
      /\ NoDup (links_of clusters))
  /\ (forall all_topics clusters_raw clusters,
        grouped_clusters all_topics clusters_raw = inr clusters ->
        NoDup (links_of clusters))
  /\ (forall all_topics, NoDup (links_of (fallback_clusters all_topics))).
Proof.
  split_and!.
  - intros articles w. eexists. split; [apply cluster_topics_result|].
    destruct (collect_topics articles) as [|ti tis]; [constructor|].
    destruct (outcome _ _) as [e|clusters] eqn:Hg.
    + apply fallback_clusters_exclusive.
    + apply grouped_outcome_emits in Hg as (groups & He).
      by apply emits_links in He as (? & _).
  - intros all_topics raw clusters (groups & _ & He)%grouped_clusters_emits.
    by apply emits_links in He as (? & _).
  - apply fallback_clusters_exclusive.
Qed.

(** C6.  [all_topics], the list the collection loop of [cluster_topics]
    builds, holds for every article in order, and for every non-empty label
    of its [main_topics] in order, one instance with the depth of the label
    or [0.5] without one, and nothing else; an article without labels
    contributes no instance; and every article of every cluster is the
    snapshot of such an instance, so an article without labels is in no
    cluster. *)
Theorem topic_instance_extraction :
  (forall articles,
      collect_topics articles
      = concat
          ((fun a =>
              (fun t => TopicInstance.mk t a
                          (default half (Article.discussion_depth a !! t)))
              <$> filter (fun t => t <> EmptyString) (Article.main_topics a))
           <$> articles))
  /\ (forall articles ti,
        ti ∈ collect_topics articles
        <-> exists a t,
              a ∈ articles /\ t ∈ Article.main_topics a /\ t <> EmptyString
              /\ ti = TopicInstance.mk t a
                         (default half (Article.discussion_depth a !! t)))
  /\ (forall a,
      instances_of a
      = (fun t => TopicInstance.mk t a
                    (default half (Article.discussion_depth a !! t)))
        <$> filter (fun t => t <> EmptyString) (Article.main_topics a))
  /\ (forall a, Article.main_topics a = [] -> instances_of a = [])
  /\ (forall articles w clusters c s,
        (clustering articles w).1 = inr clusters ->
        c ∈ clusters -> s ∈ TopicCluster.articles c ->
        exists a t,
          a ∈ articles /\ t ∈ Article.main_topics a /\ t <> EmptyString
          /\ s = snapshot_of
                   (TopicInstance.mk t a
                      (default half (Article.discussion_depth a !! t)))).
Proof.
  split_and!.
  - intros articles. unfold collect_topics.
    induction articles as [|a rest IH]; [done|].
    csimpl. by rewrite IH, instances_of_filter.
  - apply collect_topics_elem.
  - apply instances_of_filter.
  - intros a H. unfold instances_of. by rewrite H.
  - intros articles w clusters c s Hrun Hc Hs.
    assert (exists taken, taken ⊆ collect_topics articles
              /\ TopicCluster.articles c = snapshot_of <$> taken)
      as (taken & Hsub & Hart).
    { rewrite cluster_topics_result in Hrun. injection Hrun as <-.
      destruct (collect_topics articles) as [|ti tis] eqn:Hall;
        [by apply elem_of_nil in Hc|].
      destruct (outcome _ _) as [e|cs] eqn:Hg.
      - by apply fallback_clusters_sources.
      - apply grouped_outcome_emits in Hg as (groups & He).
        apply emits_links in He as (_ & _ & Hall').
        rewrite Forall_forall in Hall'. by apply Hall'. }
    rewrite Hart in Hs. apply list_elem_of_fmap in Hs as (ti & -> & Hti).
    apply Hsub, collect_topics_elem in Hti as (a & t & Ha & Ht & Hne & ->).
    by exists a, t.
Qed.


(** C10.  When no article carries a non-empty label, [cluster_topics]
    returns the empty list after its two log lines: no request is sent
    and neither assignment path is entered. *)
Theorem no_instances_no_request articles w :
  (forall a t, a ∈ articles -> t ∈ Article.main_topics a -> t = EmptyString) ->
  clustering articles w
  = (inr [], logged w [(INFO, ClusterStart); (WARNING, NoTopicsFound)])
  /\ requests (clustering articles w).2 = requests w.
Proof.
  intros H%collect_topics_nil.
  by rewrite cluster_topics_empty.
Qed.

(** C3 as the code has it.  When the request raises, the clusters are one
    per label that is the first-encountered label of some article link,
    named by the label, each holding exactly the first-encountered
    instances of that label in extraction order. *)
Theorem fallback_first_encountered articles w e :
  let all_topics := collect_topics articles in
  let F := first_encountered ∅ all_topics in
  (call_zhipu_ai config service (ClusterPrompt (unique_topics all_topics))
     (started all_topics w)).1 = inl e ->
  exists clusters,
    (clustering articles w).1 = inr clusters
    /\ NoDup (TopicCluster.canonical_name <$> clusters)
    /\ (forall label,
          JStr label ∈ TopicCluster.canonical_name <$> clusters
          <-> label ∈ TopicInstance.topic <$> F)
    /\ (forall c, c ∈ clusters ->
          exists label,
            TopicCluster.canonical_name c = JStr label
            /\ TopicCluster.articles c = snapshot_of <$> with_label label F
            /\ TopicCluster.articles c <> []).
Proof.
  intros all_topics F Hcall.
  exists (fallback_clusters all_topics). split.
  { rewrite cluster_topics_result. fold all_topics.
    destruct all_topics as [|ti tis] eqn:Hall; [done|].
    unfold grouped_outcome.
    destruct (call_zhipu_ai _ _ _ _) as [[e'|r] w2]; [done | discriminate]. }
  unfold fallback_clusters.
  destruct (fallback_scan_final all_topics) as (Hkeys & Hent & Hcov).
  fold F in Hent, Hcov.
  set (R := fallback_scan all_topics [] ∅) in *.
  assert (forall kv, kv ∈ R -> e_canonical_name kv.2 = kv.1) as Hname.
  { intros [k c] Hin. by destruct (Hent _ _ Hin) as (_ & ? & _). }
  assert (TopicCluster.canonical_name
            <$> ((fun kv => cluster_of_entry kv.2) <$> R)
          = JStr <$> R.*1) as Hnames.
  { rewrite <- !list_fmap_compose. apply Forall_fmap_ext_1, Forall_forall.
    intros kv Hin. simpl. by rewrite Hname. }
  split_and!.
  - rewrite Hnames. apply NoDup_fmap_2; [|done]. by intros ?? [=].
  - intros label. rewrite Hnames. split.
    + intros (k & [= <-] & Hk)%list_elem_of_fmap.
      apply list_elem_of_fmap in Hk as ([k' c] & -> & Hin). simpl.
      destruct (Hent _ _ Hin) as (Hne & _).
      destruct (with_label k' F) as [|ti tis] eqn:Hw; [done|].
      assert (ti ∈ with_label k' F) as [Ht HtF]%list_elem_of_filter
        by (rewrite Hw; left).
      apply list_elem_of_fmap. by exists ti.
    + intros (ti & -> & Hti)%list_elem_of_fmap.
      apply list_elem_of_fmap. eexists. split; [done|]. by apply Hcov.
  - intros c ([k en] & -> & Hin)%list_elem_of_fmap. simpl.
    destruct (Hent _ _ Hin) as (Hne & Hn & Ha & _).
    exists k. rewrite Hn, Ha. split_and!; [done..|].
    by intros ?%fmap_nil_inv.
Qed.

End Claims.

(** ** The order of floats *)

(** Case analysis on the comparisons inside [SFcompare]. *)
Ltac compare_cases :=
  repeat match goal with
    | |- context [Pos.compare_cont Eq ?a ?b] =>
        change (Pos.compare_cont Eq a b) with (Pos.compare a b)
    | H : context [Pos.compare_cont Eq ?a ?b] |- _ =>
        change (Pos.compare_cont Eq a b) with (Pos.compare a b) in H
    end;
  repeat match goal with
    | H : context [Z.compare ?a ?b] |- _ =>
        destruct (Z.compare_spec a b); simpl in H; try discriminate
    | H : context [Pos.compare ?a ?b] |- _ =>
        destruct (Pos.compare_spec a b); simpl in H; try discriminate
    | |- context [Z.compare ?a ?b] =>
        destruct (Z.compare_spec a b); simpl; try lia
    | |- context [Pos.compare ?a ?b] =>
        destruct (Pos.compare_spec a b); simpl; try lia
    end;
  try done; try lia.

Ltac float_cases x := destruct x as [[]|[]| |[] ? ?].

Lemma ltb_leb x y : PyFloat.ltb x y = true -> PyFloat.leb x y = true.
Proof.
  unfold PyFloat.ltb, PyFloat.leb, SFltb, SFleb.
  by destruct (SFcompare x y) as [[]|].
Qed.

Lemma not_ltb_leb x y :
  PyFloat.is_nan x = false -> PyFloat.is_nan y = false ->
  PyFloat.ltb x y = false -> PyFloat.leb y x = true.
Proof.
  unfold PyFloat.ltb, PyFloat.leb, SFltb, SFleb.
  float_cases x; float_cases y; simpl; try done; intros _ _ H; compare_cases.
Qed.

Lemma leb_trans x y z :
  PyFloat.leb x y = true -> PyFloat.leb y z = true -> PyFloat.leb x z = true.
Proof.
  unfold PyFloat.leb, SFleb.
  float_cases x; float_cases y; simpl; try done;
    float_cases z; simpl; try done; intros H1 H2; compare_cases.
Qed.

Lemma ltb_not_eqb x y v :
  PyFloat.ltb x y = true -> PyFloat.eqb x v = true -> PyFloat.eqb y v = true ->
  False.
Proof.
  unfold PyFloat.ltb, PyFloat.eqb, SFltb, SFeqb.
  float_cases x; float_cases y; simpl; try done;
    float_cases v; simpl; try done; intros H1 H2 H3; compare_cases.
Qed.

(** ** Sorting and ranks *)


Lemma insert_desc_perm x l : insert_desc x l ≡ₚ x :: l.
Proof.
  induction l as [|y l IH]; simpl; [done|].
  destruct (PyFloat.ltb _ _); [|done].
  rewrite IH. apply Permutation_swap.
Qed.

Lemma sort_desc_perm l : sort_desc l ≡ₚ l.
Proof.
  induction l as [|x l IH]; simpl; [done|].
  by rewrite insert_desc_perm, IH.
Qed.

Lemma insert_desc_sorted x l :
  scored x -> Forall scored l ->
  StronglySorted outranks l -> StronglySorted outranks (insert_desc x l).
Proof.
  intros Hx. induction l as [|y l IH]; simpl; intros Hl Hs.
  - repeat constructor.
  - apply Forall_cons in Hl as [Hy Hl].
    apply StronglySorted_cons in Hs as [Hyl Hs].
    destruct (PyFloat.ltb _ _) eqn:Hlt.
    + apply StronglySorted_cons. split; [|by apply IH].
      rewrite insert_desc_perm. constructor; [|done]. by apply ltb_leb.
    + apply not_ltb_leb in Hlt; [|done..].
      apply StronglySorted_cons. split; [|by apply StronglySorted_cons].
      constructor; [done|]. eapply Forall_impl; [exact Hyl|].
      intros z Hz. unfold outranks in *. by eapply leb_trans.
Qed.

Lemma sort_desc_sorted l :
  Forall scored l -> StronglySorted outranks (sort_desc l).
Proof.
  induction l as [|x l IH]; simpl; intros Hl; [constructor|].
  apply Forall_cons in Hl as [Hx Hl].
  apply insert_desc_sorted; [done | by rewrite sort_desc_perm | by apply IH].
Qed.

Lemma insert_desc_stable v x l :
  scoring v (insert_desc x l) = scoring v (x :: l).
Proof.
  unfold scoring. induction l as [|y l IH]; simpl; [done|].
  destruct (PyFloat.ltb _ _) eqn:Hlt; [|done].
  rewrite filter_cons, IH, !filter_cons.
  repeat case_decide; try done.
  exfalso. by eapply ltb_not_eqb.
Qed.

Lemma sort_desc_stable v l : scoring v (sort_desc l) = scoring v l.
Proof.
  induction l as [|x l IH]; simpl; [done|].
  rewrite insert_desc_stable. unfold scoring in *.
  by rewrite !filter_cons, IH.
Qed.

Lemma StronglySorted_adjacent {A} (R : A -> A -> Prop) l i a b :
  StronglySorted R l -> l !! i = Some a -> l !! S i = Some b -> R a b.
Proof.
  intros Hs. revert i. induction Hs as [|x l Hs IH Hx]; intros i Ha Hb.
  - done.
  - destruct i as [|i]; simpl in *.
    + injection Ha as <-. rewrite Forall_forall in Hx. apply Hx.
      by eapply list_elem_of_lookup_2.
    + by eapply IH.
Qed.

Lemma assign_ranks_spec l :
  ScoredTopic.rank <$> assign_ranks l = Some <$> seq 1 (length l)
  /\ ScoredTopic.cluster <$> assign_ranks l = ScoredTopic.cluster <$> l
  /\ ScoredTopic.heat_score <$> assign_ranks l = ScoredTopic.heat_score <$> l.
Proof.
  unfold assign_ranks. split_and!; apply list_eq; intros i;
    rewrite !list_lookup_fmap, list_lookup_imap.
  - destruct (l !! i) as [t|] eqn:Hi; simpl.
    + rewrite lookup_seq_lt by (by eapply lookup_lt_Some). done.
    + rewrite lookup_seq_ge by (by apply lookup_ge_None). done.
  - by destruct (l !! i).
  - by destruct (l !! i).
Qed.

Lemma logged_logged w r1 r2 : logged (logged w r1) r2 = logged w (r1 ++ r2).
Proof. unfold logged. simpl. by rewrite app_assoc. Qed.

Lemma logged_nil w : logged w [] = w.
Proof. destruct w. unfold logged. simpl. by rewrite app_nil_r. Qed.

Section Scoring.

Variable categories_config : CategoriesConfig.


Lemma score_loop_run clusters : forall acc w,
  score_loop categories_config clusters acc w
  = (inr (acc ++ (scored_topic categories_config <$> clusters)),
     logged w (heat_lines categories_config clusters)).
Proof.
  induction clusters as [|c cs IH]; intros acc w; simpl.
  - by rewrite app_nil_r, logged_nil.
  - unfold mbind, M_bind. simpl. rewrite IH.
    rewrite <- app_assoc. unfold logged. simpl. by rewrite <- app_assoc.
Qed.

Lemma calculate_all_heat_scores_run clusters w :
  calculate_all_heat_scores categories_config clusters w
  = (inr (sort_desc (scored_topic categories_config <$> clusters)),
     logged w ((INFO, HeatStart (length clusters))
               :: heat_lines categories_config clusters ++ [(INFO, HeatDone)])).
Proof.
  unfold calculate_all_heat_scores, mbind, M_bind. simpl.
  rewrite score_loop_run. simpl.
  unfold logged. simpl. by rewrite <- !app_assoc.
Qed.

Lemma save_heat_scores_run topics date_str time_slot w :
  save_heat_scores topics date_str time_slot w
  = (inr (assign_ranks topics),
     {| requests := requests w;
        log := log w ++ [(INFO, Saved (heat_path date_str time_slot))];
        written := written w
                   ++ [HeatFile date_str time_slot (assign_ranks topics)] |}).
Proof. done. Qed.

(** C4 as the code has it.  When the scores are numbers (not NaN),
    [calculate_all_heat_scores] returns the scored clusters in descending
    order of [heat_score], clusters of equal score in the order of the
    input, and [save_heat_scores] numbers them 1, 2, ..., n in that
    order. *)
Theorem sorted_and_ranked clusters w :
  Forall (fun c => PyFloat.is_nan (calculate_heat_score categories_config c)
                   = false) clusters ->
  exists sorted,
    (calculate_all_heat_scores categories_config clusters w).1 = inr sorted
    /\ sorted ≡ₚ scored_topic categories_config <$> clusters
    /\ (forall i a b,
          sorted !! i = Some a -> sorted !! S i = Some b ->
          PyFloat.leb (ScoredTopic.heat_score b) (ScoredTopic.heat_score a)
          = true)
    /\ (forall v,
          scoring v sorted
          = scoring v (scored_topic categories_config <$> clusters))
    /\ (forall date_str time_slot w', exists ranked,
          (save_heat_scores sorted date_str time_slot w').1 = inr ranked
          /\ ScoredTopic.rank <$> ranked = Some <$> seq 1 (length clusters)
          /\ ScoredTopic.cluster <$> ranked = ScoredTopic.cluster <$> sorted
          /\ ScoredTopic.heat_score <$> ranked
             = ScoredTopic.heat_score <$> sorted).
Proof.
  intros Hnan.
  exists (sort_desc (scored_topic categories_config <$> clusters)).
  split; [by rewrite calculate_all_heat_scores_run|]. split_and!.
  - apply sort_desc_perm.
  - intros i a b. apply (StronglySorted_adjacent outranks).
    apply sort_desc_sorted. apply Forall_fmap.
    eapply Forall_impl; [exact Hnan|]. done.
  - intros v. apply sort_desc_stable.
  - intros date_str time_slot w'.
    exists (assign_ranks
              (sort_desc (scored_topic categories_config <$> clusters))).
    split; [by rewrite save_heat_scores_run|].
    destruct (assign_ranks_spec
                (sort_desc (scored_topic categories_config <$> clusters)))
      as (Hr & Hc & Hh).
    split_and!; [|done..].
    rewrite Hr. do 2 f_equal.
    by rewrite (Permutation_length (sort_desc_perm _)), length_fmap.
Qed.

End Scoring.

(** C4 fails on a score that is not a number.  A cluster whose average
    depth is NaN scores NaN; [list.sort] compares with [<], which is
    false on NaN both ways, so the cluster of score 17.0 stays before it,
    and [17.0 >= NaN] does not hold for this adjacent pair. *)
Lemma nan_score_unordered :
  (calculate_all_heat_scores Scenario.categories_config
     [Scenario.lone "Y" (PyFloat.decimal 2 1); Scenario.lone "N" S754_nan]
     fresh).1
  = inr [scored_topic Scenario.categories_config
           (Scenario.lone "Y" (PyFloat.decimal 2 1));
         scored_topic Scenario.categories_config
           (Scenario.lone "N" S754_nan)]
  /\ ScoredTopic.heat_score
       (scored_topic Scenario.categories_config
          (Scenario.lone "Y" (PyFloat.decimal 2 1)))
     = PyFloat.of_Z 17
  /\ ScoredTopic.heat_score
       (scored_topic Scenario.categories_config (Scenario.lone "N" S754_nan))
     = S754_nan
  /\ PyFloat.leb
       (ScoredTopic.heat_score
          (scored_topic Scenario.categories_config
             (Scenario.lone "N" S754_nan)))
       (ScoredTopic.heat_score
          (scored_topic Scenario.categories_config
             (Scenario.lone "Y" (PyFloat.decimal 2 1))))
     = false.
Proof. vm_compute. done. Qed.

Section Unconfigured.

Variable config : Config.
Variable categories_config : CategoriesConfig.
Variable service : nat -> prompt -> result string.
Variable json_loads : string -> option json.
Variable str_strip : string -> string.
Variable loads_analysis : string -> option RawAnalysis.
Variable fetch_all_articles : M (list Article.t).
Variable today : string.
Variable generate_report :
  list ScoredTopic.t -> string -> string -> nat -> M unit.

Hypothesis unset : key_unset config.

Lemma call_unset p w : call_zhipu_ai config service p w = (inl key_missing, w).
Proof.
  unfold call_zhipu_ai. unfold key_unset in unset.
  by destruct (zhipu_api_key config) as [[|]|].
Qed.

Lemma extract_unset article w :
  extract_topics_from_article config categories_config service str_strip
    loads_analysis article w
  = (inr (empty_analysis categories_config),
     logged w [(INFO, Analyzing (take_string 50 (Article.title article)));
               (ERROR, ExtractFailed key_missing)]).
Proof.
  unfold extract_topics_from_article, mbind, M_bind, try_except. simpl.
  rewrite call_unset. simpl. unfold logged. simpl. by rewrite <- app_assoc.
Qed.


Lemma analyze_loop_unset n articles : forall i acc w,
  exists records,
    analyze_loop config categories_config service str_strip loads_analysis
      i n articles acc w
    = (inr (acc ++ (degraded categories_config <$> articles)), logged w records).
Proof.
  induction articles as [|a rest IH]; intros i acc w; simpl.
  - exists []. by rewrite app_nil_r, logged_nil.
  - unfold mbind, M_bind, try_except. simpl. rewrite extract_unset. simpl.
    destruct (IH (S i) (acc ++ [degraded categories_config a])
                (logged (logged w [(INFO, Progress i n)])
                   [(INFO, Analyzing (take_string 50 (Article.title a)));
                    (ERROR, ExtractFailed key_missing)]))
      as (records & Hrec).
    exists ([(INFO, Progress i n);
             (INFO, Analyzing (take_string 50 (Article.title a)));
             (ERROR, ExtractFailed key_missing)] ++ records).
    unfold degraded, logged in *. simpl in *. rewrite Hrec.
    by rewrite <- !app_assoc.
Qed.

Lemma analyze_all_unset articles w :
  exists records,
    analyze_all_articles config categories_config service str_strip
      loads_analysis articles w
    = (inr (degraded categories_config <$> articles), logged w records).
Proof.
  unfold analyze_all_articles, mbind, M_bind. simpl.
  destruct (analyze_loop_unset (length articles) articles 1 []
              (logged w [(INFO, AnalyzeStart (length articles))]))
    as (records & Hrec).
  exists ([(INFO, AnalyzeStart (length articles))] ++ records
          ++ [(INFO, AnalyzeDone (length (degraded categories_config <$> articles)))]).
  unfold logged in *. simpl in *. rewrite Hrec. simpl.
  by rewrite <- !app_assoc.
Qed.

Lemma degraded_no_topics articles : collect_topics (degraded categories_config <$> articles) = [].
Proof.
  apply collect_topics_nil. intros a t (a' & -> & _)%list_elem_of_fmap.
  simpl. by intros ?%elem_of_nil.
Qed.

End Unconfigured.

(** C9.  Three articles, A and B on topic X with depths 0.8 and 0.6, C on
    topic Y with depth 0.2, the service grouping X and Y apart, weight 0.5:
    the run completes and writes X (two mentions, average depth 0.7, heat
    38.0, rank 1) before Y (one mention, depth 0.2, heat 17.0, rank 2). *)
Theorem end_to_end_scenario :
  (Scenario.run Scenario.config).1 = inr tt
  /\ Scenario.rankings (Scenario.run Scenario.config).2
     = [[ (JStr "X", ["A"; "B"], 2%nat, PyFloat.decimal 7 1, PyFloat.of_Z 38,
           Some 1%nat);
          (JStr "Y", ["C"], 1%nat, PyFloat.decimal 2 1, PyFloat.of_Z 17,
           Some 2%nat) ]].
Proof. vm_compute. done. Qed.

(** C8 fails on the code: without an API key the run is not stopped at
    startup.  The fetch, extraction and clustering stages run, the fetch
    stage saves the articles, each extraction error becomes an article
    without topics, no request is sent, and the run ends normally on the
    warning that no topic was found. *)
Lemma missing_key_run_completes :
  Scenario.run Scenario.config_without_key
  = (inr tt,
     {| requests := [];
        log := [ (INFO, Banner); (INFO, TaskStart "早间"); (INFO, Banner);
                 (INFO, Stage 1);
                 (INFO, FetchLine "抓取完成！");
                 (INFO, FetchLine
                          "文章已保存到: raw/2026-02-05/articles_0800.json");
                 (INFO, Fetched 3);
                 (INFO, Stage 2); (INFO, AnalyzeStart 3);
                 (INFO, Progress 1 3); (INFO, Analyzing "A");
                 (ERROR, ExtractFailed key_missing);
                 (INFO, Progress 2 3); (INFO, Analyzing "B");
                 (ERROR, ExtractFailed key_missing);
                 (INFO, Progress 3 3); (INFO, Analyzing "C");
                 (ERROR, ExtractFailed key_missing);
                 (INFO, AnalyzeDone 3);
                 (INFO, Stage 3); (INFO, ClusterStart);
                 (WARNING, NoTopicsFound);
                 (WARNING, NoTopicsRun "早间") ];
        written := [ ArticlesFile "2026-02-05" "0800"
                       [Scenario.article_A; Scenario.article_B;
                        Scenario.article_C] ] |}).
Proof. vm_compute. done. Qed.

(** The world after the four log lines that precede the fetch stage. *)
Lemma at_fetch_eq time_slot w :
  {| requests := requests w;
     log := (((log w ++ [(INFO, Banner)]) ++ [(INFO, TaskStart time_slot)])
             ++ [(INFO, Banner)]) ++ [(INFO, Stage 1)];
     written := written w |}
  = at_fetch time_slot w.
Proof. unfold at_fetch, logged. simpl. by rewrite <- !app_assoc. Qed.

Section MissingKey.

Variable config : Config.
Variable categories_config : CategoriesConfig.
Variable service : nat -> prompt -> result string.
Variable json_loads : string -> option json.
Variable str_strip : string -> string.
Variable loads_analysis : string -> option RawAnalysis.
Variable fetch_all_articles : M (list Article.t).
Variable today : string.
Variable generate_report :
  list ScoredTopic.t -> string -> string -> nat -> M unit.

(** C8 as the code has it.  With the API key unset every call of
    [call_zhipu_ai] raises [ValueError] without sending a request; the
    extraction turns it into the empty annotation, the clustering into its
    fallback; and a run starts with the fetch stage and, after it, only
    logs: it sends no request and writes no file, so no topics, heat or
    report file, whatever the fetch stage saved; it returns without
    raising, on the warning that no topic was found when articles were
    fetched. *)
Theorem missing_key_degrades time_slot w :
  key_unset config ->
  (forall p w0, call_zhipu_ai config service p w0 = (inl key_missing, w0))
  /\ (forall article w0,
        extract_topics_from_article config categories_config service
          str_strip loads_analysis article w0
        = (inr (empty_analysis categories_config),
           logged w0
             [(INFO, Analyzing (take_string 50 (Article.title article)));
              (ERROR, ExtractFailed key_missing)]))
  /\ (forall articles w0,
        collect_topics articles <> [] ->
        (cluster_topics config service json_loads str_strip articles w0).1
        = inr (fallback_clusters (collect_topics articles)))
  /\ (let fetch := fetch_all_articles (at_fetch time_slot w) in
      let run :=
        run_analysis_pipeline config categories_config service json_loads
          str_strip loads_analysis fetch_all_articles today generate_report
          time_slot w in
      exists records,
        run = (inr tt, logged fetch.2 records)
        /\ requests run.2 = requests fetch.2
        /\ written run.2 = written fetch.2
        /\ (forall a rest,
              fetch.1 = inr (a :: rest) ->
              last records = Some (WARNING, NoTopicsRun time_slot))).
Proof.
  intros unset. split_and!.
  - by apply call_unset.
  - by apply extract_unset.
  - intros articles w0 Hne.
    rewrite cluster_topics_result.
    destruct (collect_topics articles) as [|ti tis] eqn:Hall; [done|].
    unfold grouped_outcome. by rewrite call_unset.
  - intros fetch run.
    assert (exists records,
              run = (inr tt, logged fetch.2 records)
              /\ (forall a rest,
                    fetch.1 = inr (a :: rest) ->
                    last records = Some (WARNING, NoTopicsRun time_slot)))
      as (records & Hrun & Hlast).
    2:{ exists records. rewrite Hrun. done. }
    subst run fetch.
    unfold run_analysis_pipeline, pipeline_body, mbind, M_bind, try_except,
      logger, mret, M_ret. simpl.
    rewrite at_fetch_eq.
    destruct (fetch_all_articles (at_fetch time_slot w))
      as [[e|[|a rest]] w1]; simpl.
    + exists [(ERROR, TaskFailed time_slot e)]. done.
    + exists [(WARNING, NoArticles time_slot)]. done.
    + set (threshold := (if _ <? _ then _ else _) : M unit).
      assert (exists rs, forall w0, threshold w0 = (inr tt, logged w0 rs))
        as (rs & Hth).
      { subst threshold. destruct (_ <? _).
        - by exists [(WARNING, BelowThreshold time_slot)].
        - exists []. intros w0. by rewrite logged_nil. }
      rewrite Hth. simpl.
      match goal with
      | |- context [analyze_all_articles _ _ _ _ _ ?l ?w0] =>
          destruct (analyze_all_unset config categories_config service
                      str_strip loads_analysis unset l w0) as (ra & Hra)
      end.
      rewrite Hra. simpl.
      rewrite cluster_topics_empty by apply degraded_no_topics. simpl.
      exists (([(INFO, Fetched (S (length rest)))] ++ rs
               ++ [(INFO, Stage 2)] ++ ra
               ++ [(INFO, Stage 3); (INFO, ClusterStart);
                   (WARNING, NoTopicsFound)])
              ++ [(WARNING, NoTopicsRun time_slot)]).
      split.
      * unfold logged. simpl. repeat (rewrite <- !app_assoc; simpl). done.
      * intros _ _ _. by rewrite last_snoc.
Qed.

End MissingKey.

(** C3 fails on the code: an article with the labels X and Y is assigned
    to X, its first label, and the label Y, present in the instances, gets
    no cluster. *)
Lemma second_label_gets_no_cluster :
  TopicInstance.topic <$> collect_topics [Scenario.two_topics] = ["X"; "Y"]
  /\ (cluster_topics Scenario.config Scenario.unavailable Scenario.json_loads
        id [Scenario.two_topics] fresh).1
     = inr (fallback_clusters (collect_topics [Scenario.two_topics]))
  /\ TopicCluster.canonical_name
       <$> fallback_clusters (collect_topics [Scenario.two_topics])
     = [JStr "X"].
Proof. vm_compute. done. Qed.

(** ** Rounding to binary64 never goes below a representable bound *)


Lemma dig_size m : digits2_pos m = Pos.size m.
Proof. induction m; simpl; congruence. Qed.

Lemma dig_pos m : 0 < dig m.
Proof. unfold dig. lia. Qed.

Lemma dig_bounds m : 2 ^ (dig m - 1) <= Zpos m < 2 ^ dig m.
Proof.
  unfold dig. rewrite dig_size. split.
  - pose proof (Pos.size_le m) as H.
    assert (Zpos (2 ^ Pos.size m) <= Zpos m~0) as H' by lia.
    rewrite Pos2Z.inj_pow in H'.
    replace (Z.pos (Pos.size m)) with (Z.pos (Pos.size m) - 1 + 1) in H' by lia.
    rewrite Z.pow_add_r in H' by lia. lia.
  - pose proof (Pos.size_gt m) as H.
    assert (Zpos m < Zpos (2 ^ Pos.size m)) as H' by lia.
    by rewrite Pos2Z.inj_pow in H'.
Qed.

Lemma dig_unique m d : 2 ^ (d - 1) <= Zpos m < 2 ^ d -> dig m = d.
Proof.
  intros [Hlo Hhi]. pose proof (dig_bounds m) as [Hlo' Hhi'].
  pose proof (dig_pos m).
  assert (0 < d).
  { destruct (Z_lt_le_dec 0 d) as [|Hd]; [done|].
    assert (2 ^ d <= 2 ^ 0) by (apply Z.pow_le_mono_r; lia). lia. }
  destruct (Z_lt_le_dec (dig m) d) as [Hlt|Hge].
  - assert (2 ^ dig m <= 2 ^ (d - 1)) by (apply Z.pow_le_mono_r; lia). lia.
  - destruct (Z_lt_le_dec d (dig m)) as [Hlt|Hle]; [|lia].
    assert (2 ^ d <= 2 ^ (dig m - 1)) by (apply Z.pow_le_mono_r; lia). lia.
Qed.

(** A larger value has at least as many digits above the binary point. *)
Lemma dig_mono m e m' e' k :
  k <= e -> k <= e' ->
  Zpos m * 2 ^ (e - k) <= Zpos m' * 2 ^ (e' - k) ->
  dig m + e <= dig m' + e'.
Proof.
  intros Hk Hk' Hle.
  pose proof (dig_bounds m) as [Hlo _]. pose proof (dig_bounds m') as [_ Hhi].
  pose proof (dig_pos m). pose proof (dig_pos m').
  assert (2 ^ (dig m - 1 + (e - k)) < 2 ^ (dig m' + (e' - k))) as Hpow.
  { rewrite !Z.pow_add_r by lia.
    assert (0 < 2 ^ (e - k)) by (apply Z.pow_pos_nonneg; lia).
    assert (0 < 2 ^ (e' - k)) by (apply Z.pow_pos_nonneg; lia).
    nia. }
  apply Z.pow_lt_mono_r_iff in Hpow; lia.
Qed.

Lemma shr_1_m r : 0 <= shr_m r -> shr_m (shr_1 r) = shr_m r / 2.
Proof.
  destruct r as [m r s]. simpl. intros Hm.
  destruct m as [|[p|p|]|p]; simpl; try done; try lia.
  - rewrite Pos2Z.inj_xI. apply (Z.div_unique _ _ _ 1); lia.
  - rewrite Pos2Z.inj_xO. apply (Z.div_unique _ _ _ 0); lia.
Qed.

Lemma pow2_xO p : 2 ^ Zpos p~0 = 2 ^ Zpos p * 2 ^ Zpos p.
Proof.
  replace (Zpos p~0) with (Zpos p + Zpos p) by lia.
  by rewrite Z.pow_add_r by lia.
Qed.

Lemma pow2_xI p : 2 ^ Zpos p~1 = 2 * (2 ^ Zpos p * 2 ^ Zpos p).
Proof.
  replace (Zpos p~1) with (1 + (Zpos p + Zpos p)) by lia.
  by rewrite !Z.pow_add_r by lia.
Qed.

Lemma iter_shr_1_m p : forall r,
  0 <= shr_m r -> shr_m (SpecFloat.iter_pos shr_1 p r) = shr_m r / 2 ^ Zpos p.
Proof.
  assert (forall a b c, 0 < b -> 0 < c -> a / b / c = a / (b * c)) as Hdd
    by (intros; apply Z.div_div; lia).
  assert (forall a b, 0 <= a -> 0 < b -> 0 <= a / b) as Hnn
    by (intros; apply Z.div_pos; lia).
  assert (forall q, 0 < 2 ^ Zpos q) as Hpp
    by (intros; apply Z.pow_pos_nonneg; lia).
  induction p as [p IH|p IH|]; intros r Hr; simpl.
  - assert (0 <= shr_m (shr_1 r)) as H1
      by (rewrite shr_1_m by done; apply Hnn; lia).
    assert (0 <= shr_m (SpecFloat.iter_pos shr_1 p (shr_1 r))) as H2
      by (rewrite IH by done; apply Hnn; [done | apply Hpp]).
    rewrite IH, IH, shr_1_m by done.
    rewrite pow2_xI, !Hdd; try apply Hpp; try lia.
  - assert (0 <= shr_m (SpecFloat.iter_pos shr_1 p r)) as H2
      by (rewrite IH by done; apply Hnn; [done | apply Hpp]).
    rewrite IH, IH by done.
    rewrite pow2_xO, Hdd; try apply Hpp. done.
  - rewrite shr_1_m by done. done.
Qed.

Lemma shr_spec r e n :
  0 <= shr_m r -> 0 <= n ->
  shr_m (shr r e n).1 = shr_m r / 2 ^ n /\ (shr r e n).2 = e + n.
Proof.
  intros Hr Hn. destruct n as [|p|p]; simpl; [| |lia].
  - rewrite Z.div_1_r. split; [done | lia].
  - split; [by apply iter_shr_1_m | done].
Qed.

Lemma shr_record_of_loc_m m l : shr_m (shr_record_of_loc m l) = m.
Proof. by destruct l as [|[]]. Qed.

Lemma round_nearest_even_bounds m l :
  m <= round_nearest_even m l <= m + 1.
Proof.
  destruct l as [|[]]; simpl; try lia. destruct (Z.even m); lia.
Qed.

Lemma fexp_eq e :
  fexp PyFloat.prec PyFloat.emax e = Z.max (e - 53) (-1074).
Proof. reflexivity. Qed.

Lemma Zdigits2_pos m : Zdigits2 (Zpos m) = dig m.
Proof. reflexivity. Qed.

(** What [binary_round_aux] returns for a positive mantissa with enough
    digits ([e] not above the exponent [e1] of its format): nothing below
    the truncation [m1 * 2^e1] of its argument, and a canonical float. *)
Lemma round_aux_spec m e l :
  let e1 := fexp PyFloat.prec PyFloat.emax (dig m + e) in
  let m1 := Zpos m / 2 ^ (e1 - e) in
  e <= e1 ->
  match binary_round_aux PyFloat.prec PyFloat.emax false (Zpos m) e l with
  | S754_zero false => m1 = 0
  | S754_infinity false => True
  | S754_finite false m3 e3 =>
      canonical_mantissa PyFloat.prec PyFloat.emax m3 e3 = true
      /\ e1 <= e3 /\ m1 <= Zpos m3 * 2 ^ (e3 - e1)
  | _ => False
  end.
Proof.
  intros e1 m1 He. unfold binary_round_aux, shr_fexp.
  rewrite Zdigits2_pos. fold e1.
  pose proof (dig_bounds m) as [Hlo Hhi]. pose proof (dig_pos m) as Hd.
  assert (0 <= m1) as Hm1 by (apply Z.div_pos; [lia | apply Z.pow_pos_nonneg; lia]).
  destruct (shr_spec (shr_record_of_loc (Zpos m) l) e (e1 - e)) as [Hs1 Hs2];
    [rewrite shr_record_of_loc_m; lia | lia |].
  destruct (shr _ e (e1 - e)) as [mrs' e'] eqn:Hshr. simpl in Hs1, Hs2.
  rewrite shr_record_of_loc_m in Hs1. fold m1 in Hs1.
  replace e' with e1 by lia. clear Hs2 e' Hshr.
  pose proof (round_nearest_even_bounds (shr_m mrs') (loc_of_shr_record mrs'))
    as Hr.
  set (m2 := round_nearest_even _ _) in *. rewrite Hs1 in Hr.
  clearbody m2. clear Hs1 mrs'.
  (* the digits of [m1] *)
  assert (m1 < 2 ^ 53 /\ (e1 = -1074 \/ 2 ^ 52 <= m1)) as [Hm1hi Hm1lo].
  { subst m1. unfold e1 in *. rewrite fexp_eq in *.
    destruct (Z.max_spec (dig m + e - 53) (-1074)) as [[Hc Hmax]|[Hc Hmax]];
      rewrite Hmax in *.
    - split; [|by left].
      apply Z.div_lt_upper_bound; [apply Z.pow_pos_nonneg; lia|].
      rewrite <- Z.pow_add_r by lia.
      eapply Z.lt_le_trans; [exact Hhi|]. apply Z.pow_le_mono_r; lia.
    - split.
      + apply Z.div_lt_upper_bound; [apply Z.pow_pos_nonneg; lia|].
        rewrite <- Z.pow_add_r by lia.
        eapply Z.lt_le_trans; [exact Hhi|]. apply Z.pow_le_mono_r; lia.
      + right. apply Z.div_le_lower_bound; [apply Z.pow_pos_nonneg; lia|].
        rewrite <- Z.pow_add_r by lia.
        eapply Z.le_trans; [|exact Hlo]. apply Z.pow_le_mono_r; lia. }
  assert (-1074 <= e1) as He1 by (unfold e1; rewrite fexp_eq; lia).
  destruct (Z.eq_dec m2 0) as [Hz|Hnz].
  { rewrite Hz. simpl.
    replace (fexp PyFloat.prec PyFloat.emax (0 + e1) - e1) with 0
      by (rewrite fexp_eq; lia).
    simpl. lia. }
  destruct m2 as [|p2|p2]; [done| |lia].
  rewrite Zdigits2_pos.
  pose proof (dig_bounds p2) as [Hlo2 Hhi2]. pose proof (dig_pos p2) as Hd2.
  destruct (Z_lt_le_dec (Zpos p2) (2 ^ 53)) as [Hlt|Hge].
  - (* no carry *)
    assert (fexp PyFloat.prec PyFloat.emax (dig p2 + e1) = e1) as Hcanon.
    { rewrite fexp_eq.
      assert (dig p2 <= 53).
      { destruct (Z_lt_le_dec 53 (dig p2)); [|done].
        assert (2 ^ 53 <= 2 ^ (dig p2 - 1)) by (apply Z.pow_le_mono_r; lia).
        lia. }
      destruct Hm1lo as [->|Hm1lo]; [lia|].
      assert (dig p2 = 53) as -> by (apply dig_unique; simpl; lia). lia. }
    rewrite Hcanon, Z.sub_diag. simpl.
    destruct (e1 <=? PyFloat.emax - PyFloat.prec); [|done].
    unfold canonical_mantissa. fold (dig p2). rewrite Hcanon, Z.eqb_refl.
    rewrite Z.sub_diag. simpl. lia.
  - (* the mantissa rounded up to [2^53] *)
    assert (Zpos p2 = 2 ^ 53) as Heq by lia.
    assert (dig p2 = 54) as Hdig by (apply dig_unique; rewrite Heq; simpl; lia).
    assert (2 ^ 52 <= m1) as Hnormal by lia.
    rewrite Hdig.
    assert (fexp PyFloat.prec PyFloat.emax (54 + e1) - e1 = 1) as ->
      by (rewrite fexp_eq; lia).
    assert (p2 = 9007199254740992%positive) as -> by lia.
    simpl.
    destruct (e1 + 1 <=? PyFloat.emax - PyFloat.prec); [|done].
    split_and!; [| lia |].
    + unfold canonical_mantissa. simpl. rewrite fexp_eq. apply Z.eqb_eq. lia.
    + replace (e1 + 1 - e1) with 1 by lia. simpl. lia.
Qed.


Lemma canonical_fexp m e :
  canonical_mantissa PyFloat.prec PyFloat.emax m e = true ->
  fexp PyFloat.prec PyFloat.emax (dig m + e) = e.
Proof. unfold canonical_mantissa. intros H. by apply Z.eqb_eq in H. Qed.

Lemma round_aux_at_least M E m e l k :
  canonical_mantissa PyFloat.prec PyFloat.emax M E = true ->
  e <= fexp PyFloat.prec PyFloat.emax (dig m + e) ->
  k <= e -> k <= E ->
  Zpos M * 2 ^ (E - k) <= Zpos m * 2 ^ (e - k) ->
  at_least M E (binary_round_aux PyFloat.prec PyFloat.emax false (Zpos m) e l).
Proof.
  intros HM He Hk HkE Hval.
  pose proof (round_aux_spec m e l He) as Hspec.
  apply canonical_fexp in HM.
  pose proof (dig_mono _ _ _ _ _ HkE Hk Hval) as Hdig.
  set (e1 := fexp PyFloat.prec PyFloat.emax (dig m + e)) in *.
  set (m1 := Zpos m / 2 ^ (e1 - e)) in *.
  assert (E <= e1) as HEe1 by (subst e1; rewrite fexp_eq in *; lia).
  pose proof (dig_bounds m) as [Hlo Hhi]. pose proof (dig_pos m) as Hd.
  assert (1 <= m1 /\ (E = e1 -> Zpos M <= m1)) as [Hm1 HMm1].
  { destruct (Z.eq_dec E e1) as [Heq|Hne].
    - assert (Zpos M <= m1); [|split; [lia | done]].
      subst m1. rewrite <- Heq.
      apply Z.div_le_lower_bound; [apply Z.pow_pos_nonneg; lia|].
      replace (E - k) with ((E - e) + (e - k)) in Hval by lia.
      rewrite Z.pow_add_r, Z.mul_assoc in Hval by lia.
      apply Z.mul_le_mono_pos_r in Hval; [lia | apply Z.pow_pos_nonneg; lia].
    - split; [|done].
      assert (e1 = dig m + e - 53) as He1
        by (subst e1; rewrite fexp_eq in *; lia).
      subst m1.
      apply Z.div_le_lower_bound; [apply Z.pow_pos_nonneg; lia|].
      rewrite Z.mul_1_r. eapply Z.le_trans; [|exact Hlo].
      apply Z.pow_le_mono_r; lia. }
  unfold at_least.
  destruct (binary_round_aux _ _ _ _ _ _) as [[]|[]| |[] m3 e3]; try done;
    [lia|].
  destruct Hspec as (Hc & He3 & Hm3). split; [done|].
  destruct (Z.eq_dec E e3) as [Heq|Hne]; [|left; lia].
  right. split; [done|].
  assert (e3 = e1) as -> by lia. rewrite Z.sub_diag in Hm3.
  simpl in Hm3. specialize (HMm1 Heq). lia.
Qed.

Lemma at_least_leb M E x :
  at_least M E x -> SFleb (S754_finite false M E) x = true.
Proof.
  destruct x as [[]|[]| |[] m e]; simpl; try done.
  intros (_ & [Hlt|[-> Hle]]); unfold SFleb; simpl.
  - by rewrite (proj2 (Z.compare_lt_iff E e) Hlt).
  - rewrite Z.compare_refl.
    change (Pos.compare_cont Eq M m) with (Pos.compare M m).
    destruct (Pos.compare_spec M m); try done. lia.
Qed.

Lemma dig_ge m d : 2 ^ (d - 1) <= Zpos m -> d <= dig m.
Proof.
  intros H. pose proof (dig_bounds m) as [_ Hhi]. pose proof (dig_pos m).
  destruct (Z_lt_le_dec (dig m) d) as [Hlt|]; [|done].
  assert (2 ^ dig m <= 2 ^ (d - 1)) by (apply Z.pow_le_mono_r; lia). lia.
Qed.

Lemma iter_xO m d : Zpos (Pos.iter xO m d) = Zpos m * 2 ^ Zpos d.
Proof.
  induction d as [|d IH] using Pos.peano_ind.
  - simpl. lia.
  - rewrite Pos.iter_succ, Pos2Z.inj_xO, IH, Pos2Z.inj_succ, Z.pow_succ_r by lia.
    lia.
Qed.

Lemma shl_align_spec m e e' :
  (shl_align m e e').2 = Z.min e e'
  /\ Zpos (shl_align m e e').1 = Zpos m * 2 ^ (e - Z.min e e').
Proof.
  unfold shl_align. destruct (e' - e) as [|d|d] eqn:Hd; simpl.
  - replace (Z.min e e') with e by lia. rewrite Z.sub_diag. simpl. lia.
  - replace (Z.min e e') with e by lia. rewrite Z.sub_diag. simpl. lia.
  - replace (Z.min e e') with e' by lia. split; [done|].
    rewrite iter_xO. f_equal. f_equal. lia.
Qed.

Lemma dig_shift m s mz :
  0 <= s -> Zpos mz = Zpos m * 2 ^ s -> dig mz = dig m + s.
Proof.
  intros Hs Hmz. pose proof (dig_bounds m) as [Hlo Hhi]. pose proof (dig_pos m).
  assert (0 < 2 ^ s) by (apply Z.pow_pos_nonneg; lia).
  apply dig_unique. rewrite Hmz. split.
  - replace (dig m + s - 1) with (dig m - 1 + s) by lia.
    rewrite Z.pow_add_r by lia. nia.
  - rewrite Z.pow_add_r by lia. nia.
Qed.

Lemma round_at_least M E m e k :
  canonical_mantissa PyFloat.prec PyFloat.emax M E = true ->
  k <= e -> k <= E ->
  Zpos M * 2 ^ (E - k) <= Zpos m * 2 ^ (e - k) ->
  at_least M E (binary_round PyFloat.prec PyFloat.emax false m e).
Proof.
  intros HM Hk HkE Hval. unfold binary_round.
  fold (dig m).
  destruct (shl_align_spec m e (fexp PyFloat.prec PyFloat.emax (dig m + e)))
    as [Hez Hmz].
  destruct (shl_align _ _ _) as [mz ez]. simpl in Hez, Hmz.
  set (e' := fexp PyFloat.prec PyFloat.emax (dig m + e)) in *.
  rewrite <- Hez in Hmz.
  assert (dig mz + ez = dig m + e) as Hdig
    by (rewrite (dig_shift m (e - ez) mz) by (done || lia); lia).
  assert (0 < 2 ^ (k - Z.min k ez)) by (apply Z.pow_pos_nonneg; lia).
  apply (round_aux_at_least M E mz ez loc_Exact (Z.min k ez)); [done | | lia..|].
  - rewrite Hdig. fold e'. lia.
  - rewrite Hmz, <- Z.mul_assoc, <- Z.pow_add_r by lia.
    replace (e - ez + (ez - Z.min k ez)) with
      ((e - k) + (k - Z.min k ez)) by lia.
    replace (E - Z.min k ez) with ((E - k) + (k - Z.min k ez)) by lia.
    rewrite !Z.pow_add_r, !Z.mul_assoc by lia.
    apply Z.mul_le_mono_nonneg_r; lia.
Qed.


Lemma of_Z_10 : PyFloat.of_Z 10 = S754_finite false m_ten (-49).
Proof. reflexivity. Qed.

Lemma of_Z_60 : PyFloat.of_Z 60 = S754_finite false m_sixty (-47).
Proof. reflexivity. Qed.

Lemma of_nat_at_least n :
  (10 <= n)%nat -> at_least m_ten (-49) (PyFloat.of_nat n).
Proof.
  intros Hn. unfold PyFloat.of_nat, PyFloat.of_Z, binary_normalize.
  destruct (Z.of_nat n) as [|p|p] eqn:Hp; [lia | | lia].
  apply (round_at_least m_ten (-49) p 0 (-49)); [done | lia | lia |].
  change (2 ^ (-49 - -49)) with 1. change (2 ^ (0 - -49)) with 562949953421312.
  unfold m_ten. lia.
Qed.

Lemma canonical_normal m e :
  canonical_mantissa PyFloat.prec PyFloat.emax m e = true ->
  -1074 < e -> 2 ^ 52 <= Zpos m < 2 ^ 53.
Proof.
  intros Hc%canonical_fexp He. rewrite fexp_eq in Hc.
  assert (dig m = 53) as Hd by lia.
  pose proof (dig_bounds m) as H. rewrite Hd in H. exact H.
Qed.

Lemma div_ten_at_least x :
  at_least m_ten (-49) x ->
  at_least m_one (-52) (PyFloat.div x (PyFloat.of_Z 10)).
Proof.
  intros Hx. destruct x as [[]|[]| |[] mx ex]; simpl in Hx; try done.
  destruct Hx as (Hc & Hord).
  pose proof (canonical_normal mx ex Hc ltac:(lia)) as [Hlo Hhi].
  assert (dig mx = 53) as Hd by (apply dig_unique; done).
  unfold PyFloat.div, SFdiv. rewrite of_Z_10. simpl xorb.
  unfold SFdiv_core_binary. rewrite Zdigits2_pos, Hd.
  change (Zdigits2 (Zpos m_ten)) with 53.
  replace (Z.min (fexp PyFloat.prec PyFloat.emax (53 + ex - (53 + -49)))
             (ex - -49)) with (ex - 4) by (rewrite fexp_eq; lia).
  replace (ex - -49 - (ex - 4)) with 53 by lia.
  rewrite Z.shiftl_mul_pow2 by lia.
  change (2 ^ 53) with 9007199254740992 in *.
  change (2 ^ 52) with 4503599627370496 in *.
  pose proof (Z_div_mod (Zpos mx * 9007199254740992) (Zpos m_ten) ltac:(done))
    as Hdiv.
  destruct (Z.div_eucl _ _) as [q r]. destruct Hdiv as [Hq Hr].
  unfold m_ten in *.
  destruct q as [|qp|qp]; [lia | | lia].
  assert (4503599627370496 <= Zpos qp) as Hqlo by lia.
  assert (53 <= dig qp) as Hdq by (apply dig_ge; simpl; lia).
  destruct (Z.eq_dec ex (-49)) as [->|Hne].
  - apply (round_aux_at_least m_one (-52) qp (-49 - 4) _ (-53));
      [done | rewrite fexp_eq; lia | lia | lia |].
    change (2 ^ (-52 - -53)) with 2. change (2 ^ (-49 - 4 - -53)) with 1.
    unfold m_one. lia.
  - apply (round_aux_at_least m_one (-52) qp (ex - 4) _ (-52));
      [done | rewrite fexp_eq; lia | lia | lia |].
    change (2 ^ (-52 - -52)) with 1.
    assert (0 < 2 ^ (ex - 4 - -52)) by (apply Z.pow_pos_nonneg; lia).
    unfold m_one. nia.
Qed.

Lemma mul_sixty_at_least x :
  at_least m_one (-52) x ->
  at_least m_sixty (-47) (PyFloat.mul x (PyFloat.of_Z 60)).
Proof.
  intros Hx. destruct x as [[]|[]| |[] mx ex]; simpl in Hx; try done.
  destruct Hx as (Hc & Hord).
  pose proof (canonical_normal mx ex Hc ltac:(lia)) as [Hlo Hhi].
  unfold PyFloat.mul, SFmul. rewrite of_Z_60. simpl xorb.
  change (2 ^ 53) with 9007199254740992 in *.
  change (2 ^ 52) with 4503599627370496 in *.
  assert (105 <= dig (mx * m_sixty)) as Hd.
  { apply dig_ge. rewrite Pos2Z.inj_mul.
    change (2 ^ (105 - 1)) with (4503599627370496 * 4503599627370496).
    unfold m_sixty. nia. }
  destruct (Z_lt_le_dec ex 0) as [Hneg|Hpos].
  - apply (round_aux_at_least m_sixty (-47) (mx * m_sixty) (ex + -47) _
             (ex + -47)); [done | rewrite fexp_eq; lia | lia | lia |].
    rewrite Z.sub_diag, Pos2Z.inj_mul. change (2 ^ 0) with 1.
    replace (-47 - (ex + -47)) with (- ex) by lia.
    assert (2 ^ (- ex) <= 2 ^ 52) as Hp by (apply Z.pow_le_mono_r; lia).
    change (2 ^ 52) with 4503599627370496 in Hp.
    assert (0 < 2 ^ (- ex)) by (apply Z.pow_pos_nonneg; lia).
    unfold m_sixty. nia.
  - apply (round_aux_at_least m_sixty (-47) (mx * m_sixty) (ex + -47) _
             (-47)); [done | rewrite fexp_eq; lia | lia | lia |].
    rewrite Pos2Z.inj_mul. change (2 ^ (-47 - -47)) with 1.
    replace (ex + -47 - -47) with ex by lia.
    assert (0 < 2 ^ ex) by (apply Z.pow_pos_nonneg; lia).
    unfold m_sixty. nia.
Qed.

Lemma min_sixty_at_least x :
  at_least m_sixty (-47) x -> PyFloat.min_int x 60 = PyFloat.of_Z 60.
Proof.
  unfold PyFloat.min_int. rewrite of_Z_60.
  intros Hx. destruct x as [[]|[]| |[] m e]; simpl in Hx; try done.
  assert (forall c : comparison,
            SFcompare (S754_finite false m_sixty (-47)) (S754_finite false m e)
            = Some match Z.compare (-47) e with
                   | Lt => Lt
                   | Gt => Gt
                   | Eq => Pos.compare m_sixty m
                   end) as Hcmp by (intros; reflexivity).
  unfold PyFloat.ltb, SFltb. rewrite (Hcmp Eq). clear Hcmp.
  destruct Hx as (_ & [Hlt|[<- Hle]]).
  - rewrite (proj2 (Z.compare_lt_iff (-47) e) Hlt). reflexivity.
  - rewrite Z.compare_refl.
    destruct (Pos.compare_spec m_sixty m) as [<-|Hl|Hg].
    + reflexivity.
    + reflexivity.
    + exfalso. apply Pos2Z.pos_lt_pos in Hg.
      apply (Z.lt_irrefl (Zpos m)).
      eapply Z.lt_le_trans; [exact Hg | exact Hle].
Qed.

Lemma mention_score_saturates n :
  (10 <= n)%nat -> mention_score n = PyFloat.of_Z 60.
Proof.
  intros Hn. unfold mention_score.
  by apply min_sixty_at_least, mul_sixty_at_least, div_ten_at_least,
    of_nat_at_least.
Qed.

Lemma category_weight_default cats category :
  (forall cat, cat ∈ cats -> JStr (Category.name cat) <> category) ->
  category_weight cats category = half.
Proof.
  induction cats as [|cat cats IH]; intros H; simpl; [done|].
  destruct category as [| | | |s| |]; simpl; try (apply IH; set_solver).
  destruct (String.eqb_spec (Category.name cat) s) as [Heq|Hne].
  - exfalso. apply (H cat); [left | by rewrite Heq].
  - apply IH. intros c Hc. apply H. by right.
Qed.

Lemma category_weight_first cats1 cat cats2 :
  (forall c, c ∈ cats1 -> Category.name c <> Category.name cat) ->
  category_weight (cats1 ++ cat :: cats2) (JStr (Category.name cat))
  = Category.priority_weight cat.
Proof.
  induction cats1 as [|c cats1 IH]; intros H; simpl.
  - by rewrite String.eqb_refl.
  - destruct (String.eqb_spec (Category.name c) (Category.name cat)) as [Heq|_].
    + exfalso. by apply (H c); [left|].
    + apply IH. intros c' Hc'. apply H. by right.
Qed.

(** Python's documented roundings of some binary values to one decimal. *)
Example round1_quarter :
  PyFloat.round1 (PyFloat.decimal 25 2) = PyFloat.decimal 2 1
  /\ PyFloat.round1 (PyFloat.decimal 35 2) = PyFloat.decimal 3 1
  /\ PyFloat.round1 (PyFloat.decimal 45 2) = PyFloat.decimal 5 1
  /\ PyFloat.round1 (PyFloat.decimal 2675 3) = PyFloat.decimal 27 1
  /\ PyFloat.round1 (PyFloat.decimal (-4) 2) = S754_zero true.
Proof. vm_compute. done. Qed.

(** C2.  The heat score is the formula of the three numbers, rounded to
    one decimal; the weight is the one of the first category of exactly
    the cluster's category name and 0.5 without one; 10 mentions at
    depth 1.0 and weight 1.0 score 100, nothing scores 0, and from 10
    mentions on the mention component is 60.  The rounding shows at one
    mention, depth 0.125 and weight 0.65, where the sum 6 + 3.75 + 6.5 is
    16.25 and the score 16.2; and every finite score is a whole number of
    tenths, read back as a float. *)
Theorem heat_score_formula :
  (forall categories_config c,
      calculate_heat_score categories_config c
      = heat_formula (TopicCluster.total_mentions c)
          (TopicCluster.avg_depth c)
          (category_weight (categories categories_config)
             (TopicCluster.category c)))
  /\ (forall cats category,
        (forall cat, cat ∈ cats -> JStr (Category.name cat) <> category) ->
        category_weight cats category = half)
  /\ (forall cats1 cat cats2,
        (forall c, c ∈ cats1 -> Category.name c <> Category.name cat) ->
        category_weight (cats1 ++ cat :: cats2) (JStr (Category.name cat))
        = Category.priority_weight cat)
  /\ heat_formula 10 (PyFloat.of_Z 1) (PyFloat.of_Z 1) = PyFloat.of_Z 100
  /\ heat_formula 0 (PyFloat.of_Z 0) (PyFloat.of_Z 0) = PyFloat.of_Z 0
  /\ (forall n, (10 <= n)%nat -> mention_score n = PyFloat.of_Z 60)
  /\ mention_score 20 = mention_score 10
  /\ PyFloat.add
       (PyFloat.add (mention_score 1)
          (PyFloat.mul (PyFloat.decimal 125 3) (PyFloat.of_Z 30)))
       (PyFloat.mul (PyFloat.decimal 65 2) (PyFloat.of_Z 10))
     = PyFloat.decimal 1625 2
  /\ heat_formula 1 (PyFloat.decimal 125 3) (PyFloat.decimal 65 2)
     = PyFloat.decimal 162 1
  /\ calculate_heat_score Scenario.categories_config
       (Scenario.lone "Y" (PyFloat.decimal 2 1))
     = PyFloat.of_Z 17
  /\ (forall n d weight s m e,
        heat_formula n d weight = S754_finite s m e ->
        exists s' t, heat_formula n d weight = PyFloat.ratio s' (Zpos t) 10).
Proof.
  split_and!.
  - done.
  - apply category_weight_default.
  - apply category_weight_first.
  - by vm_compute.
  - by vm_compute.
  - apply mention_score_saturates.
  - by rewrite !mention_score_saturates by lia.
  - by vm_compute.
  - by vm_compute.
  - by vm_compute.
  - intros n d weight s m e. unfold heat_formula, PyFloat.round1.
    destruct (PyFloat.add _ _) as [s0|s0| |s0 m0 e0]; try done.
    destruct (PyFloat.tenths m0 e0) as [|t|t]; try done.
    intros _. by exists s0, t.
Qed.

(** ** Requests and files of the stages *)

Lemma after_requests_refl w : after_requests w [] w.
Proof.
  split_and!; [by rewrite app_nil_r | done | exists []; by rewrite app_nil_r].
Qed.

Lemma after_requests_trans w1 ps w2 qs w3 :
  after_requests w1 ps w2 -> after_requests w2 qs w3 ->
  after_requests w1 (ps ++ qs) w3.
Proof.
  intros (Hr1 & Hw1 & r1 & Hl1) (Hr2 & Hw2 & r2 & Hl2). split_and!.
  - by rewrite Hr2, Hr1, app_assoc.
  - by rewrite Hw2.
  - exists (r1 ++ r2). by rewrite Hl2, Hl1, app_assoc.
Qed.

Lemma after_requests_logged w records : after_requests w [] (logged w records).
Proof.
  split_and!; [by rewrite app_nil_r | done | by exists records].
Qed.

Section Requests.

Variable config : Config.
Variable categories_config : CategoriesConfig.
Variable service : nat -> prompt -> result string.
Variable json_loads : string -> option json.
Variable str_strip : string -> string.
Variable loads_analysis : string -> option RawAnalysis.

Lemma call_zhipu_ai_requests p w :
  after_requests w (sent config p) (call_zhipu_ai config service p w).2.
Proof.
  unfold call_zhipu_ai, sent.
  destruct (zhipu_api_key config) as [[|c k]|]; simpl.
  - apply after_requests_refl.
  - unfold try_except, request, mbind, M_bind, logger, throw.
    destruct (service (length (requests w)) p) as [e|r]; simpl.
    + split_and!; [done | done | by eexists].
    + split_and!; [done | done | exists []; by rewrite app_nil_r].
  - apply after_requests_refl.
Qed.

Lemma cluster_topics_world articles w :
  after_requests w
    (match collect_topics articles with
     | [] => []
     | _ :: _ =>
         sent config (ClusterPrompt (unique_topics (collect_topics articles)))
     end)
    (cluster_topics config service json_loads str_strip articles w).2.
Proof.
  destruct (collect_topics articles) as [|ti tis] eqn:Hall.
  - rewrite cluster_topics_empty by done. apply after_requests_logged.
  - rewrite cluster_topics_run by (by rewrite Hall). rewrite Hall.
    set (all_topics := ti :: tis).
    set (w1 := started all_topics w).
    pose proof (call_zhipu_ai_requests
                  (ClusterPrompt (unique_topics all_topics)) w1) as Hcall.
    assert (after_requests w []  w1) as Hstart
      by apply after_requests_logged.
    pose proof (after_requests_trans _ _ _ _ _ Hstart Hcall) as Hboth.
    simpl in Hboth.
    destruct (grouped_outcome _ _ _ _ _ _) as [e|clusters]; simpl;
      (eapply (after_requests_trans _ _ _ []) in Hboth;
       [rewrite app_nil_r in Hboth; exact Hboth
       | apply after_requests_logged]).
Qed.

Lemma extract_topics_run article w :
  (extract_topics_from_article config categories_config service str_strip
     loads_analysis article w).1
  = inr (annotation_of categories_config str_strip loads_analysis
           (call_zhipu_ai config service
              (extract_prompt categories_config article)
              (logged w [(INFO, Analyzing
                                  (take_string 50 (Article.title article)))])).1)
  /\ after_requests w
       (sent config (extract_prompt categories_config article))
       (extract_topics_from_article config categories_config service str_strip
          loads_analysis article w).2.
Proof.
  unfold extract_topics_from_article, mbind, M_bind, try_except, lift.
  simpl.
  change {| requests := requests w;
            log := log w ++ [(INFO, Analyzing
                                      (take_string 50 (Article.title article)))];
            written := written w |}
    with (logged w [(INFO, Analyzing
                             (take_string 50 (Article.title article)))]).
  set (call := call_zhipu_ai config service
                 (extract_prompt categories_config article)
                 (logged w [(INFO, Analyzing
                                     (take_string 50 (Article.title article)))])).
  pose proof (call_zhipu_ai_requests
                (extract_prompt categories_config article)
                (logged w [(INFO, Analyzing
                                    (take_string 50 (Article.title article)))]))
    as Hcall.
  fold call in Hcall.
  assert (after_requests w
            (sent config (extract_prompt categories_config article)) call.2)
    as Hw.
  { eapply (after_requests_trans _ [] _ _ _); [|exact Hcall].
    apply after_requests_logged. }
  clearbody call.
  destruct call as [[e|response] w2]; simpl in *.
  - split; [done|].
    eapply (after_requests_trans _ _ _ []) in Hw;
      [rewrite app_nil_r in Hw; exact Hw|].
    apply (after_requests_logged w2 [(ERROR, ExtractFailed e)]).
  - destruct (loads_analysis (clean_response str_strip response)) as [r|];
      simpl.
    + split; [done|].
      eapply (after_requests_trans _ _ _ []) in Hw;
        [rewrite app_nil_r in Hw; exact Hw|].
      apply (after_requests_logged w2
               [(INFO, Extracted
                         (length (an_main_topics
                                    (validate categories_config r))))]).
    + split; [done|].
      eapply (after_requests_trans _ _ _ []) in Hw;
        [rewrite app_nil_r in Hw; exact Hw|].
      apply (after_requests_logged w2 [(ERROR, ExtractFailed JSONDecodeError)]).
Qed.

Lemma analyze_loop_total n articles : forall i acc w,
  exists analysed w',
    analyze_loop config categories_config service str_strip loads_analysis
      i n articles acc w = (inr (acc ++ analysed), w')
    /\ Forall2 same_article articles analysed
    /\ Forall (fun a => is_Some (Article.category a)) analysed
    /\ after_requests w
         (articles ≫= fun a => sent config (extract_prompt categories_config a))
         w'.
Proof.
  induction articles as [|a rest IH]; intros i acc w; simpl.
  - exists [], w. rewrite app_nil_r.
    split_and!; [done | constructor | constructor | apply after_requests_refl].
  - unfold mbind at 1, M_bind at 1. simpl.
    unfold mbind at 1, M_bind at 1, try_except at 1.
    unfold mbind at 1, M_bind at 1.
    pose proof (extract_topics_run a (logged w [(INFO, Progress i n)]))
      as (Hres & Hreq).
    change {| requests := requests w;
              log := log w ++ [(INFO, Progress i n)];
              written := written w |}
      with (logged w [(INFO, Progress i n)]).
    destruct (extract_topics_from_article _ _ _ _ _ a _) as [r w2].
    simpl in Hres, Hreq. subst r. simpl.
    set (analysis := annotation_of _ _ _ _).
    destruct (IH (S i) (acc ++ [with_topics a analysis]) w2)
      as (analysed & w' & Hrun & Hsame & Hcat & Hreq').
    exists (with_topics a analysis :: analysed), w'.
    rewrite Hrun, <- app_assoc. split_and!.
    + done.
    + constructor; [by split_and! | done].
    + constructor; [by eexists | done].
    + csimpl. eapply after_requests_trans; [|exact Hreq'].
      eapply (after_requests_trans _ []); [apply after_requests_logged|].
      exact Hreq.
Qed.

Lemma analyze_all_articles_run articles w :
  exists analysed w',
    analyze_all_articles config categories_config service str_strip
      loads_analysis articles w = (inr analysed, w')
    /\ Forall2 same_article articles analysed
    /\ Forall (fun a => is_Some (Article.category a)) analysed
    /\ after_requests w
         (articles ≫= fun a => sent config (extract_prompt categories_config a))
         w'.
Proof.
  unfold analyze_all_articles, mbind, M_bind. simpl.
  destruct (analyze_loop_total (length articles) articles 1 []
              {| requests := requests w;
                 log := log w ++ [(INFO, AnalyzeStart (length articles))];
                 written := written w |})
    as (analysed & w' & Hrun & Hsame & Hcat & Hreq).
  rewrite Hrun. simpl. eexists _, _. split; [done|]. split_and!; [done..|].
  eapply (after_requests_trans _ [] _ _ _) in Hreq;
    [|apply (after_requests_logged w [(INFO, AnalyzeStart (length articles))])].
  eapply (after_requests_trans _ _ _ []) in Hreq;
    [rewrite app_nil_r in Hreq; exact Hreq|].
  apply (after_requests_logged w' [(INFO, AnalyzeDone (length analysed))]).
Qed.

Lemma cluster_topics_exclusive articles w :
  exists clusters,
    (cluster_topics config service json_loads str_strip articles w).1
    = inr clusters
    /\ NoDup (links_of clusters).
Proof.
  eexists. split; [apply cluster_topics_result|].
  destruct (collect_topics articles) as [|ti tis]; [constructor|].
  destruct (grouped_outcome _ _ _ _ _ _) as [e|clusters] eqn:Hg.
  - apply fallback_clusters_exclusive.
  - apply grouped_outcome_emits in Hg as (groups & He).
    by apply emits_links in He as (? & _).
Qed.

End Requests.

Lemma bind_ok {A B} (m : M A) (k : A -> M B) w a w' :
  m w = (inr a, w') -> (m ≫= k) w = k a w'.
Proof. unfold mbind, M_bind. by intros ->. Qed.

Lemma bind_raise {A B} (m : M A) (k : A -> M B) w e w' :
  m w = (inl e, w') -> (m ≫= k) w = (inl e, w').
Proof. unfold mbind, M_bind. by intros ->. Qed.

(** ** A run, stage by stage *)


Section Stages.

Variable config : Config.
Variable categories_config : CategoriesConfig.
Variable service : nat -> prompt -> result string.
Variable json_loads : string -> option json.
Variable str_strip : string -> string.
Variable loads_analysis : string -> option RawAnalysis.
Variable fetch_all_articles : M (list Article.t).
Variable today : string.
Variable generate_report :
  list ScoredTopic.t -> string -> string -> nat -> M unit.

#[local] Abbreviation run :=
  (run_analysis_pipeline config categories_config service json_loads str_strip
     loads_analysis fetch_all_articles today generate_report).

#[local] Abbreviation body :=
  (pipeline_body config categories_config service json_loads str_strip
     loads_analysis fetch_all_articles today generate_report).

Lemma run_body time_slot w :
  run time_slot w
  = match body time_slot
            (logged w [(INFO, Banner); (INFO, TaskStart time_slot);
                       (INFO, Banner)]) with
    | (inl e, w') => (inr tt, logged w' [(ERROR, TaskFailed time_slot e)])
    | (inr u, w') => (inr u, w')
    end.
Proof.
  unfold run_analysis_pipeline, mbind, M_bind, try_except, logger, logged.
  simpl. rewrite <- !app_assoc. simpl.
  by destruct (pipeline_body _ _ _ _ _ _ _ _ _ _ _) as [[e|u] w'].
Qed.

(** The stages up to the clustering, for a fetch that found articles. *)
Lemma body_to_clustering time_slot w a rest w1 analysed w3 :
  fetch_all_articles (logged w [(INFO, Stage 1)]) = (inr (a :: rest), w1) ->
  analyze_all_articles config categories_config service str_strip
    loads_analysis (a :: rest) (at_analysis config time_slot (a :: rest) w1)
  = (inr analysed, w3) ->
  body time_slot w
  = match cluster_topics config service json_loads str_strip analysed
            (at_clustering w3) with
    | (inl e, w5) => (inl e, w5)
    | (inr [], w5) => (inr tt, logged w5 [(WARNING, NoTopicsRun time_slot)])
    | (inr (t :: ts), w5) =>
        let scored_topics :=
          assign_ranks
            (sort_desc (scored_topic categories_config <$> t :: ts)) in
        let top_topics :=
          slice_to (Z.min (topics_per_report config)
                      (Z.of_nat (length scored_topics))) scored_topics in
        let w6 :=
          {| requests := requests w5;
             log := log w5
                    ++ [(INFO, Identified (length (t :: ts)));
                        (INFO, Saved (topics_path today)); (INFO, Stage 4);
                        (INFO, HeatStart (length (t :: ts)))]
                    ++ heat_lines categories_config (t :: ts)
                    ++ [(INFO, HeatDone);
                        (INFO, Saved (heat_path today time_slot));
                        (INFO, Stage 5)];
             written := written w5
                        ++ [TopicsFile today (t :: ts);
                            HeatFile today time_slot scored_topics] |} in
        match generate_report top_topics time_slot today
                (length (a :: rest)) w6 with
        | (inl e, w7) => (inl e, w7)
        | (inr _, w7) =>
            (inr tt,
             logged w7 [(INFO, Banner);
                        (INFO, TaskDone time_slot (length top_topics));
                        (INFO, Banner)])
        end
    end.
Proof.
  intros Hfetch Hrun. unfold pipeline_body.
  erewrite bind_ok by reflexivity.
  erewrite bind_ok by exact Hfetch. cbv beta iota.
  erewrite bind_ok by reflexivity.
  match goal with
  | |- context [mbind _ (if ?b then _ else _) ?w0] =>
      assert ((if b then logger WARNING (BelowThreshold time_slot)
               else mret tt) w0
              = (inr tt,
                 logged w0 (if b then [(WARNING, BelowThreshold time_slot)]
                            else []))) as Hth
        by (destruct b; [reflexivity | by rewrite logged_nil])
  end.
  erewrite bind_ok by exact Hth.
  erewrite bind_ok by reflexivity.
  match goal with
  | |- context [mbind _ (analyze_all_articles _ _ _ _ _ _) ?w0] =>
      assert (w0 = at_analysis config time_slot (a :: rest) w1) as ->
  end.
  { unfold at_analysis, logged. simpl. f_equal.
    rewrite <- !app_assoc. done. }
  erewrite bind_ok by exact Hrun.
  erewrite bind_ok by reflexivity.
  change {| requests := requests w3;
            log := log w3 ++ [(INFO, Stage 3)];
            written := written w3 |} with (at_clustering w3).
  destruct (cluster_topics config service json_loads str_strip analysed
              (at_clustering w3)) as [[e|[|t ts]] w5] eqn:Hcl.
  - by erewrite bind_raise by exact Hcl.
  - by erewrite bind_ok by exact Hcl.
  - erewrite bind_ok by exact Hcl. cbv beta iota.
    erewrite bind_ok by reflexivity.
    erewrite bind_ok by reflexivity.
    erewrite bind_ok by reflexivity.
    erewrite bind_ok by apply calculate_all_heat_scores_run.
    erewrite bind_ok by apply save_heat_scores_run.
    erewrite bind_ok by reflexivity.
    cbv zeta.
    match goal with
    | |- context [mbind _ (generate_report ?tops ?slot ?date ?n) ?w0] =>
        match goal with
        | |- context [match generate_report _ _ _ _ ?w6 with _ => _ end] =>
            assert (w0 = w6) as ->
        end
    end.
    { unfold logged. simpl.
      f_equal; repeat (rewrite <- !app_assoc; simpl); done. }
    match goal with
    | |- context [mbind _ (generate_report ?tops ?slot ?date ?n) ?w0] =>
        destruct (generate_report tops slot date n w0) as [[e|[]] w7] eqn:Hg
    end.
    + by erewrite bind_raise by exact Hg.
    + erewrite bind_ok by exact Hg.
      unfold mbind, M_bind, logger, logged. simpl.
      by rewrite <- !app_assoc.
Qed.

(** The files of a run whose clustering returned clusters. *)
Lemma run_files_from_clusters time_slot w a rest w1 analysed w3 topics w5 :
  keeps_files generate_report ->
  fetch_all_articles (at_fetch time_slot w) = (inr (a :: rest), w1) ->
  analyze_all_articles config categories_config service str_strip
    loads_analysis (a :: rest) (at_analysis config time_slot (a :: rest) w1)
  = (inr analysed, w3) ->
  cluster_topics config service json_loads str_strip analysed
    (at_clustering w3) = (inr topics, w5) ->
  topics <> [] ->
  exists files,
    written (run time_slot w).2
    = written w1
      ++ [TopicsFile today topics;
          HeatFile today time_slot
            (assign_ranks
               (sort_desc (scored_topic categories_config <$> topics)))]
      ++ files.
Proof.
  intros Hkeep Hfetch Hrun Hcl Hne.
  rewrite run_body.
  rewrite (body_to_clustering time_slot _ a rest w1 analysed w3);
    [|by rewrite logged_logged|done].
  rewrite Hcl.
  destruct topics as [|t ts]; [done|]. cbv zeta.
  destruct (analyze_all_articles_run config categories_config service
              str_strip loads_analysis (a :: rest)
              (at_analysis config time_slot (a :: rest) w1))
    as (analysed' & w3' & Hrun' & _ & _ & (_ & Hw3 & _)).
  rewrite Hrun in Hrun'. injection Hrun' as <- <-.
  pose proof (cluster_topics_world config service json_loads str_strip
                analysed (at_clustering w3)) as (_ & Hw5 & _).
  rewrite Hcl in Hw5. simpl in Hw3, Hw5.
  match goal with
  | |- context [generate_report ?tops ?slot ?date ?n ?w0] =>
      destruct (Hkeep tops slot date n w0) as (files & Hfiles);
      destruct (generate_report tops slot date n w0) as [[e|[]] w7]
  end; simpl in Hfiles |- *; exists files;
    rewrite Hfiles, Hw5, Hw3, <- !app_assoc; done.
Qed.

End Stages.

Section Recovery.

Variable config : Config.
Variable service : nat -> prompt -> result string.
Variable json_loads : string -> option json.
Variable str_strip : string -> string.

#[local] Abbreviation clustering :=
  (cluster_topics config service json_loads str_strip).



End Recovery.

(** On depths that are floats the expression as decoded is [mean]. *)
Lemma py_sum_floats depths : forall x,
  py_sum (JFloat <$> depths) (Float x) = inr (Float (fold_left PyFloat.add depths x)).
Proof. induction depths as [|d ds IH]; intros x; simpl; [done | apply IH]. Qed.

Lemma avg_depth_decoded_floats depths :
  avg_depth_decoded (JFloat <$> depths) = inr (mean depths).
Proof.
  destruct depths as [|d ds]; [done|].
  unfold avg_depth_decoded, mean, PyFloat.sum. csimpl.
  rewrite py_sum_floats. simpl. by rewrite length_fmap.
Qed.


(** ** The properties at the scenario *)


Lemma no_instances_no_request_witness :
  (forall a t,
      a ∈ [Scenario.article_A] -> t ∈ Article.main_topics a -> t = EmptyString)
  /\ requests
       (cluster_topics Scenario.config Scenario.service Scenario.json_loads id
          [Scenario.article_A] fresh).2
     = requests fresh.
Proof.
  assert (forall a t,
             a ∈ [Scenario.article_A] -> t ∈ Article.main_topics a ->
             t = EmptyString) as H.
  { intros a t ->%list_elem_of_singleton Ht. by apply elem_of_nil in Ht. }
  split; [exact H|].
  apply (no_instances_no_request Scenario.config Scenario.service
           Scenario.json_loads id [Scenario.article_A] fresh H).
Defined.

Lemma fallback_first_encountered_witness :
  (call_zhipu_ai Scenario.config Scenario.unavailable
     (ClusterPrompt (unique_topics (collect_topics [Scenario.two_topics])))
     (started (collect_topics [Scenario.two_topics]) fresh)).1
  = inl (ServiceError 503)
  /\ exists clusters,
      (cluster_topics Scenario.config Scenario.unavailable Scenario.json_loads
         id [Scenario.two_topics] fresh).1 = inr clusters
      /\ NoDup (TopicCluster.canonical_name <$> clusters).
Proof.
  split; [by vm_compute|].
  destruct (fallback_first_encountered Scenario.config Scenario.unavailable
              Scenario.json_loads id [Scenario.two_topics] fresh
              (ServiceError 503)) as (clusters & Hrun & Hnames & _);
    [by vm_compute|].
  by exists clusters.
Defined.

Lemma sorted_and_ranked_witness :
  Forall (fun c => PyFloat.is_nan
                     (calculate_heat_score Scenario.categories_config c)
                   = false) Scenario.grouped
  /\ exists sorted,
      (calculate_all_heat_scores Scenario.categories_config Scenario.grouped
         fresh).1 = inr sorted
      /\ sorted ≡ₚ scored_topic Scenario.categories_config <$> Scenario.grouped.
Proof.
  assert (Forall (fun c => PyFloat.is_nan
                             (calculate_heat_score Scenario.categories_config c)
                           = false) Scenario.grouped) as H
    by (refine (bool_decide_unpack _ _); vm_compute; exact I).
  split; [exact H|].
  destruct (sorted_and_ranked Scenario.categories_config Scenario.grouped
              fresh H) as (sorted & Hrun & Hperm & _).
  exact (ex_intro _ sorted (conj Hrun Hperm)).
Defined.

Lemma missing_key_degrades_witness :
  key_unset Scenario.config_without_key
  /\ forall p w,
      call_zhipu_ai Scenario.config_without_key Scenario.service p w
      = (inl key_missing, w).
Proof.
  split; [exact I|].
  apply (missing_key_degrades Scenario.config_without_key
           Scenario.categories_config Scenario.service Scenario.json_loads id
           Scenario.loads_analysis Scenario.fetch_all_articles
           "2026-02-05" Scenario.generate_report "早间" fresh I).
Defined.


(* ===================================================================== *)
(** * Further properties of the code *)
(* ===================================================================== *)

(** ** What the two assignments cover *)

Lemma assign_group_complete merged all_topics : forall st st' ti,
  assign_group merged all_topics st = inr st' ->
  ti ∈ all_topics -> listed merged ti ->
  link_of ti ∈ assigned_articles st'.
Proof.
  unfold listed.
  induction all_topics as [|x rest IH]; intros st st' ti H Hin Hl; simpl in H.
  - by apply elem_of_nil in Hin.
  - assert (forall s, assign_group merged rest s = inr st' ->
              forall l, l ∈ assigned_articles s -> l ∈ assigned_articles st')
      as Hmono.
    { intros s Hs l Hl'. apply assign_group_spec in Hs as (tk & _ & _ & Hset & _).
      apply Hset. by right. }
    apply elem_of_cons in Hin as [->|Hin].
    + case_bool_decide as Hx; [by eapply Hmono|].
      rewrite Hl in H. simpl in H. eapply Hmono; [exact H|].
      simpl. apply elem_of_union_l, elem_of_singleton. done.
    + case_bool_decide as Hx; [by eapply IH|].
      destruct (py_contains (TopicInstance.topic x) merged) as [e|[|]];
        simpl in H; [done | by eapply IH | by eapply IH].
Qed.

(** One scan takes exactly the articles not assigned before that have an
    instance with a listed label, each once. *)
Lemma assign_group_takes merged all_topics assigned st :
  assign_group merged all_topics (scan_start assigned) = inr st ->
  NoDup (Snapshot.link <$> cluster_articles st)
  /\ (forall l,
        l ∈ Snapshot.link <$> cluster_articles st
        <-> (l ∉ assigned)
            /\ exists ti, ti ∈ all_topics /\ link_of ti = l /\ listed merged ti)
  /\ (forall l,
        l ∈ assigned_articles st
        <-> l ∈ assigned \/ l ∈ Snapshot.link <$> cluster_articles st).
Proof.
  intros H.
  pose proof (assign_group_spec _ _ _ _ H)
    as (taken & Hart & _ & Hset & Hnd & Hfresh & Hsub & Hlisted).
  simpl in Hart, Hset, Hfresh.
  assert (Snapshot.link <$> cluster_articles st = link_of <$> taken) as ->
    by (rewrite Hart; by rewrite <- list_fmap_compose).
  split_and!; [done | |].
  - intros l. split.
    + intros Hl. split; [by apply Hfresh|].
      apply list_elem_of_fmap in Hl as (ti & -> & Hti). exists ti.
      split_and!; [by apply Hsub | done |].
      rewrite Forall_forall in Hlisted. by apply Hlisted.
    + intros (Hnot & ti & Hti & <- & Hl).
      pose proof (assign_group_complete _ _ _ _ _ H Hti Hl) as Hin.
      apply Hset in Hin as [?|?]; done.
  - intros l. rewrite Hset. tauto.
Qed.

Lemma emits_covers all_topics assigned groups clusters :
  emits all_topics assigned groups clusters ->
  forall l, l ∉ assigned ->
    (l ∈ links_of clusters <-> covered all_topics groups l).
Proof.
  induction 1 as [assigned
                 |assigned group groups name merged st clusters Hn Hm Hs Ha He IH
                 |assigned group groups name merged st clusters Hn Hm Hs Ha He IH];
    intros l Hl.
  - split; [by intros ?%elem_of_nil|].
    by intros (ti & g & m & _ & ?%elem_of_nil & _).
  - destruct (assign_group_takes _ _ _ _ Hs) as (_ & Htake & Hset).
    rewrite Ha in Htake, Hset.
    assert (l ∉ assigned_articles st) as Hl'.
    { rewrite Hset. intros [?|?%elem_of_nil]; done. }
    rewrite (IH l Hl'). split.
    + intros (ti & g & m & ? & ? & ?). exists ti, g, m.
      split_and!; [done | by right | tauto..].
    + intros (ti & g & m & Hti & [->|Hg]%elem_of_cons & Hlk & Hget & Hlist).
      * exfalso. rewrite Hm in Hget. injection Hget as <-.
        assert (l ∈ Snapshot.link <$> []) as Habs
          by (apply Htake; split; [done | by exists ti]).
        by apply elem_of_nil in Habs.
      * by exists ti, g, m.
  - destruct (assign_group_takes _ _ _ _ Hs) as (_ & Htake & Hset).
    assert (links_of (cluster_of name group st :: clusters)
            = (Snapshot.link <$> cluster_articles st) ++ links_of clusters)
      as -> by done.
    rewrite elem_of_app. split.
    + intros [Hin|Hin].
      * apply Htake in Hin as (_ & ti & Hti & Hlk & Hlist).
        exists ti, group, merged. split_and!; [done | left | done..].
      * apply emits_links in He as Hlinks. destruct Hlinks as (_ & Hnot & _).
        apply IH in Hin; [|by apply Hnot].
        destruct Hin as (ti & g & m & ? & ? & ?). exists ti, g, m.
        split_and!; [done | by right | tauto..].
    + intros (ti & g & m & Hti & [->|Hg]%elem_of_cons & Hlk & Hget & Hlist).
      * left. rewrite Hm in Hget. injection Hget as <-.
        apply Htake. split; [done | by exists ti].
      * destruct (decide (l ∈ Snapshot.link <$> cluster_articles st))
          as [?|Hout]; [by left|].
        right. apply IH; [|by exists ti, g, m].
        rewrite Hset. tauto.
Qed.

(** X1.  The grouped assignment clusters exactly the articles with a
    label that some proposed group lists: an article whose labels the
    reply left out is in no cluster. *)
Theorem grouped_clusters_cover all_topics clusters_raw groups clusters :
  py_iter clusters_raw = inr groups ->
  grouped_clusters all_topics clusters_raw = inr clusters ->
  forall l, l ∈ links_of clusters <-> covered all_topics groups l.
Proof.
  intros Hi (groups' & Hi' & He)%grouped_clusters_emits l.
  rewrite Hi in Hi'. injection Hi' as <-.
  by apply (emits_covers _ _ _ _ He).
Qed.


(** ** The slice and the top of the ranking *)

Lemma slice_to_take {A} (n : Z) (xs : list A) :
  exists k, slice_to n xs = take k xs
            /\ (0 <= n -> k = Z.to_nat n)
            /\ (n < 0 -> k = (length xs - Z.to_nat (- n))%nat).
Proof.
  unfold slice_to. destruct (Z.leb_spec 0 n).
  - exists (Z.to_nat n). split_and!; [done | done | lia].
  - exists (length xs - Z.to_nat (- n))%nat. split_and!; [done | lia | done].
Qed.

(** X3.  [get_top_topics] returns a prefix of the list it is given: the
    first [top_n] topics, or all of them, for [top_n >= 0]; all but the
    last [-top_n] for a negative [top_n]. *)
Theorem get_top_topics_prefix scored_topics top_n :
  get_top_topics scored_topics top_n `prefix_of` scored_topics
  /\ (0 <= top_n ->
      Z.of_nat (length (get_top_topics scored_topics top_n))
      = Z.min top_n (Z.of_nat (length scored_topics)))
  /\ (top_n < 0 ->
      Z.of_nat (length (get_top_topics scored_topics top_n))
      = Z.max 0 (Z.of_nat (length scored_topics) + top_n)).
Proof.
  unfold get_top_topics.
  destruct (slice_to_take top_n scored_topics) as (k & -> & Hpos & Hneg).
  split_and!.
  - apply prefix_take.
  - intros Hn. rewrite length_take, (Hpos Hn). lia.
  - intros Hn. rewrite length_take, (Hneg Hn). lia.
Qed.

Section Top.

Variable categories_config : CategoriesConfig.

(** X4.  The topics [get_top_topics] keeps of the ranking of
    [calculate_all_heat_scores] are the hottest: a topic it keeps never
    scores below a topic it leaves out; for [top_n >= 0] it keeps
    [min(top_n, n)] of the [n] clusters. *)
Theorem top_topics_are_hottest clusters w top_n :
  Forall (fun c => PyFloat.is_nan (calculate_heat_score categories_config c)
                   = false) clusters ->
  exists ranking,
    (calculate_all_heat_scores categories_config clusters w).1 = inr ranking
    /\ (0 <= top_n ->
        Z.of_nat (length (get_top_topics ranking top_n))
        = Z.min top_n (Z.of_nat (length clusters)))
    /\ (forall kept t,
          kept ∈ get_top_topics ranking top_n ->
          t ∈ drop (length (get_top_topics ranking top_n)) ranking ->
          PyFloat.leb (ScoredTopic.heat_score t)
            (ScoredTopic.heat_score kept) = true).
Proof.
  intros Hnan.
  exists (sort_desc (scored_topic categories_config <$> clusters)).
  split; [by rewrite calculate_all_heat_scores_run|].
  set (ranking := sort_desc _).
  assert (StronglySorted outranks ranking) as Hsorted.
  { apply sort_desc_sorted, Forall_fmap.
    eapply Forall_impl; [exact Hnan | done]. }
  unfold get_top_topics.
  destruct (slice_to_take top_n ranking) as (k & -> & Hpos & _).
  split.
  - intros Hn. rewrite length_take, (Hpos Hn).
    assert (length ranking = length clusters) as ->; [|lia].
    subst ranking.
    by rewrite (Permutation_length (sort_desc_perm _)), length_fmap.
  - intros kept t Hkept Ht.
    rewrite <- (take_drop k ranking) in Hsorted.
    rewrite <- (take_drop k ranking) in Ht at 2.
    rewrite drop_app_length in Ht.
    by apply (StronglySorted_app_1_elem_of outranks _ _ kept t) in Hsorted.
Qed.

End Top.

(** ** Requests and totality of the analysis *)

Section Requests.

Variable config : Config.
Variable categories_config : CategoriesConfig.
Variable service : nat -> prompt -> result string.
Variable json_loads : string -> option json.
Variable str_strip : string -> string.
Variable loads_analysis : string -> option RawAnalysis.

(** X5.  [cluster_topics] sends the clustering prompt once when there
    are instances and the API key is set, and nothing otherwise; it writes
    no file and only adds to the log. *)
Theorem cluster_topics_requests articles w :
  requests (cluster_topics config service json_loads str_strip articles w).2
  = requests w
    ++ match collect_topics articles with
       | [] => []
       | _ :: _ =>
           sent config (ClusterPrompt (unique_topics (collect_topics articles)))
       end
  /\ written (cluster_topics config service json_loads str_strip articles w).2
     = written w
  /\ exists records,
      log (cluster_topics config service json_loads str_strip articles w).2
      = log w ++ records.
Proof.
  exact (cluster_topics_world config service json_loads str_strip articles w).
Qed.


(** X7.  [analyze_all_articles] never raises and drops no article: it
    returns one analysed article per article, in order, with title, link,
    source, summary, content and date unchanged and a category set, after
    one extraction prompt per article (none without API key) and without
    writing a file. *)
Theorem analyze_all_articles_total articles w :
  exists analysed w',
    analyze_all_articles config categories_config service str_strip
      loads_analysis articles w = (inr analysed, w')
    /\ Forall2 same_article articles analysed
    /\ Forall (fun a => is_Some (Article.category a)) analysed
    /\ requests w'
       = requests w
         ++ (articles ≫=
               fun a => sent config (extract_prompt categories_config a))
    /\ written w' = written w.
Proof.
  destruct (analyze_all_articles_run config categories_config service
              str_strip loads_analysis articles w)
    as (analysed & w' & Hrun & Hsame & Hcat & Hreq & Hfiles & _).
  by exists analysed, w'.
Qed.

End Requests.

(** ** One run of the pipeline *)

Section Run.

Variable config : Config.
Variable categories_config : CategoriesConfig.
Variable service : nat -> prompt -> result string.
Variable json_loads : string -> option json.
Variable str_strip : string -> string.
Variable loads_analysis : string -> option RawAnalysis.
Variable fetch_all_articles : M (list Article.t).
Variable today : string.
Variable generate_report :
  list ScoredTopic.t -> string -> string -> nat -> M unit.

#[local] Abbreviation run :=
  (run_analysis_pipeline config categories_config service json_loads str_strip
     loads_analysis fetch_all_articles today generate_report).

Lemma run_fetch_raises time_slot w e w1 :
  fetch_all_articles (at_fetch time_slot w) = (inl e, w1) ->
  run time_slot w = (inr tt, logged w1 [(ERROR, TaskFailed time_slot e)]).
Proof.
  intros Hfetch. rewrite run_body. unfold pipeline_body.
  erewrite bind_ok by reflexivity.
  change {| requests := requests ?w0;
            log := log ?w0 ++ [(INFO, Stage 1)];
            written := written ?w0 |} with (logged w0 [(INFO, Stage 1)]).
  unfold at_fetch in Hfetch. rewrite logged_logged.
  by erewrite bind_raise by exact Hfetch.
Qed.

Lemma run_fetch_empty time_slot w w1 :
  fetch_all_articles (at_fetch time_slot w) = (inr [], w1) ->
  run time_slot w = (inr tt, logged w1 [(WARNING, NoArticles time_slot)]).
Proof.
  intros Hfetch. rewrite run_body. unfold pipeline_body.
  erewrite bind_ok by reflexivity.
  change {| requests := requests ?w0;
            log := log ?w0 ++ [(INFO, Stage 1)];
            written := written ?w0 |} with (logged w0 [(INFO, Stage 1)]).
  unfold at_fetch in Hfetch. rewrite logged_logged.
  by erewrite bind_ok by exact Hfetch.
Qed.

(** X8.  A run never raises.  When the fetch stage raises, the run logs
    the failure and returns; when it returns no article, the run stops on
    a warning; in both cases the run only adds that record to the log the
    fetch stage left: it sends no request and writes no file of its own. *)
Theorem run_never_raises time_slot w :
  (run time_slot w).1 = inr tt
  /\ (forall e w1,
        fetch_all_articles (at_fetch time_slot w) = (inl e, w1) ->
        run time_slot w
        = (inr tt, logged w1 [(ERROR, TaskFailed time_slot e)]))
  /\ (forall w1,
        fetch_all_articles (at_fetch time_slot w) = (inr [], w1) ->
        run time_slot w
        = (inr tt, logged w1 [(WARNING, NoArticles time_slot)])).
Proof.
  split_and!.
  - rewrite run_body.
    by destruct (pipeline_body _ _ _ _ _ _ _ _ _ _ _) as [[e|[]] w'].
  - apply run_fetch_raises.
  - apply run_fetch_empty.
Qed.

(** X9.  With a renderer that keeps the files in place, a run adds to
    the files the fetch stage left either nothing or, in this order, the
    clusters, which are not empty and share no article, then the clusters
    scored, in the order of [calculate_all_heat_scores] and with the
    ranks 1, 2, ..., then the files of the renderer; the order is a
    permutation of the clusters, and the stable descending sort when no
    score is NaN; a failing renderer does not undo the first two. *)
Theorem run_files time_slot w :
  keeps_files generate_report ->
  written (run time_slot w).2
  = written (fetch_all_articles (at_fetch time_slot w)).2
  \/ exists topics sorted files,
       topics <> []
       /\ NoDup (links_of topics)
       /\ sorted ≡ₚ scored_topic categories_config <$> topics
       /\ (Forall scored (scored_topic categories_config <$> topics) ->
           sorted = sort_desc (scored_topic categories_config <$> topics))
       /\ ScoredTopic.rank <$> assign_ranks sorted
          = Some <$> seq 1 (length topics)
       /\ written (run time_slot w).2
          = written (fetch_all_articles (at_fetch time_slot w)).2
            ++ [TopicsFile today topics;
                HeatFile today time_slot (assign_ranks sorted)]
            ++ files.
Proof.
  intros Hkeep.
  destruct (fetch_all_articles (at_fetch time_slot w))
    as [[e|[|a rest]] w1] eqn:Hfetch.
  { left. by rewrite (run_fetch_raises _ _ _ _ Hfetch). }
  { left. by rewrite (run_fetch_empty _ _ _ Hfetch). }
  destruct (analyze_all_articles_run config categories_config service
              str_strip loads_analysis (a :: rest)
              (at_analysis config time_slot (a :: rest) w1))
    as (analysed & w3 & Hrun & _ & _ & (_ & Hw3 & _)).
  pose proof (cluster_topics_world config service json_loads str_strip
                analysed (at_clustering w3)) as (_ & Hw5 & _).
  destruct (cluster_topics_exclusive config service json_loads str_strip
              analysed (at_clustering w3)) as (topics & Htopics & Hnd).
  destruct (cluster_topics config service json_loads str_strip analysed
              (at_clustering w3)) as [r w5] eqn:Hcl.
  simpl in Htopics, Hw3, Hw5. subst r.
  destruct (decide (topics = [])) as [->|Hne].
  - left. rewrite run_body.
    rewrite (body_to_clustering config categories_config service json_loads
               str_strip loads_analysis fetch_all_articles today
               generate_report time_slot _ a rest w1 analysed w3);
      [|by rewrite logged_logged|done].
    rewrite Hcl. simpl. congruence.
  - right.
    destruct (run_files_from_clusters config categories_config service
                json_loads str_strip loads_analysis fetch_all_articles today
                generate_report time_slot w a rest w1 analysed w3 topics w5
                Hkeep Hfetch Hrun Hcl Hne) as (files & Hfiles).
    exists topics, (sort_desc (scored_topic categories_config <$> topics)),
      files.
    split_and!; [done | done | apply sort_desc_perm | done | | done].
    destruct (assign_ranks_spec
                (sort_desc (scored_topic categories_config <$> topics)))
      as (-> & _).
    by rewrite (Permutation_length (sort_desc_perm _)), length_fmap.
Qed.

End Run.

(** ** When the grouped assignment succeeds *)

Lemma assign_group_total merged all_topics : forall st,
  (forall t, exists b, py_contains t merged = inr b) ->
  exists st', assign_group merged all_topics st = inr st'.
Proof.
  induction all_topics as [|ti rest IH]; intros st Hc; simpl.
  - by eexists.
  - case_bool_decide; [by apply IH|].
    destruct (Hc (TopicInstance.topic ti)) as [b ->]. simpl.
    destruct b; by apply IH.
Qed.

Lemma well_formed_group_reads cluster :
  well_formed_group cluster = true ->
  exists name merged,
    py_getitem cluster "canonical_name" = inr name
    /\ py_getitem cluster "merged_topics" = inr merged
    /\ forall t, exists b, py_contains t merged = inr b.
Proof.
  unfold well_formed_group.
  destruct (py_getitem cluster "canonical_name") as [e|name]; [done|].
  destruct (py_getitem cluster "merged_topics") as [e|merged]; [done|].
  intros H. exists name, merged. split_and!; [done..|].
  intros t. destruct merged; try done; by eexists.
Qed.

Lemma build_clusters_total all_topics groups : forall clusters assigned,
  Forall (fun g => well_formed_group g = true) groups ->
  exists result, build_clusters all_topics groups clusters assigned = inr result.
Proof.
  induction groups as [|g rest IH]; intros clusters assigned Hwf; simpl.
  - by eexists.
  - apply Forall_cons in Hwf as [Hg Hrest].
    apply well_formed_group_reads in Hg as (name & merged & -> & -> & Hc).
    simpl.
    destruct (assign_group_total merged all_topics (scan_start assigned) Hc)
      as [st ->]. simpl. by apply IH.
Qed.

Lemma build_clusters_malformed all_topics pre g post e :
  Forall (fun g => well_formed_group g = true) pre ->
  group_error g = Some e ->
  forall clusters assigned,
    build_clusters all_topics (pre ++ g :: post) clusters assigned = inl e.
Proof.
  intros Hwf Hg. induction pre as [|p pre IH]; intros clusters assigned; simpl.
  - unfold group_error in Hg.
    destruct (py_getitem g "canonical_name") as [e1|name]; simpl;
      [congruence|].
    destruct (py_getitem g "merged_topics") as [e2|merged]; simpl;
      [congruence | done].
  - apply Forall_cons in Hwf as [Hp Hpre].
    apply well_formed_group_reads in Hp as (name & merged & -> & -> & Hc).
    simpl.
    destruct (assign_group_total merged all_topics (scan_start assigned) Hc)
      as [st ->]. simpl. by apply IH.
Qed.

(** X10.  The grouped assignment succeeds on every reply whose groups all
    have [canonical_name] and [merged_topics], the latter a list, a dict
    or a string. *)
Theorem grouped_clusters_total all_topics clusters_raw groups :
  py_iter clusters_raw = inr groups ->
  Forall (fun g => well_formed_group g = true) groups ->
  exists clusters, grouped_clusters all_topics clusters_raw = inr clusters.
Proof.
  intros Hi Hwf. unfold grouped_clusters. rewrite Hi. simpl.
  by apply build_clusters_total.
Qed.

(** X11.  One group that is not an object or lacks [canonical_name] or
    [merged_topics] makes the whole grouped assignment raise, whatever the
    groups before it gave and whatever follows: no cluster of the reply is
    kept. *)
Theorem malformed_group_voids all_topics clusters_raw pre g post e :
  py_iter clusters_raw = inr (pre ++ g :: post) ->
  Forall (fun g => well_formed_group g = true) pre ->
  group_error g = Some e ->
  grouped_clusters all_topics clusters_raw = inl e.
Proof.
  intros Hi Hwf Hg. unfold grouped_clusters. rewrite Hi. simpl.
  by apply build_clusters_malformed.
Qed.

(** ** The report: recommendation and translations *)

Lemma py_len_append (s1 s2 : string) :
  py_len (s1 +:+ s2) = (py_len s1 + py_len s2)%nat.
Proof.
  induction s1 as [|c s1 IH]; simpl; [done|].
  destruct (continuation c); simpl; by rewrite IH.
Qed.

Lemma py_len_take_string s : forall n,
  py_len (take_string n s) = Nat.min n (py_len s).
Proof.
  induction s as [|c s IH]; intros n; simpl.
  - by rewrite Nat.min_0_r.
  - destruct (continuation c) eqn:Hc; simpl.
    + rewrite Hc. apply IH.
    + destruct n as [|k]; simpl; [done|]. rewrite Hc. by rewrite IH.
Qed.

(** X12.  With a [strip] that does not lengthen a text, the
    recommendation made of a reply of the service has at most 300
    characters; a reply of at most 300 characters is only stripped, and a
    longer one is cut to its first 297 characters and an ellipsis, 300
    characters, before it is stripped.  Characters are counted, not
    bytes. *)
Theorem recommendation_at_most_300 (str_strip : string -> string) fallback
    recommendation :
  (forall s, (py_len (str_strip s) <= py_len s)%nat) ->
  (py_len (generate_recommendation str_strip fallback (inr recommendation))
   <= 300)%nat
  /\ ((py_len recommendation <= 300)%nat ->
      generate_recommendation str_strip fallback (inr recommendation)
      = str_strip recommendation)
  /\ ((300 < py_len recommendation)%nat ->
      generate_recommendation str_strip fallback (inr recommendation)
      = str_strip (take_string 297 recommendation +:+ "...")
      /\ py_len (take_string 297 recommendation) = 297%nat
      /\ py_len (take_string 297 recommendation +:+ "...") = 300%nat).
Proof.
  intros Hstrip. unfold generate_recommendation.
  assert (py_len "..." = 3%nat) as Hdots by done.
  destruct (Nat.ltb_spec 300 (py_len recommendation)) as [Hlong|Hshort].
  - assert (py_len (take_string 297 recommendation) = 297%nat) as Htake
      by (rewrite py_len_take_string; lia).
    assert (py_len (take_string 297 recommendation +:+ "...") = 300%nat)
      as Hcut by (rewrite py_len_append, Htake, Hdots; done).
    split_and!; [|intros ?; exfalso; lia|done].
    etransitivity; [apply Hstrip|]. by rewrite Hcut.
  - split_and!; [|done|intros ?; exfalso; lia].
    etransitivity; [apply Hstrip | done].
Qed.






(** A reply of 101 characters in 303 bytes is returned as it is, and
    one of 301 characters is cut to 300. *)
Example recommendation_counts_characters :
  py_len (py_times "字" 101) = 101%nat
  /\ String.length (py_times "字" 101) = 303%nat
  /\ generate_recommendation id "none" (inr (py_times "字" 101))
     = py_times "字" 101
  /\ py_len (generate_recommendation id "none" (inr (py_times "字" 301)))
     = 300%nat.
Proof. vm_compute. done. Qed.

(** Of the three articles of the scenario, a reply with one object
    leaves the first, translated, and drops the two others; a reply whose
    one entry is a text leaves the three as they are. *)
Example translations_of_short_replies :
  let articles := snapshot_of <$> collect_topics Scenario.analysed in
  let short :=
    translate_articles_batch
      (fun _ => Some (JArr [JObj [("id", JInt 0); ("title", JStr "甲")]]))
      id (inr "reply") articles in
  Snapshot.title <$> articles = ["A"; "B"; "C"]
  /\ (fun t => (Snapshot.title (Translated.article t), Translated.title_cn t,
                Translated.summary_cn t)) <$> short
     = [("A", JStr "甲", JStr "")]
  /\ translate_articles_batch (fun _ => Some (JArr [JStr "oops"]))
       id (inr "reply") articles
     = untranslated <$> articles.
Proof. vm_compute. done. Qed.

(** ** The heat score is in [[0, 100]] *)

(** *** Rounding does not exceed a float above the exact value *)

Lemma divide_split a b m :
  0 < a -> (a * b | m) -> (a | m) /\ (b | m / a).
Proof.
  intros Ha [k ->]. split.
  - exists (k * b). lia.
  - exists k. replace (k * (a * b)) with (k * b * a) by lia.
    by rewrite Z.div_mul by lia.
Qed.

Lemma shr_1_exact r :
  shr_r r = false -> shr_s r = false -> 0 <= shr_m r -> (2 | shr_m r) ->
  shr_r (shr_1 r) = false /\ shr_s (shr_1 r) = false.
Proof.
  destruct r as [m [] []]; simpl; try done. intros _ _ Hm [k Hk].
  destruct m as [|[p|p|]|p]; simpl; try done; lia.
Qed.

Lemma iter_shr_1_exact p : forall r,
  shr_r r = false -> shr_s r = false -> 0 <= shr_m r ->
  (2 ^ Zpos p | shr_m r) ->
  shr_r (SpecFloat.iter_pos shr_1 p r) = false
  /\ shr_s (SpecFloat.iter_pos shr_1 p r) = false.
Proof.
  assert (forall q, 0 < 2 ^ Zpos q) as Hpp
    by (intros; apply Z.pow_pos_nonneg; lia).
  assert (forall a b, 0 <= a -> 0 < b -> 0 <= a / b) as Hnn
    by (intros; apply Z.div_pos; lia).
  induction p as [p IH|p IH|]; intros r Hr Hs Hm Hd; simpl.
  - rewrite pow2_xI in Hd.
    apply divide_split in Hd as [H2 Hd]; [|lia].
    destruct (shr_1_exact r Hr Hs Hm H2) as [Hr1 Hs1].
    assert (0 <= shr_m (shr_1 r)) as Hm1
      by (rewrite shr_1_m by done; apply Hnn; lia).
    rewrite <- shr_1_m in Hd by done.
    apply divide_split in Hd as [Hd1 Hd2]; [|apply Hpp].
    destruct (IH _ Hr1 Hs1 Hm1 Hd1) as [Hr2 Hs2].
    apply IH; [done | done | |].
    + rewrite iter_shr_1_m by done. apply Hnn; [done | apply Hpp].
    + by rewrite iter_shr_1_m.
  - rewrite pow2_xO in Hd.
    apply divide_split in Hd as [Hd1 Hd2]; [|apply Hpp].
    destruct (IH _ Hr Hs Hm Hd1) as [Hr2 Hs2].
    apply IH; [done | done | |].
    + rewrite iter_shr_1_m by done. apply Hnn; [done | apply Hpp].
    + by rewrite iter_shr_1_m.
  - apply shr_1_exact; done.
Qed.

Lemma shr_exact m e n :
  0 <= m -> 0 <= n -> (2 ^ n | m) ->
  loc_of_shr_record (shr (shr_record_of_loc m loc_Exact) e n).1 = loc_Exact.
Proof.
  intros Hm Hn Hd. destruct n as [|p|p]; simpl; [done | | lia].
  destruct (iter_shr_1_exact p {| shr_m := m; shr_r := false; shr_s := false |})
    as [Hr Hs]; [done..|].
  destruct (SpecFloat.iter_pos _ _ _) as [m' r' s']. simpl in *.
  by rewrite Hr, Hs.
Qed.

Lemma canonical_lt m e :
  canonical_mantissa PyFloat.prec PyFloat.emax m e = true ->
  -1074 <= e /\ Zpos m < 2 ^ 53.
Proof.
  intros Hc%canonical_fexp. rewrite fexp_eq in Hc.
  pose proof (dig_bounds m) as [_ Hhi]. split; [lia|].
  eapply Z.lt_le_trans; [exact Hhi|]. apply Z.pow_le_mono_r; lia.
Qed.

(** What [binary_round_aux] returns for a positive mantissa with enough
    digits: nothing above an integer bound [B] of its argument in units of
    the last place; the argument is the mantissa itself at the location
    [loc_Exact] and is above it at the other locations. *)
Lemma round_aux_upper m e l B :
  let e1 := fexp PyFloat.prec PyFloat.emax (dig m + e) in
  e <= e1 ->
  (l = loc_Exact /\ Zpos m <= B * 2 ^ (e1 - e)) \/ Zpos m < B * 2 ^ (e1 - e) ->
  match binary_round_aux PyFloat.prec PyFloat.emax false (Zpos m) e l with
  | S754_zero false => True
  | S754_infinity false => 971 < e1 \/ (971 = e1 /\ 2 ^ 53 <= B)
  | S754_finite false m3 e3 =>
      canonical_mantissa PyFloat.prec PyFloat.emax m3 e3 = true
      /\ e3 <= 971
      /\ ((e3 = e1 /\ Zpos m3 <= B)
          \/ (e3 = e1 + 1 /\ Zpos m3 = 2 ^ 52 /\ 2 ^ 53 <= B))
  | _ => False
  end.
Proof.
  intros e1 He HB. unfold binary_round_aux, shr_fexp.
  rewrite Zdigits2_pos. fold e1.
  pose proof (dig_bounds m) as [Hlo Hhi]. pose proof (dig_pos m) as Hd.
  set (m1 := Zpos m / 2 ^ (e1 - e)).
  assert (0 < 2 ^ (e1 - e)) as Hpow by (apply Z.pow_pos_nonneg; lia).
  assert (0 <= m1) as Hm1 by (apply Z.div_pos; lia).
  destruct (shr_spec (shr_record_of_loc (Zpos m) l) e (e1 - e))
    as [Hs1 Hs2]; [rewrite shr_record_of_loc_m; lia | lia |].
  pose proof (shr_exact (Zpos m) e (e1 - e) ltac:(lia) ltac:(lia)) as Hex.
  destruct (shr _ e (e1 - e)) as [mrs' e'] eqn:Hshr. simpl in Hs1, Hs2.
  rewrite shr_record_of_loc_m in Hs1.
  fold m1 in Hs1. assert (e' = e1) as -> by lia. clear Hs2.
  pose proof (round_nearest_even_bounds (shr_m mrs') (loc_of_shr_record mrs'))
    as Hr.
  assert (round_nearest_even (shr_m mrs') (loc_of_shr_record mrs') <= B)
    as HrB.
  { assert (Zpos m < B * 2 ^ (e1 - e) -> m1 < B) as Hstrict
      by (intros; subst m1; apply Z.div_lt_upper_bound; [done | lia]).
    destruct HB as [[-> HB]|HB]; [|specialize (Hstrict HB); lia].
    rewrite Hshr in Hex. simpl in Hex.
    destruct (Z.eq_dec (Zpos m mod 2 ^ (e1 - e)) 0) as [Hz|Hnz].
    - rewrite Hex by (apply Z.mod_divide; [lia | done]). simpl.
      rewrite Hs1. subst m1.
      apply Z.div_le_upper_bound; [done | lia].
    - assert (Zpos m <> B * 2 ^ (e1 - e)) as Hne.
      { intros Heq. apply Hnz. rewrite Heq. apply Z.mod_mul. lia. }
      assert (Zpos m < B * 2 ^ (e1 - e)) as HB' by lia.
      specialize (Hstrict HB'). lia. }
  clear Hshr.
  set (m2 := round_nearest_even _ _) in *. rewrite Hs1 in Hr.
  clearbody m2. clear Hs1 Hex mrs'.
  assert (m1 < 2 ^ 53 /\ (e1 = -1074 \/ 2 ^ 52 <= m1)) as [Hm1hi Hm1lo].
  { subst m1. unfold e1 in *. rewrite fexp_eq in *.
    destruct (Z.max_spec (dig m + e - 53) (-1074)) as [[Hc Hmax]|[Hc Hmax]];
      rewrite Hmax in *.
    - split; [|by left].
      apply Z.div_lt_upper_bound; [apply Z.pow_pos_nonneg; lia|].
      rewrite <- Z.pow_add_r by lia.
      eapply Z.lt_le_trans; [exact Hhi|]. apply Z.pow_le_mono_r; lia.
    - split.
      + apply Z.div_lt_upper_bound; [apply Z.pow_pos_nonneg; lia|].
        rewrite <- Z.pow_add_r by lia.
        eapply Z.lt_le_trans; [exact Hhi|]. apply Z.pow_le_mono_r; lia.
      + right. apply Z.div_le_lower_bound; [apply Z.pow_pos_nonneg; lia|].
        rewrite <- Z.pow_add_r by lia.
        eapply Z.le_trans; [|exact Hlo]. apply Z.pow_le_mono_r; lia. }
  assert (-1074 <= e1) as He1 by (unfold e1; rewrite fexp_eq; lia).
  destruct (Z.eq_dec m2 0) as [Hz|Hnz].
  { rewrite Hz. simpl.
    replace (fexp PyFloat.prec PyFloat.emax (0 + e1) - e1) with 0
      by (rewrite fexp_eq; lia).
    simpl. done. }
  destruct m2 as [|p2|p2]; [done| |lia].
  rewrite Zdigits2_pos.
  pose proof (dig_bounds p2) as [Hlo2 Hhi2]. pose proof (dig_pos p2) as Hd2.
  destruct (Z_lt_le_dec (Zpos p2) (2 ^ 53)) as [Hlt|Hge].
  - (* no carry *)
    assert (fexp PyFloat.prec PyFloat.emax (dig p2 + e1) = e1) as Hcanon.
    { rewrite fexp_eq.
      assert (dig p2 <= 53).
      { destruct (Z_lt_le_dec 53 (dig p2)); [|done].
        assert (2 ^ 53 <= 2 ^ (dig p2 - 1)) by (apply Z.pow_le_mono_r; lia).
        lia. }
      destruct Hm1lo as [->|Hm1lo]; [lia|].
      assert (dig p2 = 53) as -> by (apply dig_unique; simpl; lia). lia. }
    rewrite Hcanon, Z.sub_diag. simpl.
    destruct (Z.leb_spec e1 (PyFloat.emax - PyFloat.prec)) as [Hle|Hgt].
    + unfold canonical_mantissa. fold (dig p2). rewrite Hcanon, Z.eqb_refl.
      split_and!; [done | done | left; done].
    + left. exact Hgt.
  - (* the mantissa rounded up to [2^53] *)
    assert (Zpos p2 = 2 ^ 53) as Heq by lia.
    assert (dig p2 = 54) as Hdig by (apply dig_unique; rewrite Heq; simpl; lia).
    assert (2 ^ 52 <= m1) as Hnormal by lia.
    rewrite Hdig.
    assert (fexp PyFloat.prec PyFloat.emax (54 + e1) - e1 = 1) as ->
      by (rewrite fexp_eq; lia).
    assert (p2 = 9007199254740992%positive) as -> by lia.
    simpl.
    destruct (Z.leb_spec (e1 + 1) (PyFloat.emax - PyFloat.prec)) as [Hle|Hgt].
    + split_and!; [| done |].
      * unfold canonical_mantissa. simpl. rewrite fexp_eq. apply Z.eqb_eq. lia.
      * right. split_and!; [done | done | lia].
    + change (PyFloat.emax - PyFloat.prec) with 971 in Hgt.
      destruct (Z.eq_dec e1 971) as [->|]; [right; split; [done | lia] | left; lia].
Qed.

Lemma round_aux_at_most M E m e l k :
  canonical_mantissa PyFloat.prec PyFloat.emax M E = true -> E <= 971 ->
  e <= fexp PyFloat.prec PyFloat.emax (dig m + e) ->
  k <= e -> k <= E ->
  (l = loc_Exact /\ Zpos m * 2 ^ (e - k) <= Zpos M * 2 ^ (E - k))
  \/ Zpos m * 2 ^ (e - k) < Zpos M * 2 ^ (E - k) ->
  at_most M E (binary_round_aux PyFloat.prec PyFloat.emax false (Zpos m) e l).
Proof.
  intros HM HE He Hk HkE Hl.
  assert (Zpos m * 2 ^ (e - k) <= Zpos M * 2 ^ (E - k)) as Hval
    by (destruct Hl as [[_ ?]|?]; lia).
  pose proof (canonical_lt M E HM) as [HElo HMhi].
  pose proof (dig_mono _ _ _ _ _ Hk HkE Hval) as Hdig.
  pose proof (canonical_fexp _ _ HM) as HfM.
  set (e1 := fexp PyFloat.prec PyFloat.emax (dig m + e)) in *.
  assert (e1 <= E) as He1E by (subst e1; rewrite fexp_eq in *; lia).
  assert (-1074 <= e1) as He1lo by (subst e1; rewrite fexp_eq; lia).
  assert (0 < 2 ^ (e - k)) by (apply Z.pow_pos_nonneg; lia).
  assert (0 < 2 ^ (E - e1)) by (apply Z.pow_pos_nonneg; lia).
  assert (Zpos M * 2 ^ (E - k)
          = Zpos M * 2 ^ (E - e1) * 2 ^ (e1 - e) * 2 ^ (e - k)) as Hscale.
  { rewrite <- !Z.mul_assoc, <- !Z.pow_add_r by lia. do 2 f_equal. lia. }
  rewrite Hscale in Hl, Hval.
  assert ((l = loc_Exact
           /\ Zpos m <= Zpos M * 2 ^ (E - e1) * 2 ^ (e1 - e))
          \/ Zpos m < Zpos M * 2 ^ (E - e1) * 2 ^ (e1 - e)) as HB.
  { destruct Hl as [[Hex Hle]|Hlt].
    - left. split; [done|]. apply Z.mul_le_mono_pos_r in Hle; lia.
    - right. apply Z.mul_lt_mono_pos_r in Hlt; lia. }
  pose proof (round_aux_upper m e l (Zpos M * 2 ^ (E - e1)) He HB) as Hspec.
  fold e1 in Hspec.
  unfold at_most.
  destruct (binary_round_aux _ _ _ _ _ _) as [[]|[]| |[] m3 e3]; try done.
  - (* no overflow *)
    exfalso. destruct Hspec as [Hgt|[Heq Hbig]]; [lia|].
    assert (E = e1) as HEe by lia. rewrite HEe, Z.sub_diag in Hbig.
    simpl in Hbig. lia.
  - destruct Hspec as (Hc & _ & [[-> Hm3]|(-> & Hm3 & Hbig)]).
    + split; [done|].
      destruct (Z.eq_dec e1 E) as [Heq|Hne]; [|left; lia].
      right. split; [done|]. rewrite Heq, Z.sub_diag in Hm3. simpl in Hm3. lia.
    + split; [done|].
      assert (e1 < E) as Hlt.
      { destruct (Z.eq_dec e1 E) as [Heq|]; [|lia].
        rewrite Heq, Z.sub_diag in Hbig. simpl in Hbig. lia. }
      destruct (Z.eq_dec (e1 + 1) E) as [Heq|Hne]; [|left; lia].
      right. split; [done|]. rewrite Hm3.
      apply (canonical_normal M E HM). lia.
Qed.

Lemma round_at_most M E m e k :
  canonical_mantissa PyFloat.prec PyFloat.emax M E = true -> E <= 971 ->
  k <= e -> k <= E ->
  Zpos m * 2 ^ (e - k) <= Zpos M * 2 ^ (E - k) ->
  at_most M E (binary_round PyFloat.prec PyFloat.emax false m e).
Proof.
  intros HM HE Hk HkE Hval. unfold binary_round.
  fold (dig m).
  destruct (shl_align_spec m e (fexp PyFloat.prec PyFloat.emax (dig m + e)))
    as [Hez Hmz].
  destruct (shl_align _ _ _) as [mz ez]. simpl in Hez, Hmz.
  set (e' := fexp PyFloat.prec PyFloat.emax (dig m + e)) in *.
  rewrite <- Hez in Hmz.
  assert (dig mz + ez = dig m + e) as Hdig
    by (rewrite (dig_shift m (e - ez) mz) by (done || lia); lia).
  assert (0 < 2 ^ (k - Z.min k ez)) by (apply Z.pow_pos_nonneg; lia).
  apply (round_aux_at_most M E mz ez loc_Exact (Z.min k ez));
    [done | done | | lia.. | left; split; [done|]].
  - rewrite Hdig. fold e'. lia.
  - rewrite Hmz, <- Z.mul_assoc, <- Z.pow_add_r by lia.
    replace (e - ez + (ez - Z.min k ez)) with
      ((e - k) + (k - Z.min k ez)) by lia.
    replace (E - Z.min k ez) with ((E - k) + (k - Z.min k ez)) by lia.
    rewrite !Z.pow_add_r, !Z.mul_assoc by lia.
    apply Z.mul_le_mono_nonneg_r; lia.
Qed.

(** *** Order and value of canonical floats *)

Lemma at_most_value M E m e k :
  canonical_mantissa PyFloat.prec PyFloat.emax M E = true ->
  at_most M E (S754_finite false m e) ->
  k <= e -> k <= E ->
  Zpos m * 2 ^ (e - k) <= Zpos M * 2 ^ (E - k).
Proof.
  intros HM (Hc & Hord) Hk HkE.
  pose proof (canonical_lt m e Hc) as [Helo Hmhi].
  assert (0 < 2 ^ (e - k)) by (apply Z.pow_pos_nonneg; lia).
  destruct Hord as [Hlt|[-> Hle]].
  - pose proof (canonical_normal M E HM ltac:(lia)) as [HMlo _].
    replace (E - k) with ((E - e - 1) + 1 + (e - k)) by lia.
    rewrite !Z.pow_add_r, !Z.mul_assoc by lia.
    apply Z.mul_le_mono_nonneg_r; [lia|].
    assert (0 < 2 ^ (E - e - 1)) by (apply Z.pow_pos_nonneg; lia).
    change (2 ^ 1) with 2. change (2 ^ 53) with (2 ^ 52 * 2) in Hmhi. nia.
  - apply Z.mul_le_mono_nonneg_r; lia.
Qed.

Lemma value_at_most M E m e k :
  canonical_mantissa PyFloat.prec PyFloat.emax M E = true ->
  canonical_mantissa PyFloat.prec PyFloat.emax m e = true ->
  k <= e -> k <= E ->
  Zpos m * 2 ^ (e - k) <= Zpos M * 2 ^ (E - k) ->
  at_most M E (S754_finite false m e).
Proof.
  intros HM Hc Hk HkE Hval. split; [done|].
  pose proof (canonical_lt M E HM) as [HElo HMhi].
  assert (0 < 2 ^ (E - k)) by (apply Z.pow_pos_nonneg; lia).
  destruct (Z.lt_trichotomy e E) as [Hlt|[->|Hgt]]; [by left | |].
  - right. split; [done|]. apply Z.mul_le_mono_pos_r in Hval; lia.
  - exfalso.
    pose proof (canonical_normal m e Hc ltac:(lia)) as [Hmlo _].
    replace (e - k) with ((e - E - 1) + 1 + (E - k)) in Hval by lia.
    rewrite !Z.pow_add_r, !Z.mul_assoc in Hval by lia.
    apply Z.mul_le_mono_pos_r in Hval; [|lia].
    assert (0 < 2 ^ (e - E - 1)) by (apply Z.pow_pos_nonneg; lia).
    change (2 ^ 1) with 2 in Hval. change (2 ^ 53) with (2 ^ 52 * 2) in HMhi.
    nia.
Qed.

Lemma at_most_weaken A EA M E x k :
  canonical_mantissa PyFloat.prec PyFloat.emax A EA = true ->
  canonical_mantissa PyFloat.prec PyFloat.emax M E = true ->
  k <= EA -> k <= E ->
  Zpos A * 2 ^ (EA - k) <= Zpos M * 2 ^ (E - k) ->
  at_most A EA x -> at_most M E x.
Proof.
  intros HA HM Hk HkE Hval Hx.
  destruct x as [s|s| |[] m e]; try done.
  pose proof Hx as (Hc & _).
  pose proof (canonical_lt m e Hc) as [Helo _].
  assert (0 < 2 ^ (k - Z.min k e)) by (apply Z.pow_pos_nonneg; lia).
  apply (value_at_most M E m e (Z.min k e)); [done | done | lia | lia |].
  etransitivity;
    [apply (at_most_value A EA m e (Z.min k e)); [done | done | lia | lia]|].
  replace (EA - Z.min k e) with ((EA - k) + (k - Z.min k e)) by lia.
  replace (E - Z.min k e) with ((E - k) + (k - Z.min k e)) by lia.
  rewrite !Z.pow_add_r, !Z.mul_assoc by lia.
  apply Z.mul_le_mono_nonneg_r; lia.
Qed.

Lemma leb_at_most M E x :
  well_formed x ->
  PyFloat.leb (PyFloat.of_Z 0) x = true ->
  PyFloat.leb x (S754_finite false M E) = true ->
  at_most M E x.
Proof.
  unfold well_formed, PyFloat.leb, SFleb.
  destruct x as [s|[]| |[] m e]; simpl; try done.
  intros [Hc _]%andb_prop _ H. split; [done|].
  change (Pos.compare_cont Eq m M) with (Pos.compare m M) in H.
  destruct (Z.compare_spec e E) as [->|Hlt|Hgt]; [|by left|done].
  right. split; [done|]. destruct (Pos.compare_spec m M); try done; lia.
Qed.

Lemma at_most_leb M E x :
  at_most M E x ->
  PyFloat.leb (PyFloat.of_Z 0) x = true
  /\ PyFloat.leb x (S754_finite false M E) = true.
Proof.
  unfold PyFloat.leb, SFleb.
  destruct x as [s|[]| |[] m e]; simpl; try done.
  intros (_ & [Hlt|[-> Hle]]).
  - by rewrite (proj2 (Z.compare_lt_iff e E) Hlt).
  - rewrite Z.compare_refl.
    change (Pos.compare_cont Eq m M) with (Pos.compare m M).
    destruct (Pos.compare_spec m M); try done. lia.
Qed.

(** *** Products and sums *)

Lemma dig_mul m c : dig c = 53 -> dig m + 52 <= dig (m * c).
Proof.
  intros Hc. pose proof (dig_bounds m) as [Hlo _].
  pose proof (dig_bounds c) as [Hclo _]. rewrite Hc in Hclo.
  pose proof (dig_pos m).
  apply dig_ge. rewrite Pos2Z.inj_mul.
  replace (dig m + 52 - 1) with ((dig m - 1) + 52) by lia.
  rewrite Z.pow_add_r by lia.
  change (2 ^ (53 - 1)) with (2 ^ 52) in Hclo.
  assert (0 < 2 ^ (dig m - 1)) by (apply Z.pow_pos_nonneg; lia).
  assert (0 < 2 ^ 52) by done.
  nia.
Qed.

(** [x * c <= c] for [x <= 1] and a normal float [c]. *)
Lemma mul_unit_at_most x c E :
  canonical_mantissa PyFloat.prec PyFloat.emax c E = true ->
  dig c = 53 -> E <= 971 ->
  at_most m_one (-52) x ->
  at_most c E (PyFloat.mul x (S754_finite false c E)).
Proof.
  intros Hc Hd HE Hx.
  destruct x as [s|s| |[] m e]; try done.
  destruct Hx as (Hcm & Hord).
  pose proof (canonical_lt m e Hcm) as [Helo Hmhi].
  unfold PyFloat.mul, SFmul. simpl xorb.
  pose proof (dig_mul m c Hd) as Hdm. pose proof (dig_pos m).
  apply (round_aux_at_most c E (m * c) (e + E) loc_Exact (e + E));
    [done | done | rewrite fexp_eq; lia | lia | lia | left; split; [done|]].
  rewrite Z.sub_diag, Z.mul_1_r, Pos2Z.inj_mul.
  replace (E - (e + E)) with (- e) by lia.
  rewrite Z.mul_comm. apply Z.mul_le_mono_nonneg_l; [lia|].
  destruct Hord as [Hlt|[-> Hle]].
  - assert (2 ^ 53 <= 2 ^ (- e)) by (apply Z.pow_le_mono_r; lia). lia.
  - unfold m_one in Hle. change (2 ^ (- -52)) with 4503599627370496. lia.
Qed.

(** [x + y <= m] for [x <= a], [y <= b] and [a + b <= m]. *)
Lemma add_at_most A EA B EB M E x y k :
  canonical_mantissa PyFloat.prec PyFloat.emax A EA = true ->
  canonical_mantissa PyFloat.prec PyFloat.emax B EB = true ->
  canonical_mantissa PyFloat.prec PyFloat.emax M E = true -> E <= 971 ->
  k <= EA -> k <= EB -> k <= E ->
  Zpos A * 2 ^ (EA - k) + Zpos B * 2 ^ (EB - k) <= Zpos M * 2 ^ (E - k) ->
  at_most A EA x -> at_most B EB y ->
  at_most M E (PyFloat.add x y).
Proof.
  intros HA HB HM HE HkA HkB HkE Hval Hx Hy.
  assert (0 < 2 ^ (EA - k)) by (apply Z.pow_pos_nonneg; lia).
  assert (0 < 2 ^ (EB - k)) by (apply Z.pow_pos_nonneg; lia).
  assert (at_most M E x) as HxM
    by (apply (at_most_weaken A EA M E x k); try done; lia).
  assert (at_most M E y) as HyM
    by (apply (at_most_weaken B EB M E y k); try done; lia).
  destruct x as [sx|sx| |[] mx ex]; try done;
    destruct y as [sy|sy| |[] my ey]; try done.
  - unfold PyFloat.add, SFadd. by destruct sx, sy.
  - pose proof Hx as (Hcx & _). pose proof Hy as (Hcy & _).
    pose proof (canonical_lt mx ex Hcx) as [Hexlo _].
    pose proof (canonical_lt my ey Hcy) as [Heylo _].
    unfold PyFloat.add, SFadd. simpl cond_Zopp.
    set (ez := Z.min ex ey).
    destruct (shl_align_spec mx ex ez) as [_ Hmx].
    destruct (shl_align_spec my ey ez) as [_ Hmy].
    replace (Z.min ex ez) with ez in Hmx by lia.
    replace (Z.min ey ez) with ez in Hmy by lia.
    set (ax := (shl_align mx ex ez).1) in *.
    set (ay := (shl_align my ey ez).1) in *.
    change (Zpos ax + Zpos ay) with (Zpos (ax + ay)).
    unfold binary_normalize.
    set (k' := Z.min k ez).
    assert (0 < 2 ^ (k - k')) by (apply Z.pow_pos_nonneg; lia).
    assert (0 < 2 ^ (ez - k')) by (apply Z.pow_pos_nonneg; lia).
    apply (round_at_most M E (ax + ay) ez k'); [done | done | lia | lia |].
    rewrite Pos2Z.inj_add, Hmx, Hmy, Z.mul_add_distr_r.
    rewrite <- !Z.mul_assoc, <- !Z.pow_add_r by lia.
    replace (ex - ez + (ez - k')) with (ex - k') by lia.
    replace (ey - ez + (ez - k')) with (ey - k') by lia.
    assert (Zpos mx * 2 ^ (ex - k') <= Zpos A * 2 ^ (EA - k')) as Hv1
      by (apply at_most_value; [done | done | lia | lia]).
    assert (Zpos my * 2 ^ (ey - k') <= Zpos B * 2 ^ (EB - k')) as Hv2
      by (apply at_most_value; [done | done | lia | lia]).
    replace (EA - k') with ((EA - k) + (k - k')) in Hv1 by lia.
    replace (EB - k') with ((EB - k) + (k - k')) in Hv2 by lia.
    replace (E - k') with ((E - k) + (k - k')) by lia.
    rewrite !Z.pow_add_r, !Z.mul_assoc in * by lia.
    nia.
Qed.

(** *** The three components and the rounding to one decimal *)

Lemma in_unit_interval_at_most x :
  in_unit_interval x -> at_most m_one (-52) x.
Proof. intros (Hwf & H0 & H1). by apply leb_at_most. Qed.

Lemma mention_score_at_most n : at_most m_sixty (-47) (mention_score n).
Proof.
  destruct (Nat.le_gt_cases 10 n) as [Hge|Hlt].
  - rewrite mention_score_saturates by done. rewrite of_Z_60.
    split; [done | right; done].
  - do 10 (destruct n as [|n];
           [apply leb_at_most; vm_compute; reflexivity|]).
    lia.
Qed.

Lemma half_in_unit_interval : in_unit_interval half.
Proof. split_and!; vm_compute; reflexivity. Qed.

Lemma category_weight_in_unit_interval cats category :
  Forall (fun cat => in_unit_interval (Category.priority_weight cat)) cats ->
  in_unit_interval (category_weight cats category).
Proof.
  induction 1 as [|cat cats Hcat _ IH]; simpl;
    [apply half_in_unit_interval|].
  by destruct (json_is_str (Category.name cat) category).
Qed.

Lemma tenths_at_most m e :
  at_most m_hundred (-46) (S754_finite false m e) ->
  PyFloat.tenths m e <= 1000.
Proof.
  intros Hx. pose proof Hx as (Hc & _).
  pose proof (canonical_lt m e Hc) as [Helo _].
  pose proof (at_most_value m_hundred (-46) m e (Z.min e (-46))
                ltac:(done) Hx ltac:(lia) ltac:(lia)) as Hval.
  unfold PyFloat.tenths.
  assert (forall p, e = Zneg p -> Zpos m <= 100 * 2 ^ Zpos p) as Hneg.
  { intros p ->.
    assert (0 < 2 ^ Zpos p) by (apply Z.pow_pos_nonneg; lia).
    destruct (Z_lt_le_dec (Zneg p) (-46)) as [Hlt|Hge].
    - replace (Z.min (Z.neg p) (-46)) with (Zneg p) in Hval by lia.
      rewrite Z.sub_diag, Z.mul_1_r in Hval.
      replace (-46 - Z.neg p) with (Zpos p - 46) in Hval by lia.
      assert (2 ^ Zpos p = 2 ^ (Zpos p - 46) * 2 ^ 46) as ->
        by (rewrite <- Z.pow_add_r by lia; f_equal; lia).
      unfold m_hundred in Hval. change (2 ^ 46) with 70368744177664. lia.
    - replace (Z.min (Z.neg p) (-46)) with (-46) in Hval by lia.
      rewrite Z.sub_diag, Z.mul_1_r in Hval.
      assert (2 ^ 46 = 2 ^ (Z.neg p - -46) * 2 ^ Zpos p) as Hsplit
        by (rewrite <- Z.pow_add_r by lia; f_equal; lia).
      assert (0 < 2 ^ (Z.neg p - -46)) by (apply Z.pow_pos_nonneg; lia).
      unfold m_hundred in Hval.
      change 7036874417766400 with (100 * 2 ^ 46) in Hval.
      rewrite Hsplit in Hval. nia. }
  destruct e as [|p|p].
  - replace (Z.min 0 (-46)) with (-46) in Hval by lia.
    change (2 ^ (0 - -46)) with 70368744177664 in Hval.
    change (2 ^ (-46 - -46)) with 1 in Hval. unfold m_hundred in Hval.
    change (2 ^ 0) with 1. lia.
  - replace (Z.min (Zpos p) (-46)) with (-46) in Hval by lia.
    replace (Zpos p - -46) with (Zpos p + 46) in Hval by lia.
    rewrite Z.pow_add_r in Hval by lia.
    change (2 ^ (-46 - -46)) with 1 in Hval. unfold m_hundred in Hval.
    change (2 ^ 46) with 70368744177664 in Hval.
    assert (0 < 2 ^ Zpos p) by (apply Z.pow_pos_nonneg; lia). nia.
  - specialize (Hneg p eq_refl).
    assert (0 < 2 ^ Zpos p) as Hpos by (apply Z.pow_pos_nonneg; lia).
    unfold PyFloat.div_half_even.
    pose proof (Z.div_mod (10 * Zpos m) (2 ^ Zpos p) ltac:(lia)) as Hdm.
    pose proof (Z.mod_pos_bound (10 * Zpos m) (2 ^ Zpos p) Hpos) as Hr.
    set (q := 10 * Zpos m / 2 ^ Zpos p) in *.
    set (r := (10 * Zpos m) mod 2 ^ Zpos p) in *.
    assert (q <= 1000) by nia.
    destruct (Z.eq_dec q 1000) as [Hq|Hq].
    + assert (r = 0) as -> by nia.
      destruct (Z.compare_spec (2 * 0) (2 ^ Zpos p)); lia.
    + destruct (2 * r ?= 2 ^ Zpos p); [destruct (Z.even q)| |]; lia.
Qed.

Lemma ratio_tenths_bounded :
  forallb (fun n =>
             PyFloat.leb (PyFloat.of_Z 0) (PyFloat.ratio false (Z.of_nat n) 10)
             && PyFloat.leb (PyFloat.ratio false (Z.of_nat n) 10)
                  (PyFloat.of_Z 100))
    (seq 1 1000) = true.
Proof. vm_compute. reflexivity. Qed.

Lemma round1_at_most x :
  at_most m_hundred (-46) x ->
  PyFloat.leb (PyFloat.of_Z 0) (PyFloat.round1 x) = true
  /\ PyFloat.leb (PyFloat.round1 x) (PyFloat.of_Z 100) = true.
Proof.
  intros Hx. destruct x as [[]|s| |[] m e]; try done.
  pose proof (tenths_at_most m e Hx) as Ht. simpl.
  destruct (PyFloat.tenths m e) as [|t|t]; [done | | done].
  pose proof ratio_tenths_bounded as Hall.
  rewrite forallb_forall in Hall.
  specialize (Hall (Pos.to_nat t)). rewrite positive_nat_Z in Hall.
  apply andb_prop. apply Hall. apply in_seq. lia.
Qed.

Section Bounds.

Variable categories_config : CategoriesConfig.

(** X14.  For an average depth and category weights in [[0, 1]] the heat
    score is a number (not NaN) in [[0, 100]], whatever the number of
    mentions. *)
Theorem heat_score_bounds topic_cluster :
  in_unit_interval (TopicCluster.avg_depth topic_cluster) ->
  Forall (fun cat => in_unit_interval (Category.priority_weight cat))
    (categories categories_config) ->
  PyFloat.is_nan (calculate_heat_score categories_config topic_cluster)
  = false
  /\ PyFloat.leb (PyFloat.of_Z 0)
       (calculate_heat_score categories_config topic_cluster) = true
  /\ PyFloat.leb (calculate_heat_score categories_config topic_cluster)
       (PyFloat.of_Z 100) = true.
Proof.
  intros Hdepth Hweights.
  assert (forall h, PyFloat.leb (PyFloat.of_Z 0) h = true
                    /\ PyFloat.leb h (PyFloat.of_Z 100) = true ->
                    PyFloat.is_nan h = false
                    /\ PyFloat.leb (PyFloat.of_Z 0) h = true
                    /\ PyFloat.leb h (PyFloat.of_Z 100) = true) as Hnum
    by (intros h [H0 H100]; split_and!; [by destruct h | done | done]).
  apply Hnum. clear Hnum.
  pose proof (category_weight_in_unit_interval _
                (TopicCluster.category topic_cluster) Hweights) as Hweight.
  apply in_unit_interval_at_most in Hdepth, Hweight.
  unfold calculate_heat_score.
  fold (mention_score (TopicCluster.total_mentions topic_cluster)).
  apply round1_at_most.
  apply (add_at_most m_ninety (-46) m_ten (-49) m_hundred (-46) _ _ (-49));
    [done.. | |].
  - apply (add_at_most m_sixty (-47) m_sixty (-48) m_ninety (-46) _ _ (-48));
      [done.. | apply mention_score_at_most |].
    by apply (mul_unit_at_most _ m_sixty (-48)).
  - by apply (mul_unit_at_most _ m_ten (-49)).
Qed.

End Bounds.

(** ** The star rating of a depth *)



(** ** The mean of depths in [[0, 1]] is in [[0, 1]] *)

Lemma dig_le_53 p : Zpos p < 2 ^ 53 -> dig p <= 53.
Proof.
  intros Hp. pose proof (dig_bounds p) as [Hlo _].
  destruct (Z_lt_le_dec 53 (dig p)) as [Hgt|]; [|done].
  assert (2 ^ 53 <= 2 ^ (dig p - 1)) by (apply Z.pow_le_mono_r; lia). lia.
Qed.

(** The conversion of a length below [2^53] is exact. *)
Lemma of_nat_exact n :
  (0 < n)%nat -> Z.of_nat n < 2 ^ 53 ->
  exists M E,
    PyFloat.of_nat n = S754_finite false M E /\ represents (Z.of_nat n) M E.
Proof.
  intros Hpos Hlt. unfold PyFloat.of_nat, PyFloat.of_Z, binary_normalize.
  destruct (Z.of_nat n) as [|p|p] eqn:Hp; [lia | | lia].
  unfold binary_round. fold (dig p).
  pose proof (dig_le_53 p Hlt) as Hd53. pose proof (dig_pos p) as Hdpos.
  destruct (shl_align_spec p 0 (fexp PyFloat.prec PyFloat.emax (dig p + 0)))
    as [Hez Hmz].
  destruct (shl_align _ _ _) as [mz ez]. simpl in Hez, Hmz.
  rewrite fexp_eq in Hez, Hmz.
  replace (Z.min 0 (Z.max (dig p + 0 - 53) (-1074))) with (dig p - 53)
    in Hez, Hmz by lia.
  subst ez.
  assert (dig mz = 53) as Hdz
    by (rewrite (dig_shift p (0 - (dig p - 53)) mz) by (done || lia); lia).
  pose proof (dig_bounds mz) as [Hzlo Hzhi]. rewrite Hdz in Hzlo, Hzhi.
  assert (fexp PyFloat.prec PyFloat.emax (dig mz + (dig p - 53))
          = dig p - 53) as He1 by (rewrite fexp_eq; lia).
  pose proof (round_aux_spec mz (dig p - 53) loc_Exact) as Hlow.
  pose proof (round_aux_upper mz (dig p - 53) loc_Exact (Zpos mz)) as Hup.
  simpl in Hlow, Hup. rewrite He1, Z.sub_diag in Hlow, Hup.
  change (2 ^ 0) with 1 in Hlow, Hup. rewrite Z.div_1_r in Hlow.
  specialize (Hlow ltac:(lia)).
  specialize (Hup ltac:(lia) ltac:(left; split; [done | lia])).
  destruct (binary_round_aux _ _ _ _ _ _) as [[]|[]| |[] m3 e3];
    try done; try lia.
  destruct Hlow as (Hc & He3 & Hm3).
  destruct Hup as (_ & _ & [[-> Hle]|(_ & _ & Hbig)]);
    [|change (2 ^ (53 - 1)) with (2 ^ 52) in *; lia].
  rewrite Z.sub_diag in Hm3. change (2 ^ 0) with 1 in Hm3.
  assert (m3 = mz) as -> by lia.
  exists mz, (dig p - 53). split; [done|].
  split_and!; [done | lia | lia |].
  rewrite Hmz. reflexivity.
Qed.

Lemma represents_exists k :
  1 <= k < 2 ^ 53 -> exists M E, represents k M E.
Proof.
  intros Hk.
  destruct (of_nat_exact (Z.to_nat k)) as (M & E & _ & Hrep); [lia | lia |].
  rewrite Z2Nat.id in Hrep by lia. by exists M, E.
Qed.

Lemma represents_scaled k M E :
  represents k M E -> Zpos M * 2 ^ (E - -52) = k * 2 ^ 52.
Proof.
  intros (_ & HE & ->).
  rewrite <- Z.mul_assoc, <- Z.pow_add_r by lia. do 2 f_equal. lia.
Qed.

Lemma represents_normal k M E : represents k M E -> dig M = 53.
Proof.
  intros (Hc & HE & _). apply dig_unique.
  apply (canonical_normal M E Hc). lia.
Qed.

Lemma add_zero_at_most d :
  at_most m_one (-52) d -> at_most m_one (-52) (PyFloat.add (PyFloat.of_Z 0) d).
Proof. by destruct d as [[]|[]| |[] m e]. Qed.

Lemma fold_add_at_most depths : forall acc k M E,
  1 <= k -> k + Z.of_nat (length depths) < 2 ^ 53 ->
  represents k M E -> at_most M E acc ->
  Forall (at_most m_one (-52)) depths ->
  exists M' E',
    represents (k + Z.of_nat (length depths)) M' E'
    /\ at_most M' E' (fold_left PyFloat.add depths acc).
Proof.
  induction depths as [|d depths IH]; intros acc k M E Hk Hlen Hrep Hacc Hds.
  - simpl. rewrite Z.add_0_r. by exists M, E.
  - apply Forall_cons in Hds as [Hd Hds].
    rewrite length_cons, Nat2Z.inj_succ in *.
    destruct (represents_exists (k + 1)) as (M1 & E1 & Hrep1); [lia|].
    destruct (IH (PyFloat.add acc d) (k + 1) M1 E1) as (M' & E' & Hrep' & Hsum);
      [lia | lia | done | | done |].
    + pose proof (represents_scaled _ _ _ Hrep) as Hs.
      pose proof (represents_scaled _ _ _ Hrep1) as Hs1.
      destruct Hrep as (Hc & HE & _). destruct Hrep1 as (Hc1 & HE1 & _).
      apply (add_at_most M E m_one (-52) M1 E1 acc d (-52));
        [done | done | done | lia | lia | lia | lia | | done | done].
      rewrite Hs, Hs1. change (Zpos m_one * 2 ^ (-52 - -52)) with (2 ^ 52).
      lia.
    + exists M', E'. split; [|done].
      replace (k + Z.succ (Z.of_nat (length depths)))
        with (k + 1 + Z.of_nat (length depths)) by lia. done.
Qed.

Lemma sum_at_most d depths :
  Z.of_nat (length (d :: depths)) < 2 ^ 53 ->
  Forall (at_most m_one (-52)) (d :: depths) ->
  exists M E,
    represents (Z.of_nat (length (d :: depths))) M E
    /\ at_most M E (PyFloat.sum (d :: depths)).
Proof.
  intros Hlen [Hd Hds]%Forall_cons.
  rewrite length_cons, Nat2Z.inj_succ in *.
  unfold PyFloat.sum. simpl fold_left.
  destruct (fold_add_at_most depths (PyFloat.add (PyFloat.of_Z 0) d) 1
              m_one (-52)) as (M & E & Hrep & Hsum);
    [lia | lia | done | by apply add_zero_at_most | done |].
  exists M, E. split; [|done].
  by replace (Z.succ (Z.of_nat (length depths)))
    with (1 + Z.of_nat (length depths)) by lia.
Qed.

Lemma round_aux_zero l :
  at_most m_one (-52)
    (binary_round_aux PyFloat.prec PyFloat.emax false 0 (-1074) l).
Proof. destruct l as [|[]]; vm_compute; first [exact I | split; [reflexivity | left; reflexivity]]. Qed.

Lemma new_location_exact nb : new_location nb 0 = loc_Exact.
Proof.
  unfold new_location, new_location_even, new_location_odd.
  by destruct (Z.even nb).
Qed.

(** [x / y <= 1] for [x <= y] and a normal float [y >= 1]. *)
Lemma div_at_most_one x M E :
  canonical_mantissa PyFloat.prec PyFloat.emax M E = true ->
  dig M = 53 -> E <= 0 ->
  at_most M E x ->
  at_most m_one (-52) (PyFloat.div x (S754_finite false M E)).
Proof.
  intros HM Hd HE Hx. destruct x as [s|s| |[] mx ex]; try done.
  pose proof Hx as (Hcx & Hord).
  pose proof (canonical_lt mx ex Hcx) as [Hexlo Hmxhi].
  pose proof (canonical_lt M E HM) as [HElo HMhi].
  pose proof (dig_le_53 mx Hmxhi) as Hdx. pose proof (dig_pos mx) as Hdxpos.
  pose proof (dig_bounds mx) as [Hmxlo _].
  assert (ex <= E) as HexE by lia.
  pose proof (at_most_value M E mx ex ex HM Hx ltac:(lia) ltac:(lia)) as Hval.
  rewrite Z.sub_diag, Z.mul_1_r in Hval.
  unfold PyFloat.div, SFdiv. simpl xorb. unfold SFdiv_core_binary.
  rewrite !Zdigits2_pos, Hd, fexp_eq.
  replace (dig mx + ex - (53 + E) - 53) with (dig mx + ex - E - 106) by lia.
  set (G := dig mx + ex - E - 106).
  set (e' := Z.min (Z.max G (-1074)) (ex - E)).
  assert (-1074 <= e' <= -53) as He' by (subst e' G; lia).
  set (s := ex - E - e').
  assert (0 <= s) as Hs by (subst s e'; lia).
  assert (match s with
          | 0 => Zpos mx
          | Zpos _ => Z.shiftl (Zpos mx) s
          | Zneg _ => 0
          end = Zpos mx * 2 ^ s) as ->.
  { destruct s as [|p|p] eqn:Hsp; [simpl; lia | | lia].
    by rewrite Z.shiftl_mul_pow2. }
  assert (0 < 2 ^ s) as Hpows by (apply Z.pow_pos_nonneg; lia).
  assert (Zpos mx * 2 ^ s <= Zpos M * 2 ^ (- e')) as Hm'.
  { replace (- e') with ((E - ex) + s) by (subst s; lia).
    rewrite Z.pow_add_r, Z.mul_assoc by lia.
    apply Z.mul_le_mono_nonneg_r; lia. }
  assert (0 < 2 ^ (- e')) as Hpowe by (apply Z.pow_pos_nonneg; lia).
  pose proof (Z_div_mod (Zpos mx * 2 ^ s) (Zpos M) ltac:(done)) as Hdiv.
  destruct (Z.div_eucl _ _) as [q r]. destruct Hdiv as [Hq Hr].
  assert (0 <= q) as Hq0 by nia.
  assert (q <= 2 ^ (- e')) as Hqle by nia.
  assert (r <> 0 -> q < 2 ^ (- e')) as Hqlt by (intros; nia).
  assert (e' <> -1074 -> 2 ^ 52 <= q) as Hnormal.
  { intros Hne.
    assert (e' = G) as HeG by (subst e'; lia).
    assert (s = 106 - dig mx) as Hs106 by (subst s G; lia).
    assert (2 ^ 105 <= Zpos mx * 2 ^ s) as Hbig.
    { rewrite Hs106.
      replace 105 with ((dig mx - 1) + (106 - dig mx)) by lia.
      rewrite Z.pow_add_r by lia.
      apply Z.mul_le_mono_nonneg_r; [|done].
      apply Z.lt_le_incl, Z.pow_pos_nonneg; lia. }
    change (2 ^ 105) with (2 ^ 52 * 2 ^ 53) in Hbig.
    change (2 ^ 53) with 9007199254740992 in *.
    change (2 ^ 52) with 4503599627370496 in *.
    nia. }
  destruct q as [|qp|qp]; [| |lia].
  - (* the quotient is below the last place *)
    destruct (Z.eq_dec e' (-1074)) as [->|Hne];
      [apply round_aux_zero | specialize (Hnormal Hne); lia].
  - assert (e' <= fexp PyFloat.prec PyFloat.emax (dig qp + e')) as Hdigits.
    { rewrite fexp_eq.
      destruct (Z.eq_dec e' (-1074)) as [->|Hne]; [lia|].
      specialize (Hnormal Hne).
      assert (53 <= dig qp) by (apply dig_ge; simpl; lia). lia. }
    apply (round_aux_at_most m_one (-52) qp e' _ e');
      [done | lia | done | lia | lia |].
    rewrite Z.sub_diag, Z.mul_1_r.
    replace (Zpos m_one * 2 ^ (-52 - e')) with (2 ^ (- e')).
    2:{ change (Zpos m_one) with (2 ^ 52).
        rewrite <- Z.pow_add_r by lia. f_equal. lia. }
    destruct (Z.eq_dec r 0) as [->|Hr0].
    + left. split; [apply new_location_exact | done].
    + right. by apply Hqlt.
Qed.

Lemma at_most_in_unit_interval x : at_most m_one (-52) x -> in_unit_interval x.
Proof.
  intros Hx. destruct (at_most_leb _ _ _ Hx) as [H0 H1].
  split_and!; [|done|done].
  destruct x as [s|s| |[] m e]; try done.
  destruct Hx as (Hc & Hord). unfold well_formed. simpl. unfold bounded.
  rewrite Hc. simpl. apply Z.leb_le.
  change (PyFloat.emax - PyFloat.prec) with 971. lia.
Qed.

(** X16.  The mean of fewer than [2^53] depths in [[0, 1]] is in
    [[0, 1]]: neither the sum from the left nor the division by the count
    leaves the range. *)
Theorem mean_in_unit_interval depths :
  Forall in_unit_interval depths ->
  Z.of_nat (length depths) < 2 ^ 53 ->
  in_unit_interval (mean depths).
Proof.
  intros Hds Hlen. destruct depths as [|d depths].
  { apply half_in_unit_interval. }
  unfold mean. apply at_most_in_unit_interval.
  assert (Forall (at_most m_one (-52)) (d :: depths)) as Hds'
    by (eapply Forall_impl; [exact Hds | apply in_unit_interval_at_most]).
  destruct (sum_at_most d depths Hlen Hds') as (M & E & Hrep & Hsum).
  destruct (of_nat_exact (length (d :: depths))) as (M' & E' & -> & Hrep');
    [simpl; lia | done |].
  pose proof (represents_scaled _ _ _ Hrep) as Hs.
  pose proof (represents_scaled _ _ _ Hrep') as Hs'.
  pose proof (represents_normal _ _ _ Hrep') as Hd'.
  destruct Hrep as (Hc & HE & _). destruct Hrep' as (Hc' & HE' & _).
  apply div_at_most_one; [done | done | lia |].
  apply (at_most_weaken M E M' E' _ (-52)); [done | done | lia | lia | | done].
  rewrite Hs, Hs'. lia.
Qed.

(** ** From the annotations to the ranking *)

Lemma instance_depth_in_unit_interval articles ti :
  depths_in_unit_interval articles ->
  ti ∈ collect_topics articles ->
  in_unit_interval (TopicInstance.depth ti).
Proof.
  intros Hd (a & t & Ha & _ & _ & ->)%collect_topics_elem. simpl.
  destruct (Article.discussion_depth a !! t) as [d|] eqn:Hlook; simpl.
  - by apply (Hd a t d).
  - apply half_in_unit_interval.
Qed.

Lemma taken_mean_in_unit_interval all_topics taken :
  Forall (fun ti => in_unit_interval (TopicInstance.depth ti)) all_topics ->
  Z.of_nat (length all_topics) < 2 ^ 53 ->
  NoDup (link_of <$> taken) -> taken ⊆ all_topics ->
  in_unit_interval (mean (TopicInstance.depth <$> taken)).
Proof.
  intros Hall Hlen Hnd Hsub. apply mean_in_unit_interval.
  - apply Forall_fmap, Forall_forall. intros ti Hti.
    rewrite Forall_forall in Hall. apply Hall. by apply Hsub.
  - rewrite length_fmap.
    assert (length taken <= length all_topics)%nat; [|lia].
    apply submseteq_length, NoDup_submseteq; [|done].
    by apply NoDup_fmap_1 in Hnd.
Qed.

Lemma emits_avg_depth all_topics assigned groups clusters :
  emits all_topics assigned groups clusters ->
  Forall (fun c => exists taken,
            NoDup (link_of <$> taken) /\ taken ⊆ all_topics
            /\ TopicCluster.avg_depth c = mean (TopicInstance.depth <$> taken))
    clusters.
Proof.
  induction 1 as [assigned
                 |assigned group groups name merged st clusters Hn Hm Hs Ha _ IH
                 |assigned group groups name merged st clusters Hn Hm Hs Ha _ IH];
    [constructor | done |].
  constructor; [|done].
  apply assign_group_spec in Hs
    as (taken & _ & Hdepths & _ & Hnd & _ & Hsub & _).
  exists taken. simpl. by rewrite Hdepths.
Qed.

Lemma fallback_avg_depth all_topics :
  Forall (fun c => exists taken,
            NoDup (link_of <$> taken) /\ taken ⊆ all_topics
            /\ TopicCluster.avg_depth c = mean (TopicInstance.depth <$> taken))
    (fallback_clusters all_topics).
Proof.
  destruct (fallback_scan_final all_topics) as (_ & Hent & _).
  destruct (first_encountered_spec all_topics ∅) as (HndF & _ & HsubF).
  unfold fallback_clusters. apply Forall_fmap, Forall_forall.
  intros [k c] Hin. simpl.
  destruct (Hent _ _ Hin) as (_ & _ & _ & Hd).
  exists (with_label k (first_encountered ∅ all_topics)).
  split_and!; [| |by rewrite Hd].
  - apply (sublist_NoDup _ (link_of <$> first_encountered ∅ all_topics));
      [exact HndF|].
    apply fmap_sublist, sublist_filter.
  - intros ti [_ Hti]%list_elem_of_filter. by apply HsubF.
Qed.

Section Range.

Variable config : Config.
Variable categories_config : CategoriesConfig.
Variable service : nat -> prompt -> result string.
Variable json_loads : string -> option json.
Variable str_strip : string -> string.

(** X17.  When every depth of the annotations is in [[0, 1]] and there
    are fewer than [2^53] topic instances, every cluster [cluster_topics]
    returns, grouped or fallback, has its [avg_depth] in [[0, 1]]. *)
Theorem avg_depth_in_unit_interval articles w :
  depths_in_unit_interval articles ->
  Z.of_nat (length (collect_topics articles)) < 2 ^ 53 ->
  exists clusters,
    (cluster_topics config service json_loads str_strip articles w).1
    = inr clusters
    /\ Forall (fun c => in_unit_interval (TopicCluster.avg_depth c)) clusters.
Proof.
  intros Hdepths Hlen. eexists. split; [apply cluster_topics_result|].
  assert (Forall (fun ti => in_unit_interval (TopicInstance.depth ti))
            (collect_topics articles)) as Hall.
  { apply Forall_forall. intros ti Hti.
    by apply (instance_depth_in_unit_interval articles). }
  assert (forall clusters,
            Forall (fun c => exists taken,
                      NoDup (link_of <$> taken)
                      /\ taken ⊆ collect_topics articles
                      /\ TopicCluster.avg_depth c
                         = mean (TopicInstance.depth <$> taken)) clusters ->
            Forall (fun c => in_unit_interval (TopicCluster.avg_depth c))
              clusters) as Hmean.
  { intros clusters Hc. eapply Forall_impl; [exact Hc|].
    intros c (taken & Hnd & Hsub & ->).
    by apply (taken_mean_in_unit_interval (collect_topics articles)). }
  destruct (collect_topics articles) as [|ti tis] eqn:Hcollect; [constructor|].
  destruct (grouped_outcome _ _ _ _ _ _) as [e|clusters] eqn:Hg.
  - apply Hmean, fallback_avg_depth.
  - apply grouped_outcome_emits in Hg as (groups & He).
    by apply Hmean, (emits_avg_depth _ _ _ _ He).
Qed.

(** X18.  For clusters with [avg_depth] in [[0, 1]] and category weights
    in [[0, 1]], the ranking of [calculate_all_heat_scores] is in
    descending order of [heat_score] and every score is in [[0, 100]]. *)
Theorem ranking_sorted_in_range clusters w :
  Forall (fun c => in_unit_interval (TopicCluster.avg_depth c)) clusters ->
  Forall (fun cat => in_unit_interval (Category.priority_weight cat))
    (categories categories_config) ->
  exists ranking,
    (calculate_all_heat_scores categories_config clusters w).1 = inr ranking
    /\ ranking ≡ₚ scored_topic categories_config <$> clusters
    /\ StronglySorted outranks ranking
    /\ Forall in_range ranking.
Proof.
  intros Hdepths Hweights.
  exists (sort_desc (scored_topic categories_config <$> clusters)).
  split; [by rewrite calculate_all_heat_scores_run|].
  assert (Forall (fun t => scored t /\ in_range t)
            (scored_topic categories_config <$> clusters)) as Hscores.
  { apply Forall_fmap. eapply Forall_impl; [exact Hdepths|].
    intros c Hc. simpl.
    pose proof (category_weight_in_unit_interval _
                  (TopicCluster.category c) Hweights) as Hweight.
    apply in_unit_interval_at_most in Hc, Hweight.
    assert (in_range (scored_topic categories_config c)) as Hrange.
    { unfold in_range. simpl. unfold calculate_heat_score.
      fold (mention_score (TopicCluster.total_mentions c)).
      apply round1_at_most.
      apply (add_at_most m_ninety (-46) m_ten (-49) m_hundred (-46) _ _ (-49));
        [done.. | |].
      - apply (add_at_most m_sixty (-47) m_sixty (-48) m_ninety (-46)
                 _ _ (-48)); [done.. | apply mention_score_at_most |].
        by apply (mul_unit_at_most _ m_sixty (-48)).
      - by apply (mul_unit_at_most _ m_ten (-49)). }
    split; [|done]. destruct Hrange as [H0 _]. unfold scored.
    by destruct (ScoredTopic.heat_score _). }
  split_and!.
  - apply sort_desc_perm.
  - apply sort_desc_sorted. eapply Forall_impl; [exact Hscores|]. by intros t [].
  - rewrite sort_desc_perm. eapply Forall_impl; [exact Hscores|]. by intros t [].
Qed.

End Range.

(** ** The further properties at the scenario *)

Lemma grouped_clusters_cover_witness :
  py_iter Scenario.reply = inr [Scenario.group "X"; Scenario.group "Y"]
  /\ grouped_clusters (collect_topics Scenario.analysed) Scenario.reply
     = inr Scenario.grouped
  /\ forall l,
      l ∈ links_of Scenario.grouped
      <-> covered (collect_topics Scenario.analysed)
            [Scenario.group "X"; Scenario.group "Y"] l.
Proof.
  split; [by vm_compute|]. split; [by vm_compute|].
  apply (grouped_clusters_cover (collect_topics Scenario.analysed)
           Scenario.reply [Scenario.group "X"; Scenario.group "Y"]
           Scenario.grouped); by vm_compute.
Defined.

Lemma top_topics_are_hottest_witness :
  Forall (fun c => PyFloat.is_nan
                     (calculate_heat_score Scenario.categories_config c)
                   = false) Scenario.grouped
  /\ exists ranking,
      (calculate_all_heat_scores Scenario.categories_config Scenario.grouped
         fresh).1 = inr ranking
      /\ (0 <= 1 ->
          Z.of_nat (length (get_top_topics ranking 1))
          = Z.min 1 (Z.of_nat (length Scenario.grouped))).
Proof.
  assert (Forall (fun c => PyFloat.is_nan
                             (calculate_heat_score Scenario.categories_config c)
                           = false) Scenario.grouped) as H
    by (refine (bool_decide_unpack _ _); vm_compute; exact I).
  split; [exact H|].
  destruct (top_topics_are_hottest Scenario.categories_config Scenario.grouped
              fresh 1 H) as (ranking & Hrun & Hlen & _).
  exact (ex_intro _ ranking (conj Hrun Hlen)).
Defined.

Lemma run_files_witness :
  keeps_files Scenario.generate_report
  /\ (written (Scenario.run Scenario.config).2
      = written (Scenario.fetch_all_articles (at_fetch "早间" fresh)).2
      \/ exists topics sorted files,
           topics <> []
           /\ NoDup (links_of topics)
           /\ sorted ≡ₚ scored_topic Scenario.categories_config <$> topics
           /\ (Forall scored (scored_topic Scenario.categories_config <$> topics) ->
               sorted
               = sort_desc (scored_topic Scenario.categories_config <$> topics))
           /\ ScoredTopic.rank <$> assign_ranks sorted
              = Some <$> seq 1 (length topics)
           /\ written (Scenario.run Scenario.config).2
              = written (Scenario.fetch_all_articles (at_fetch "早间" fresh)).2
                ++ [TopicsFile "2026-02-05" topics;
                    HeatFile "2026-02-05" "早间" (assign_ranks sorted)]
                ++ files).
Proof.
  assert (keeps_files Scenario.generate_report) as H.
  { intros tops slot date n w0. exists [ReportFile date slot tops].
    reflexivity. }
  split; [exact H|].
  apply (run_files Scenario.config Scenario.categories_config Scenario.service
           Scenario.json_loads id Scenario.loads_analysis
           Scenario.fetch_all_articles
           "2026-02-05" Scenario.generate_report "早间" fresh H).
Defined.

Lemma grouped_clusters_total_witness :
  py_iter Scenario.reply = inr [Scenario.group "X"; Scenario.group "Y"]
  /\ Forall (fun g => well_formed_group g = true)
       [Scenario.group "X"; Scenario.group "Y"]
  /\ exists clusters,
      grouped_clusters (collect_topics Scenario.analysed) Scenario.reply
      = inr clusters.
Proof.
  assert (Forall (fun g => well_formed_group g = true)
            [Scenario.group "X"; Scenario.group "Y"]) as H
    by (repeat constructor).
  split; [reflexivity|]. split; [exact H|].
  apply (grouped_clusters_total (collect_topics Scenario.analysed)
           Scenario.reply [Scenario.group "X"; Scenario.group "Y"]
           eq_refl H).
Defined.

Lemma malformed_group_voids_witness :
  py_iter (JArr [Scenario.group "X"; JObj [("merged_topics", JArr [])]])
  = inr ([Scenario.group "X"] ++ JObj [("merged_topics", JArr [])] :: [])
  /\ Forall (fun g => well_formed_group g = true) [Scenario.group "X"]
  /\ group_error (JObj [("merged_topics", JArr [])])
     = Some (KeyError "canonical_name")
  /\ grouped_clusters (collect_topics Scenario.analysed)
       (JArr [Scenario.group "X"; JObj [("merged_topics", JArr [])]])
     = inl (KeyError "canonical_name").
Proof.
  assert (Forall (fun g => well_formed_group g = true) [Scenario.group "X"])
    as H by (repeat constructor).
  split; [reflexivity|]. split; [exact H|]. split; [reflexivity|].
  apply (malformed_group_voids (collect_topics Scenario.analysed)
           (JArr [Scenario.group "X"; JObj [("merged_topics", JArr [])]])
           [Scenario.group "X"] (JObj [("merged_topics", JArr [])]) []
           (KeyError "canonical_name") eq_refl H eq_refl).
Defined.

Lemma recommendation_at_most_300_witness :
  (forall s, (py_len (id s) <= py_len s)%nat)
  /\ (py_len (generate_recommendation id "none" (inr (py_times "字" 301)))
      <= 300)%nat.
Proof.
  assert (forall s, (py_len (id s) <= py_len s)%nat) as H
    by (intros s; apply Nat.le_refl).
  split; [exact H|].
  apply (recommendation_at_most_300 id "none" (py_times "字" 301) H).
Defined.

Lemma heat_score_bounds_witness :
  in_unit_interval (PyFloat.decimal 7 1)
  /\ Forall (fun cat => in_unit_interval (Category.priority_weight cat))
       (categories Scenario.categories_config)
  /\ PyFloat.leb
       (calculate_heat_score Scenario.categories_config
          (TopicCluster.mk (JStr "X") (JStr industry_news) [] 2
             (PyFloat.decimal 7 1)))
       (PyFloat.of_Z 100) = true.
Proof.
  assert (in_unit_interval (PyFloat.decimal 7 1)) as Hdepth
    by (split_and!; vm_compute; reflexivity).
  assert (Forall (fun cat => in_unit_interval (Category.priority_weight cat))
            (categories Scenario.categories_config)) as Hweights
    by (repeat constructor; vm_compute; reflexivity).
  split; [exact Hdepth|]. split; [exact Hweights|].
  apply (heat_score_bounds Scenario.categories_config
           (TopicCluster.mk (JStr "X") (JStr industry_news) [] 2
              (PyFloat.decimal 7 1)) Hdepth Hweights).
Defined.


Lemma mean_in_unit_interval_witness :
  Forall in_unit_interval [PyFloat.decimal 8 1; PyFloat.decimal 6 1]
  /\ Z.of_nat (length [PyFloat.decimal 8 1; PyFloat.decimal 6 1]) < 2 ^ 53
  /\ in_unit_interval (mean [PyFloat.decimal 8 1; PyFloat.decimal 6 1]).
Proof.
  assert (Forall in_unit_interval [PyFloat.decimal 8 1; PyFloat.decimal 6 1])
    as Hds by (repeat constructor; vm_compute; reflexivity).
  assert (Z.of_nat (length [PyFloat.decimal 8 1; PyFloat.decimal 6 1]) < 2 ^ 53)
    as Hlen by reflexivity.
  split; [exact Hds|]. split; [exact Hlen|].
  apply (mean_in_unit_interval [PyFloat.decimal 8 1; PyFloat.decimal 6 1]
           Hds Hlen).
Defined.

Lemma avg_depth_in_unit_interval_witness :
  depths_in_unit_interval [Scenario.two_topics]
  /\ Z.of_nat (length (collect_topics [Scenario.two_topics])) < 2 ^ 53
  /\ exists clusters,
      (cluster_topics Scenario.config Scenario.unavailable Scenario.json_loads
         id [Scenario.two_topics] fresh).1 = inr clusters
      /\ Forall (fun c => in_unit_interval (TopicCluster.avg_depth c)) clusters.
Proof.
  assert (depths_in_unit_interval [Scenario.two_topics]) as Hdepths.
  { intros a t d Ha Hlook. apply list_elem_of_singleton in Ha as ->.
    change (Article.discussion_depth Scenario.two_topics)
      with ({[ "X" := PyFloat.decimal 8 1 ]} : gmap string float) in Hlook.
    apply lookup_singleton_Some in Hlook as [_ <-].
    split_and!; vm_compute; reflexivity. }
  assert (Z.of_nat (length (collect_topics [Scenario.two_topics])) < 2 ^ 53)
    as Hlen by reflexivity.
  split; [exact Hdepths|]. split; [exact Hlen|].
  apply (avg_depth_in_unit_interval Scenario.config Scenario.unavailable
           Scenario.json_loads id [Scenario.two_topics] fresh Hdepths Hlen).
Defined.

Lemma ranking_sorted_in_range_witness :
  Forall (fun c => in_unit_interval (TopicCluster.avg_depth c)) Scenario.grouped
  /\ Forall (fun cat => in_unit_interval (Category.priority_weight cat))
       (categories Scenario.categories_config)
  /\ exists ranking,
      (calculate_all_heat_scores Scenario.categories_config Scenario.grouped
         fresh).1 = inr ranking
      /\ Forall in_range ranking.
Proof.
  assert (Forall (fun c => in_unit_interval (TopicCluster.avg_depth c))
            Scenario.grouped) as Hdepths
    by (repeat constructor; vm_compute; reflexivity).
  assert (Forall (fun cat => in_unit_interval (Category.priority_weight cat))
            (categories Scenario.categories_config)) as Hweights
    by (repeat constructor; vm_compute; reflexivity).
  split; [exact Hdepths|]. split; [exact Hweights|].
  destruct (ranking_sorted_in_range Scenario.categories_config
              Scenario.grouped fresh Hdepths Hweights)
    as (ranking & Hrun & _ & _ & Hrange).
  exact (ex_intro _ ranking (conj Hrun Hrange)).
Defined.
